(** * pdf-text-mcp: the Python MCP client (packages/pdf-mcp-client)

    A shallow embedding of [pdf_mcp_client.protocol], [pdf_mcp_client.utils]
    and [pdf_mcp_client.http_client], and the properties of the
    specification that concern them.

    Python objects that travel through the client are JSON values; they are
    modelled by [pyval].  Exceptions are modelled by [exn], and a Python
    function that may raise returns a [result].  The file system, the HTTP
    server and the standard-library functions the client calls without
    defining them ([json.loads], [urllib.parse.urljoin], [repr] of floats and
    containers) are parameters of the development. *)

From Stdlib Require Import ZArith String Ascii List.
From Stdlib Require Import Strings.Byte.
From Stdlib Require Import Floats.PrimFloat.
From stdpp Require Import gmap strings pretty.

Local Open Scope string_scope.
Local Open Scope Z_scope.

Set Warnings "-register-all".

(** ** Python values *)

(** The values [json.loads] can produce, which are also the values the client
    puts into a request: [None], [bool], [int], [float], [str], [list] and
    [dict] with [str] keys.  A Python [int] is unbounded, hence [Z]; a Python
    [float] is an IEEE binary64, hence a primitive float; a [dict] compares
    equal to another one regardless of insertion order, hence [gmap].
    A [str] is a [string]; each [ascii] stands for one character. *)
Inductive pyval :=
  | PyNone
  | PyBool (b : bool)
  | PyInt (z : Z)
  | PyFloat (f : float)
  | PyStr (s : string)
  | PyList (l : list pyval)
  | PyDict (d : gmap string pyval).

(** ** Exceptions *)

(** What can go wrong between [httpx] and the server without an HTTP response
    coming back.  [httpx] raises a subclass of [httpx.TransportError] for each
    ([ConnectError] for a refused connection or a failed name lookup,
    [ConnectTimeout] and [ReadTimeout] for the two timeouts, and so on). *)
Inductive network_failure :=
  | ConnectionRefused
  | DNSFailure
  | ConnectTimedOut
  | ReadTimedOut
  | ConnectionReset.

Inductive exn :=
  | FileNotFoundError (msg : string)
  | IsADirectoryError (msg : string)
  | ValueError (msg : string)
  | JSONDecodeError                       (* json.JSONDecodeError, a ValueError *)
  | UnicodeDecodeError                    (* a ValueError *)
  | RecursionError                        (* a RuntimeError *)
  | KeyError (key : pyval)
  | IndexError
  | AttributeError (obj : pyval) (attr : string)
  | TypeError (obj : pyval)
  | HTTPStatusError (status_code : Z)     (* httpx.HTTPStatusError *)
  | TransportError (f : network_failure). (* httpx.TransportError family *)

(** The class hierarchy, as far as an [except] clause or a caller's
    [pytest.raises] can observe it. *)
Definition is_HTTPError (e : exn) : bool :=
  match e with
  | HTTPStatusError _ | TransportError _ => true
  | _ => false
  end.

Definition is_ValueError (e : exn) : bool :=
  match e with
  | ValueError _ | JSONDecodeError | UnicodeDecodeError => true
  | _ => false
  end.

(** The ways [json.loads] and [response.json()] fail: a text that is no
    JSON, a body whose bytes are no text in the encoding detected, and a
    text nested deeper than the interpreter recurses. *)
Inductive parse_failure :=
  | Malformed
  | Undecodable
  | TooDeep.

Definition parse_error (f : parse_failure) : exn :=
  match f with
  | Malformed => JSONDecodeError
  | Undecodable => UnicodeDecodeError
  | TooDeep => RecursionError
  end.

Definition is_OSError (e : exn) : bool :=
  match e with
  | FileNotFoundError _ | IsADirectoryError _ => true
  | _ => false
  end.

Definition is_LookupError (e : exn) : bool :=
  match e with
  | KeyError _ | IndexError => true
  | _ => false
  end.

Inductive result (A : Type) :=
  | Ok (a : A)
  | Raise (e : exn).
Arguments Ok {A} a.
Arguments Raise {A} e.

Definition is_Ok {A} (r : result A) : bool :=
  match r with Ok _ => true | Raise _ => false end.

(** ** A state and exception monad

    [M S A] is a computation over a mutable state [S] that returns an [A] or
    raises.  The state survives an exception: what a method did to [self]
    before it raised stays done. *)
Definition M (S A : Type) : Type := S -> result A * S.

Definition ret {S A} (a : A) : M S A := fun s => (Ok a, s).
Definition raise {S A} (e : exn) : M S A := fun s => (Raise e, s).
Definition bind {S A B} (m : M S A) (k : A -> M S B) : M S B :=
  fun s => match m s with
           | (Ok a, s') => k a s'
           | (Raise e, s') => (Raise e, s')
           end.
Definition lift {S A} (r : result A) : M S A := fun s => (r, s).
Definition get_state {S} : M S S := fun s => (Ok s, s).
Definition modify {S} (f : S -> S) : M S unit := fun s => (Ok tt, f s).

Notation "'let!' x ':=' c 'in' k" := (bind c (fun x => k))
  (at level 10, x pattern, c at level 100, k at level 200).
Notation "c ';;' k" := (bind c (fun _ => k))
  (at level 100, k at level 200, right associativity).

(** ** Python operations on values *)

Module Py.

(** [bool(v)]: the truth value tested by [not v]. *)
Definition truthy (v : pyval) : bool :=
  match v with
  | PyNone => false
  | PyBool b => b
  | PyInt z => negb (z =? 0)
  | PyFloat f => negb (PrimFloat.eqb f 0%float)
  | PyStr s => negb (String.eqb s "")
  | PyList l => match l with [] => false | _ => true end
  | PyDict d => negb (bool_decide (d = ∅))
  end.

(** [v == s] for a [str] literal [s]: only an equal [str] compares equal. *)
Definition eq_str (v : pyval) (s : string) : bool :=
  match v with
  | PyStr t => String.eqb t s
  | _ => false
  end.

(** [sub in s] for two [str]. *)
Fixpoint substring_of (sub s : string) : bool :=
  String.prefix sub s ||
  match s with
  | EmptyString => false
  | String _ s' => substring_of sub s'
  end.

(** [key in v] for a [str] literal [key]. *)
Definition contains_str (key : string) (v : pyval) : result bool :=
  match v with
  | PyDict d => Ok (bool_decide (is_Some (d !! key)))
  | PyList l => Ok (existsb (fun x => eq_str x key) l)
  | PyStr s => Ok (substring_of key s)
  | _ => Raise (TypeError v)          (* argument is not iterable *)
  end.

(** [v.get(key, default)]: only a [dict] has the method. *)
Definition get (v : pyval) (key : string) (default : pyval) : result pyval :=
  match v with
  | PyDict d => Ok (match d !! key with Some x => x | None => default end)
  | _ => Raise (AttributeError v "get")
  end.

(** [v[key]] for a [str] literal [key]. *)
Definition getitem_str (v : pyval) (key : string) : result pyval :=
  match v with
  | PyDict d => match d !! key with
                | Some x => Ok x
                | None => Raise (KeyError (PyStr key))
                end
  | PyList _ | PyStr _ => Raise (TypeError (PyStr key)) (* indices must be integers *)
  | _ => Raise (TypeError v)                            (* not subscriptable *)
  end.

(** [v[0]]. *)
Definition getitem_0 (v : pyval) : result pyval :=
  match v with
  | PyList l => match l with
                | x :: _ => Ok x
                | [] => Raise IndexError
                end
  | PyStr s => match s with
               | String c _ => Ok (PyStr (String c EmptyString))
               | EmptyString => Raise IndexError
               end
  | PyDict d => Raise (KeyError (PyInt 0))   (* the keys are all [str] *)
  | _ => Raise (TypeError v)                 (* not subscriptable *)
  end.

End Py.

(** ** protocol.py *)

Module MCPProtocol.

(** [request_id: int | str] *)
Inductive request_id :=
  | IntId (z : Z)
  | StrId (s : string).

Definition id_value (i : request_id) : pyval :=
  match i with
  | IntId z => PyInt z
  | StrId s => PyStr s
  end.

(** [return {"jsonrpc": "2.0", "id": request_id, "method": method,
            "params": params}] *)
Definition create_request (method : string) (params : gmap string pyval)
    (rid : request_id) : pyval :=
  PyDict (<["jsonrpc" := PyStr "2.0"]>
         (<["id" := id_value rid]>
         (<["method" := PyStr method]>
         (<["params" := PyDict params]> ∅)))).

(** [return MCPProtocol.create_request(method="tools/call",
      params={"name": tool_name, "arguments": arguments},
      request_id=request_id)] *)
Definition create_tool_call_request (tool_name : string)
    (arguments : gmap string pyval) (rid : request_id) : pyval :=
  create_request "tools/call"
    (<["name" := PyStr tool_name]> (<["arguments" := PyDict arguments]> ∅))
    rid.

(** The default of the [request_id] parameter of both functions. *)
Definition default_request_id : request_id := IntId 1.

End MCPProtocol.

(** ** base64 (RFC 4648, section 4), as [base64.b64encode] and
       [base64.b64decode] of the Python standard library compute it *)

Module Base64.

(** The standard alphabet: [+] and [/] for the values 62 and 63 (the URL-safe
    alphabet has [-] and [_] there). *)
Definition alphabet : string :=
  "ABCDEFGHIJKLMNOPQRSTUVWXYZabcdefghijklmnopqrstuvwxyz0123456789+/".

Definition pad : ascii := "="%char.

(** The character of a 6-bit value. *)
Definition b2a (i : Z) : ascii :=
  match String.get (Z.to_nat i) alphabet with
  | Some c => c
  | None => pad
  end.

Fixpoint index_of (c : ascii) (s : string) (i : Z) : option Z :=
  match s with
  | EmptyString => None
  | String a s' => if Ascii.eqb a c then Some i else index_of c s' (i + 1)
  end.

(** The 6-bit value of a character of the alphabet. *)
Definition a2b (c : ascii) : option Z := index_of c alphabet 0.

Definition byte_val (b : byte) : Z := Z.of_N (Byte.to_N b).
Definition byte_of (z : Z) : option byte := Byte.of_N (Z.to_N z).

(** Three bytes make a 24-bit group, written as four characters of six bits
    each; a final group of one byte (two bytes) is filled with zero bits to
    12 (18) bits and written as two (three) characters and two (one) [=].
    Nothing else is written: no line breaks. *)
Fixpoint encode (bs : list byte) : list ascii :=
  match bs with
  | [] => []
  | [b0] =>
      let n := byte_val b0 * 16 in
      [b2a (n / 64); b2a (n mod 64); pad; pad]
  | [b0; b1] =>
      let n := (byte_val b0 * 256 + byte_val b1) * 4 in
      [b2a (n / 4096); b2a ((n / 64) mod 64); b2a (n mod 64); pad]
  | b0 :: b1 :: b2 :: rest =>
      let n := byte_val b0 * 65536 + byte_val b1 * 256 + byte_val b2 in
      b2a (n / 262144) :: b2a ((n / 4096) mod 64) ::
      b2a ((n / 64) mod 64) :: b2a (n mod 64) :: encode rest
  end.

(** [base64.b64encode(bs).decode("ascii")] *)
Definition b64encode (bs : list byte) : string :=
  string_of_list_ascii (encode bs).

(** The decoder: groups of four characters of the alphabet, the last of
    which may end in one or two [=]; anything else is rejected. *)
Fixpoint decode (cs : list ascii) : option (list byte) :=
  match cs with
  | [] => Some []
  | c0 :: c1 :: c2 :: c3 :: rest =>
      v0 ← a2b c0;
      v1 ← a2b c1;
      if Ascii.eqb c3 pad then
        match rest with
        | [] =>
            if Ascii.eqb c2 pad then
              b0 ← byte_of ((v0 * 64 + v1) / 16);
              Some [b0]
            else
              v2 ← a2b c2;
              let n := (v0 * 4096 + v1 * 64 + v2) / 4 in
              b0 ← byte_of (n / 256);
              b1 ← byte_of (n mod 256);
              Some [b0; b1]
        | _ :: _ => None
        end
      else
        v2 ← a2b c2;
        v3 ← a2b c3;
        let n := v0 * 262144 + v1 * 4096 + v2 * 64 + v3 in
        b0 ← byte_of (n / 65536);
        b1 ← byte_of ((n / 256) mod 256);
        b2 ← byte_of (n mod 256);
        tl ← decode rest;
        Some (b0 :: b1 :: b2 :: tl)
  | _ => None
  end.

(** [base64.b64decode(s)] *)
Definition b64decode (s : string) : option (list byte) :=
  decode (list_ascii_of_string s).

End Base64.

(** ** pathlib, as far as [utils.py] uses it (POSIX flavour) *)

Module Pathlib.

(** A parsed path: the root ([""] for a relative path, ["/"], or ["//"] for
    exactly two leading slashes) and the components, where empty components
    and ["."] are dropped, as the [Path] constructor does. *)
Record Path := mkPath { root : string; parts : list string }.

#[global] Instance Path_eq_dec : EqDecision Path.
Proof. solve_decision. Defined.

Fixpoint split_on (sep : ascii) (s : string) : list string :=
  match s with
  | EmptyString => [EmptyString]
  | String c s' =>
      if Ascii.eqb c sep then EmptyString :: split_on sep s'
      else match split_on sep s' with
           | w :: ws => String c w :: ws
           | [] => [String c EmptyString]
           end
  end.

Definition splitroot (s : string) : string :=
  if String.prefix "/" s then
    if String.prefix "//" s && negb (String.prefix "///" s) then "//" else "/"
  else "".

Definition is_component (w : string) : bool :=
  negb (String.eqb w "") && negb (String.eqb w ".").

(** [Path(s)] *)
Definition parse (s : string) : Path :=
  {| root := splitroot s; parts := filter is_component (split_on "/" s) |}.

(** [path.name]: the final component, [""] when there is none. *)
Definition name (p : Path) : string := List.last (parts p) "".

(** [s.rfind(c)]: the highest index of [c] in [s], [-1] when absent. *)
Fixpoint rfind_from (c : ascii) (s : string) (i acc : Z) : Z :=
  match s with
  | EmptyString => acc
  | String a s' => rfind_from c s' (i + 1) (if Ascii.eqb a c then i else acc)
  end.

Definition rfind (c : ascii) (s : string) : Z := rfind_from c s 0 (-1).

Definition len (s : string) : Z := Z.of_nat (String.length s).

(** [s[i:]] for [0 <= i]. *)
Definition slice_from (i : Z) (s : string) : string :=
  String.substring (Z.to_nat i) (String.length s - Z.to_nat i) s.

(** [path.suffix] (CPython 3.8 to 3.12):
    [i = name.rfind('.')]; [name[i:]] if [0 < i < len(name) - 1], else [''].
    A leading dot does not start a suffix, a trailing dot is none. *)
Definition suffix (p : Path) : string :=
  let nm := name p in
  let i := rfind "." nm in
  if (0 <? i) && (i <? len nm - 1) then slice_from i nm else "".

(** [c.lower()] on the letters [A] to [Z]; other characters are unchanged. *)
Definition lower_ascii (c : ascii) : ascii :=
  let n := nat_of_ascii c in
  if (65 <=? n)%nat && (n <=? 90)%nat then ascii_of_nat (n + 32) else c.

(** [s.lower()] *)
Fixpoint lower (s : string) : string :=
  match s with
  | EmptyString => EmptyString
  | String c s' => String (lower_ascii c) (lower s')
  end.

(** [path.is_absolute()] *)
Definition is_absolute (p : Path) : bool := negb (String.eqb (root p) "").

(** [str(path)] *)
Definition to_string (p : Path) : string :=
  match parts p with
  | [] => if String.eqb (root p) "" then "." else root p
  | w :: ws => root p ++ fold_left (fun acc x => acc ++ "/" ++ x) ws w
  end.

End Pathlib.

(** ** The world of the client: file system and server *)

(** What [os.stat] finds at a path, symbolic links followed. *)
Inductive node :=
  | File (data : list byte)
  | Directory.

(** A snapshot of the file system: what is at a path, and the canonical
    absolute path [Path.resolve] computes for it. *)
Record FileSystem := {
  fs_stat : Pathlib.Path -> option node;
  fs_resolve : Pathlib.Path -> Pathlib.Path
}.

Record http_response := {
  status_code : Z;
  content : string
}.

(** A request either comes back with a response, of any status, or fails
    in transit. *)
Inductive http_outcome :=
  | Responded (r : http_response)
  | Failed (f : network_failure).

(** What the client does to the world, in the order it does it. *)
Inductive event :=
  | PathExists (p : Pathlib.Path)
  | PathResolve (p : Pathlib.Path)
  | PathStat (p : Pathlib.Path)
  | OpenRead (p : Pathlib.Path)
  | HttpPost (url : string) (headers : gmap string string) (json : pyval)
  | HttpGet (url : string) (headers : gmap string string).

Definition is_open (e : event) : bool :=
  match e with OpenRead _ => true | _ => false end.

(** Everything the client depends on and does not define:
    - [json_loads s]: [json.loads(s)], [None] when it raises;
    - [json_failure s]: how [json.loads(s)] fails, when it does;
    - [urljoin]: [urllib.parse.urljoin];
    - [py_repr]: [repr] of a float, a list or a dict;
    - [fs]: the file system;
    - [net]: the outcome of the request sent last, given everything the
      client has done so far (the request is the last event). *)
Record environment := {
  json_loads : string -> option pyval;
  json_failure : string -> parse_failure;
  urljoin : string -> string -> string;
  py_repr : pyval -> string;
  fs : FileSystem;
  net : list event -> http_outcome
}.

(** ** utils.py *)

Module PDFUtils.
Section WithEnvironment.

Variable env : environment.

Definition IO (A : Type) : Type := M (list event) A.

Definition emit (e : event) : IO unit := modify (fun log => (log ++ [e])%list).

(** [str(e)] of the [OSError] the operating system reports for a path (one
    that [repr] shows between single quotes, unescaped). *)
Definition strerror (errno : Z) (description : string) (p : Pathlib.Path)
    : string :=
  "[Errno " ++ pretty errno ++ "] " ++ description ++ ": '" ++
  Pathlib.to_string p ++ "'".

(** [path.exists()] *)
Definition path_exists (p : Pathlib.Path) : IO bool :=
  emit (PathExists p);;
  ret (match fs_stat (fs env) p with Some _ => true | None => false end).

(** [path.resolve()] *)
Definition path_resolve (p : Pathlib.Path) : IO Pathlib.Path :=
  emit (PathResolve p);;
  ret (fs_resolve (fs env) p).

(** [with open(path, "rb") as f: f.read()] *)
Definition open_read (p : Pathlib.Path) : IO (list byte) :=
  emit (OpenRead p);;
  match fs_stat (fs env) p with
  | Some (File data) => ret data
  | Some Directory =>
      raise (IsADirectoryError (strerror 21 "Is a directory" p))
  | None =>
      raise (FileNotFoundError (strerror 2 "No such file or directory" p))
  end.

(** [[
    path = Path(pdf_path)
    if not path.exists():
        raise FileNotFoundError(f"PDF file not found: {pdf_path}")
    if path.suffix.lower() != ".pdf":
        raise ValueError(f"File is not a PDF: {pdf_path}")
    return path.resolve()
    ]] *)
Definition validate_pdf_path (pdf_path : string) : IO Pathlib.Path :=
  let path := Pathlib.parse pdf_path in
  let! found := path_exists path in
  if negb found then
    raise (FileNotFoundError ("PDF file not found: " ++ pdf_path))
  else if negb (String.eqb (Pathlib.lower (Pathlib.suffix path)) ".pdf") then
    raise (ValueError ("File is not a PDF: " ++ pdf_path))
  else
    path_resolve path.

(** [[
    path = PDFUtils.validate_pdf_path(pdf_path)
    with open(path, "rb") as f:
        pdf_bytes = f.read()
    return base64.b64encode(pdf_bytes).decode("ascii")
    ]] *)
Definition read_pdf_as_base64 (pdf_path : string) : IO string :=
  let! path := validate_pdf_path pdf_path in
  let! pdf_bytes := open_read path in
  ret (Base64.b64encode pdf_bytes).

End WithEnvironment.
End PDFUtils.

(** ** http_client.py *)

Module MCPHTTPClient.

(** The attributes of an instance.  The [httpx.AsyncClient] it owns is
    represented by what it was configured with (headers and timeouts). *)
Record t := {
  base_url : string;
  mcp_endpoint : string;
  headers : gmap string string;
  timeout : float;
  read_timeout : float;
  _request_id : Z
}.

(** [tool_name: Literal["extract_text", "extract_metadata"]] *)
Inductive tool_name :=
  | extract_text_tool
  | extract_metadata_tool.

Definition tool_str (tool : tool_name) : string :=
  match tool with
  | extract_text_tool => "extract_text"
  | extract_metadata_tool => "extract_metadata"
  end.

(** A method runs on one instance ([self]) in a world with a history. *)
Record state := {
  self : t;
  log : list event
}.

Definition set_request_id (n : Z) (c : t) : t :=
  {| base_url := base_url c; mcp_endpoint := mcp_endpoint c;
     headers := headers c; timeout := timeout c;
     read_timeout := read_timeout c; _request_id := n |}.

(** [s.rstrip("/")] *)
Fixpoint rstrip_slash (s : string) : string :=
  match s with
  | EmptyString => EmptyString
  | String c s' =>
      let r := rstrip_slash s' in
      if String.eqb r "" && Ascii.eqb c "/" then EmptyString else String c r
  end.

(** An [except cls:] clause around [body]: [handles] tells the exceptions
    that are instances of [cls]. *)
Definition try_except {S A} (body : M S A) (handles : exn -> bool)
    (handler : M S A) : M S A :=
  fun s => match body s with
           | (Raise e, s') => if handles e then handler s' else (Raise e, s')
           | ok => ok
           end.

Section WithEnvironment.

Variable env : environment.

(** [__init__]; the defaults of [timeout] and [read_timeout] are 30.0 and
    60.0, and [api_key] defaults to [None]. *)
Definition init (base : string) (api_key : option string)
    (tmo read_tmo : float) : t :=
  let base' := rstrip_slash base in
  let hdrs : gmap string string :=
    <["Content-Type" := "application/json"]>
    (<["Accept" := "application/json, text/event-stream"]> ∅) in
  {| base_url := base';
     mcp_endpoint := urljoin env (base' ++ "/") "mcp";
     headers := match api_key with
                | Some key =>
                    if String.eqb key "" then hdrs
                    else <["Authorization" := "Bearer " ++ key]> hdrs
                | None => hdrs
                end;
     timeout := tmo;
     read_timeout := read_tmo;
     _request_id := 0 |}.

Definition new_state (c : t) : state := {| self := c; log := [] |}.

(** [[
    self._request_id += 1
    return self._request_id
    ]] *)
Definition _next_request_id : M state Z :=
  modify (fun st => {| self := set_request_id (_request_id (self st) + 1) (self st);
                       log := log st |});;
  let! st := get_state in
  ret (_request_id (self st)).

(** A computation on the world alone, run by a method. *)
Definition on_world {A} (m : PDFUtils.IO A) : M state A :=
  fun st => match m (log st) with
            | (r, log') => (r, {| self := self st; log := log' |})
            end.

(** [await self.client.post(url, json=body)] *)
Definition client_post (url : string) (body : pyval) : M state http_response :=
  let! st := get_state in
  on_world (PDFUtils.emit (HttpPost url (headers (self st)) body));;
  let! st' := get_state in
  match net env (log st') with
  | Responded r => ret r
  | Failed f => raise (TransportError f)
  end.

(** [await self.client.get(url)] *)
Definition client_get (url : string) : M state http_response :=
  let! st := get_state in
  on_world (PDFUtils.emit (HttpGet url (headers (self st))));;
  let! st' := get_state in
  match net env (log st') with
  | Responded r => ret r
  | Failed f => raise (TransportError f)
  end.

(** [response.is_success] of [httpx]: a 2xx status. *)
Definition is_success (r : http_response) : bool :=
  (200 <=? status_code r) && (status_code r <=? 299).

(** [response.raise_for_status()] of [httpx] *)
Definition raise_for_status (r : http_response) : M state unit :=
  if is_success r then ret tt else raise (HTTPStatusError (status_code r)).

(** [response.json()] of [httpx]: [json.loads] of the body. *)
Definition response_json (r : http_response) : result pyval :=
  match json_loads env (content r) with
  | Some v => Ok v
  | None => Raise (parse_error (json_failure env (content r)))
  end.

(** [json.loads(v)]: the argument has to be a [str]. *)
Definition json_loads_value (v : pyval) : result pyval :=
  match v with
  | PyStr s => match json_loads env s with
               | Some x => Ok x
               | None => Raise (parse_error (json_failure env s))
               end
  | _ => Raise (TypeError v)
  end.

(** [f"{v}"] *)
Definition format (v : pyval) : string :=
  match v with
  | PyNone => "None"
  | PyBool true => "True"
  | PyBool false => "False"
  | PyInt z => pretty z
  | PyStr s => s
  | PyFloat _ | PyList _ | PyDict _ => py_repr env v
  end.

(** [f"MCP error [{error.get('code')}]: {error.get('message')}"] *)
Definition mcp_error_message (code message : pyval) : string :=
  "MCP error [" ++ format code ++ "]: " ++ format message.

(** [[
    request = MCPProtocol.create_tool_call_request(
        tool_name=tool_name,
        arguments={"fileContent": file_content_base64},
        request_id=self._next_request_id())
    response = await self.client.post(self.mcp_endpoint, json=request)
    response.raise_for_status()
    rpc_response = response.json()
    if "error" in rpc_response:
        error = rpc_response["error"]
        raise ValueError(
            f"MCP error [{error.get('code')}]: {error.get('message')}")
    result = rpc_response.get("result", {})
    content_items = result.get("content", [])
    if not content_items:
        return {}
    first_item = content_items[0]
    if first_item.get("type") == "text":
        return json.loads(first_item["text"])
    return {}
    ]] *)
Definition _call_tool (tool : tool_name) (file_content_base64 : string)
    : M state pyval :=
  let! rid := _next_request_id in
  let request :=
    MCPProtocol.create_tool_call_request (tool_str tool)
      (<["fileContent" := PyStr file_content_base64]> ∅)
      (MCPProtocol.IntId rid) in
  let! st := get_state in
  let! response := client_post (mcp_endpoint (self st)) request in
  raise_for_status response;;
  let! rpc_response := lift (response_json response) in
  let! has_error := lift (Py.contains_str "error" rpc_response) in
  if has_error then
    let! error := lift (Py.getitem_str rpc_response "error") in
    let! code := lift (Py.get error "code" PyNone) in
    let! message := lift (Py.get error "message" PyNone) in
    raise (ValueError (mcp_error_message code message))
  else
    let! result := lift (Py.get rpc_response "result" (PyDict ∅)) in
    let! content_items := lift (Py.get result "content" (PyList [])) in
    if negb (Py.truthy content_items) then ret (PyDict ∅)
    else
      let! first_item := lift (Py.getitem_0 content_items) in
      let! ty := lift (Py.get first_item "type" PyNone) in
      if Py.eq_str ty "text" then
        let! text := lift (Py.getitem_str first_item "text") in
        lift (json_loads_value text)
      else ret (PyDict ∅).

(** [[
    base64_content = PDFUtils.read_pdf_as_base64(pdf_path)
    result = await self._call_tool("extract_text", base64_content)
    return result.get("text", "")
    ]] *)
Definition extract_text (pdf_path : string) : M state pyval :=
  let! base64_content := on_world (PDFUtils.read_pdf_as_base64 env pdf_path) in
  let! result := _call_tool extract_text_tool base64_content in
  lift (Py.get result "text" (PyStr "")).

(** [[
    base64_content = PDFUtils.read_pdf_as_base64(pdf_path)
    result = await self._call_tool("extract_metadata", base64_content)
    return result
    ]] *)
Definition extract_metadata (pdf_path : string) : M state pyval :=
  let! base64_content := on_world (PDFUtils.read_pdf_as_base64 env pdf_path) in
  let! result := _call_tool extract_metadata_tool base64_content in
  ret result.

(** [[
    try:
        response = await self.client.get(urljoin(self.base_url + "/", "health"))
        return response.status_code == 200
    except httpx.HTTPError:
        return False
    ]] *)
Definition health_check : M state bool :=
  try_except
    (let! st := get_state in
     let! response :=
       client_get (urljoin env (base_url (self st) ++ "/") "health") in
     ret (status_code response =? 200))
    is_HTTPError
    (ret false).

End WithEnvironment.
End MCPHTTPClient.

(** * Vocabulary of the statements *)

(** What it is for a value to be exactly the mapping of the four members
    of a request. *)
Definition is_request (v : pyval) (rid method params : pyval) : Prop :=
  exists d : gmap string pyval,
    v = PyDict d /\
    dom d = ({["jsonrpc"; "id"; "method"; "params"]} : gset string) /\
    d !! "jsonrpc" = Some (PyStr "2.0") /\
    d !! "id" = Some rid /\
    d !! "method" = Some method /\
    d !! "params" = Some params.

(** A character of the output: of the standard alphabet, or the padding. *)
Definition standard_char (c : ascii) : bool :=
  match Base64.a2b c with Some _ => true | None => Ascii.eqb c Base64.pad end.

(** [s] ends in [ending]. *)
Definition has_ending (ending s : string) : bool :=
  (Pathlib.len ending <=? Pathlib.len s) &&
  String.eqb (Pathlib.slice_from (Pathlib.len s - Pathlib.len ending) s) ending.

(** The name of the path ends in [.pdf], in any letter case. *)
Definition name_ends_in_pdf (p : Pathlib.Path) : bool :=
  has_ending ".pdf" (Pathlib.lower (Pathlib.name p)).

(** The extension of the path is [.pdf], compared case-insensitively. *)
Definition has_pdf_suffix (p : Pathlib.Path) : bool :=
  String.eqb (Pathlib.lower (Pathlib.suffix p)) ".pdf".

(** *** A small file system

    A file system given by a working directory, a table of symbolic links
    (absolute path of the link, absolute path it resolves to) and a table of
    what is at each absolute path. *)
Definition absolutize (cwd : list string) (p : Pathlib.Path) : Pathlib.Path :=
  if Pathlib.is_absolute p then p
  else {| Pathlib.root := "/"; Pathlib.parts := (cwd ++ Pathlib.parts p)%list |}.

Fixpoint assoc {A} (p : Pathlib.Path) (tbl : list (Pathlib.Path * A)) : option A :=
  match tbl with
  | [] => None
  | (q, a) :: tbl' => if decide (p = q) then Some a else assoc p tbl'
  end.

Definition table_fs (cwd : list string)
    (links : list (Pathlib.Path * Pathlib.Path))
    (nodes : list (Pathlib.Path * node)) : FileSystem :=
  let resolve p :=
    let a := absolutize cwd p in
    match assoc a links with Some target => target | None => a end in
  {| fs_resolve := resolve;
     fs_stat := fun p => assoc (resolve p) nodes |}.

Definition fake_pdf : list byte := [x66; x61; x6b; x65]. (* b"fake" *)

(** [/srv/docs] holds a PDF with an upper-case extension, a text file, a
    file named [.pdf] and a symbolic link [link.pdf] to the text file;
    [/srv/scans.pdf] and [/srv/.pdf] are directories. *)
Definition demo_fs : FileSystem :=
  table_fs ["srv"; "docs"]
    [(Pathlib.parse "/srv/docs/link.pdf", Pathlib.parse "/srv/docs/notes.txt")]
    [(Pathlib.parse "/srv", Directory);
     (Pathlib.parse "/srv/docs", Directory);
     (Pathlib.parse "/srv/docs/report.PDF", File fake_pdf);
     (Pathlib.parse "/srv/docs/empty.pdf", File []);
     (Pathlib.parse "/srv/docs/notes.txt", File [x68; x69]);
     (Pathlib.parse "/srv/docs/.pdf", File fake_pdf);
     (Pathlib.parse "/srv/scans.pdf", Directory);
     (Pathlib.parse "/srv/.pdf", Directory)].

(** What [Path.resolve] promises of a path, whatever is at it: the result
    is absolute, resolving it again gives it back (no symbolic link is left
    in it), and it is a path of the same file: what is at the result is what
    is at the path. *)
Record resolves_canonically (f : FileSystem) : Prop := {
  resolve_absolute : forall p, Pathlib.is_absolute (fs_resolve f p) = true;
  resolve_resolved : forall p, fs_resolve f (fs_resolve f p) = fs_resolve f p;
  resolve_same_file : forall p, fs_stat f (fs_resolve f p) = fs_stat f p
}.

(** The links of a table lead to absolute paths that are no links. *)
Definition links_resolved (links : list (Pathlib.Path * Pathlib.Path)) : bool :=
  forallb (fun lt : Pathlib.Path * Pathlib.Path =>
             Pathlib.is_absolute (snd lt) &&
             match assoc (snd lt) links with None => true | Some _ => false end)
          links.

(** The environment of a machine with the file system [f] and no server
    within reach. *)
Definition offline_env (f : FileSystem) : environment :=
  {| json_loads := fun _ => None;
     json_failure := fun _ => Malformed;
     urljoin := fun b u => b ++ u;
     py_repr := fun _ => "";
     fs := f;
     net := fun _ => Failed ConnectionRefused |}.

(** *** The client and its server *)

(** The request [_call_tool] posts when it is called in the state [st]. *)
Definition tool_request (st : MCPHTTPClient.state)
    (tool : MCPHTTPClient.tool_name) (file_content_base64 : string) : event :=
  HttpPost (MCPHTTPClient.mcp_endpoint (MCPHTTPClient.self st))
    (MCPHTTPClient.headers (MCPHTTPClient.self st))
    (MCPProtocol.create_tool_call_request (MCPHTTPClient.tool_str tool)
       (<["fileContent" := PyStr file_content_base64]> ∅)
       (MCPProtocol.IntId (MCPHTTPClient._request_id (MCPHTTPClient.self st) + 1))).

(** The state once the request is posted: the counter is advanced and the
    request is the last event. *)
Definition requested (st : MCPHTTPClient.state)
    (tool : MCPHTTPClient.tool_name) (file_content_base64 : string)
    : MCPHTTPClient.state :=
  {| MCPHTTPClient.self :=
       MCPHTTPClient.set_request_id
         (MCPHTTPClient._request_id (MCPHTTPClient.self st) + 1)
         (MCPHTTPClient.self st);
     MCPHTTPClient.log :=
       (MCPHTTPClient.log st ++ [tool_request st tool file_content_base64])%list |}.

(** [result.content] of a JSON-RPC response, as the data model has it: the
    [result] member, when present, is a mapping and its [content] member,
    when present, is a sequence. *)
Inductive content_view :=
  | ContentAbsent
  | ContentItems (items : list pyval)
  | ContentIllTyped.

Definition result_content (rpc : gmap string pyval) : content_view :=
  match rpc !! "result" with
  | None => ContentAbsent
  | Some (PyDict result) =>
      match result !! "content" with
      | None => ContentAbsent
      | Some (PyList items) => ContentItems items
      | Some _ => ContentIllTyped
      end
  | Some _ => ContentIllTyped
  end.

(** [_call_tool] starts in [st] when a method, called in [st0] with the
    path [pdf_path], has read and encoded the file. *)
Definition reads_into (env : environment) (st0 : MCPHTTPClient.state)
    (pdf_path file_content_base64 : string) (st : MCPHTTPClient.state) : Prop :=
  PDFUtils.read_pdf_as_base64 env pdf_path (MCPHTTPClient.log st0) =
    (Ok file_content_base64, MCPHTTPClient.log st) /\
  MCPHTTPClient.self st = MCPHTTPClient.self st0.

(** The calls a user of an instance can make, and a sequence of them, each
    awaited before the next; an exception is the caller's to handle and does
    not stop the sequence. *)
Inductive method_call :=
  | ExtractText (pdf_path : string)
  | ExtractMetadata (pdf_path : string)
  | HealthCheck
  | CallTool (tool : MCPHTTPClient.tool_name) (file_content_base64 : string).

Definition run_method (env : environment) (c : method_call)
    (st : MCPHTTPClient.state) : MCPHTTPClient.state :=
  match c with
  | ExtractText p => snd (MCPHTTPClient.extract_text env p st)
  | ExtractMetadata p => snd (MCPHTTPClient.extract_metadata env p st)
  | HealthCheck => snd (MCPHTTPClient.health_check env st)
  | CallTool tool b64 => snd (MCPHTTPClient._call_tool env tool b64 st)
  end.

Definition run_methods (env : environment) (calls : list method_call)
    (st : MCPHTTPClient.state) : MCPHTTPClient.state :=
  fold_left (fun st c => run_method env c st) calls st.

(** The [id] members of the requests posted, in the order they were. *)
Definition posted_id (e : event) : option pyval :=
  match e with
  | HttpPost _ _ (PyDict request) => request !! "id"
  | _ => None
  end.

Definition posted_ids (events : list event) : list pyval :=
  omap posted_id events.

(** [1, 2, ..., k] *)
Definition ids_up_to (k : nat) : list pyval :=
  map (fun i => PyInt (Z.of_nat i)) (seq 1 k).

Definition is_tool_call (c : method_call) : bool :=
  match c with CallTool _ _ => true | _ => false end.

(** A method posts no request and leaves the counter alone, or posts one
    request, with the next number. *)
Definition method_effect (st st' : MCPHTTPClient.state) : Prop :=
  exists events,
    MCPHTTPClient.log st' = (MCPHTTPClient.log st ++ events)%list /\
    ((posted_ids events = [] /\
      MCPHTTPClient._request_id (MCPHTTPClient.self st') = MCPHTTPClient._request_id (MCPHTTPClient.self st)) \/
     (posted_ids events = [PyInt (MCPHTTPClient._request_id (MCPHTTPClient.self st) + 1)] /\
      MCPHTTPClient._request_id (MCPHTTPClient.self st') = MCPHTTPClient._request_id (MCPHTTPClient.self st) + 1)).

(** *** A server for the examples

    [json.loads] is given by a table of the texts that occur; the server
    answers every POST with one outcome and every GET with another. *)
Fixpoint table_json_loads (tbl : list (string * pyval)) (s : string)
    : option pyval :=
  match tbl with
  | [] => None
  | (t, v) :: tbl' => if String.eqb s t then Some v else table_json_loads tbl' s
  end.

Definition fixed_server (post_reply get_reply : http_outcome)
    (history : list event) : http_outcome :=
  match last history with
  | Some (HttpGet _ _) => get_reply
  | _ => post_reply
  end.

Definition server_env (tbl : list (string * pyval))
    (post_reply get_reply : http_outcome) : environment :=
  {| json_loads := table_json_loads tbl;
     json_failure := fun _ => Malformed;
     urljoin := fun b u => b ++ u;
     py_repr := fun _ => "";
     fs := demo_fs;
     net := fixed_server post_reply get_reply |}.

Definition ok_response (body : string) : http_outcome :=
  Responded {| status_code := 200; content := body |}.

Definition status_response (status : Z) : http_outcome :=
  Responded {| status_code := status; content := "" |}.

(** A double quote, and a quoted word. *)
Definition dq : string := String (ascii_of_nat 34) EmptyString.
Definition q (s : string) : string := dq ++ s ++ dq.
Definition bq (s : string) : string := "\" ++ dq ++ s ++ "\" ++ dq.

(** The payload of the text item of the example of the specification, and
    the response that carries it. *)
Definition sample_text : string :=
  "{" ++ q "text" ++ ": " ++ q "Sample PDF text" ++ "}".

Definition sample_text_value : gmap string pyval :=
  <["text" := PyStr "Sample PDF text"]> ∅.

Definition rpc_body (result : string) : string :=
  "{" ++ q "jsonrpc" ++ ": " ++ q "2.0" ++ ", " ++ q "id" ++ ": 1, " ++
  q "result" ++ ": " ++ result ++ "}".

Definition rpc_value (result : pyval) : gmap string pyval :=
  <["jsonrpc" := PyStr "2.0"]> (<["id" := PyInt 1]> (<["result" := result]> ∅)).

Definition content_body (items : string) : string :=
  rpc_body ("{" ++ q "content" ++ ": [" ++ items ++ "]}").

Definition content_value (items : list pyval) : gmap string pyval :=
  rpc_value (PyDict (<["content" := PyList items]> ∅)).

Definition sample_body : string :=
  content_body ("{" ++ q "type" ++ ": " ++ q "text" ++ ", " ++ q "text" ++
                ": " ++ dq ++ "{" ++ bq "text" ++ ": " ++ bq "Sample PDF text"
                ++ "}" ++ dq ++ "}").

Definition sample_item : gmap string pyval :=
  <["type" := PyStr "text"]> (<["text" := PyStr sample_text]> ∅).
Definition sample_value : gmap string pyval :=
  content_value [PyDict sample_item].

Definition empty_content_body : string := content_body "".
Definition empty_content_value : gmap string pyval := content_value [].

Definition image_body : string :=
  content_body ("{" ++ q "type" ++ ": " ++ q "image" ++ "}").
Definition image_item : gmap string pyval := <["type" := PyStr "image"]> ∅.
Definition image_value : gmap string pyval :=
  content_value [PyDict image_item].

Definition no_text_body : string :=
  content_body ("{" ++ q "type" ++ ": " ++ q "text" ++ "}").
Definition no_text_item : gmap string pyval := <["type" := PyStr "text"]> ∅.
Definition no_text_value : gmap string pyval :=
  content_value [PyDict no_text_item].

(** The error response of the tests of the client, alone and together with
    a [result] that is no mapping. *)
Definition error_object : gmap string pyval :=
  <["code" := PyInt (-32600)]> (<["message" := PyStr "Invalid request"]> ∅).

Definition error_body : string :=
  "{" ++ q "jsonrpc" ++ ": " ++ q "2.0" ++ ", " ++ q "id" ++ ": 1, " ++
  q "error" ++ ": {" ++ q "code" ++ ": -32600, " ++ q "message" ++ ": " ++
  q "Invalid request" ++ "}}".
Definition error_value : gmap string pyval :=
  <["jsonrpc" := PyStr "2.0"]> (<["id" := PyInt 1]>
  (<["error" := PyDict error_object]> ∅)).

Definition error_and_result_body : string :=
  "{" ++ q "error" ++ ": {" ++ q "code" ++ ": -32600, " ++ q "message" ++
  ": " ++ q "Invalid request" ++ "}, " ++ q "result" ++ ": null}".
Definition error_and_result_value : gmap string pyval :=
  <["error" := PyDict error_object]> (<["result" := PyNone]> ∅).

Definition null_result_body : string := "{" ++ q "result" ++ ": null}".
Definition null_result_value : gmap string pyval := <["result" := PyNone]> ∅.

Definition null_error_body : string := "{" ++ q "error" ++ ": null}".
Definition null_error_value : gmap string pyval := <["error" := PyNone]> ∅.

Definition json_table : list (string * pyval) :=
  [(sample_text, PyDict sample_text_value);
   (sample_body, PyDict sample_value);
   (empty_content_body, PyDict empty_content_value);
   (image_body, PyDict image_value);
   (no_text_body, PyDict no_text_value);
   (error_body, PyDict error_value);
   (error_and_result_body, PyDict error_and_result_value);
   (null_result_body, PyDict null_result_value);
   (null_error_body, PyDict null_error_value)].

(** A client of [http://localhost:3000] that has made no call yet. *)
Definition fresh_client (env : environment) : MCPHTTPClient.state :=
  MCPHTTPClient.new_state
    (MCPHTTPClient.init env "http://localhost:3000/" None 30 60).

Definition sample_env : environment :=
  server_env json_table (ok_response sample_body) (status_response 200).
Definition empty_content_env : environment :=
  server_env json_table (ok_response empty_content_body) (status_response 200).
Definition image_env : environment :=
  server_env json_table (ok_response image_body) (status_response 200).
Definition no_text_env : environment :=
  server_env json_table (ok_response no_text_body) (status_response 200).
Definition error_env : environment :=
  server_env json_table (ok_response error_body) (status_response 200).
Definition failing_env : environment :=
  server_env json_table (status_response 500) (status_response 500).
Definition unreachable_env : environment :=
  server_env json_table (Failed ConnectionRefused) (Failed ConnectionRefused).
Definition error_and_result_env : environment :=
  server_env json_table (ok_response error_and_result_body) (status_response 200).
Definition null_result_env : environment :=
  server_env json_table (ok_response null_result_body) (status_response 200).
Definition null_error_env : environment :=
  server_env json_table (ok_response null_error_body) (status_response 200).

(** The state in which [_call_tool] starts when a method called in [st0] has
    read the file at [pdf_path]. *)
Definition after_reading (env : environment) (pdf_path : string)
    (st0 : MCPHTTPClient.state) : MCPHTTPClient.state :=
  {| MCPHTTPClient.self := MCPHTTPClient.self st0;
     MCPHTTPClient.log :=
       snd (PDFUtils.read_pdf_as_base64 env pdf_path (MCPHTTPClient.log st0)) |}.

(** * The rest of the client library and its callers *)

(** ** Built-in operations the callers use *)

Module PyBuiltins.

(** [c.isspace()] for a character below 256: the separators of
    [str.split()]. *)
Definition is_space (c : ascii) : bool :=
  let n := nat_of_ascii c in
  ((9 <=? n)%nat && (n <=? 13)%nat) || ((28 <=? n)%nat && (n <=? 32)%nat) ||
  (n =? 133)%nat || (n =? 160)%nat.

Definition cons_word (w : string) (ws : list string) : list string :=
  if String.eqb w "" then ws else w :: ws.

(** The word that starts at the head of [s] (empty when [s] starts with a
    separator) and the words after it. *)
Fixpoint words_from (s : string) : string * list string :=
  match s with
  | EmptyString => (EmptyString, [])
  | String c s' =>
      let (w, ws) := words_from s' in
      if is_space c then (EmptyString, cons_word w ws) else (String c w, ws)
  end.

(** [s.split()] *)
Definition split_words (s : string) : list string :=
  let (w, ws) := words_from s in cons_word w ws.

(** [len(v)] *)
Definition len (v : pyval) : result Z :=
  match v with
  | PyStr s => Ok (Z.of_nat (String.length s))
  | PyList l => Ok (Z.of_nat (List.length l))
  | PyDict d => Ok (Z.of_nat (size d))
  | _ => Raise (TypeError v)            (* object has no len() *)
  end.

(** [v.split()]: only a [str] has the method. *)
Definition split (v : pyval) : result (list string) :=
  match v with
  | PyStr s => Ok (split_words s)
  | _ => Raise (AttributeError v "split")
  end.

End PyBuiltins.

(** ** utils.py: [get_pdf_size] *)

Module PDFUtilsStat.
Section WithEnvironment.

Variable env : environment.

(** [st_size] of a directory, which the file system decides. *)
Variable directory_size : Pathlib.Path -> Z.

(** [path.stat().st_size]: the file system is asked about the path; no
    data is read. *)
Definition stat_size (p : Pathlib.Path) : PDFUtils.IO Z :=
  PDFUtils.emit (PathStat p);;
  match fs_stat (fs env) p with
  | Some (File data) => ret (Z.of_nat (List.length data))
  | Some Directory => ret (directory_size p)
  | None =>
      raise (FileNotFoundError
               (PDFUtils.strerror 2 "No such file or directory" p))
  end.

(** [[
    path = PDFUtils.validate_pdf_path(pdf_path)
    return path.stat().st_size
    ]] *)
Definition get_pdf_size (pdf_path : string) : PDFUtils.IO Z :=
  let! path := PDFUtils.validate_pdf_path env pdf_path in
  stat_size path.

End WithEnvironment.
End PDFUtilsStat.

(** ** The agent

    The LLM agent of [pydantic_ai] is used as it is given: a run takes a
    prompt and returns the output or raises.  [agent_outcome] gives the
    outcome of the run made last, given the prompts of all runs so far (the
    prompt of the run is the last one). *)
Definition agent_outcome : Type := list string -> result string.

(** A line feed. *)
Definition nl : string := String (ascii_of_nat 10) EmptyString.

(** ** example-agent-http: pdf_analyzer.py *)

Module PDFAnalyzerHTTP.

(** [Agent(model, system_prompt=...)] *)
Record Agent := {
  model : string;
  system_prompt : string
}.

(** An analyzer: the client it owns, whose counter moves, the choice made at
    construction, and the prompts the agent has been run with. *)
Record state := {
  mcp_client : MCPHTTPClient.state;
  use_agent : bool;
  agent : option Agent;
  prompts : list string
}.

Definition set_client (c : MCPHTTPClient.state) (st : state) : state :=
  {| mcp_client := c; use_agent := use_agent st; agent := agent st;
     prompts := prompts st |}.

Definition add_prompt (prompt : string) (st : state) : state :=
  {| mcp_client := mcp_client st; use_agent := use_agent st;
     agent := agent st; prompts := (prompts st ++ [prompt])%list |}.

Section WithEnvironment.

Variable env : environment.
Variable run_outcome : agent_outcome.

(** [__init__]; [history] is what has happened in the world so far. *)
Definition init (mcp_server_url : string) (api_key : option string)
    (use_agent_for_summary : bool) (history : list event) : state :=
  {| mcp_client :=
       {| MCPHTTPClient.self :=
            MCPHTTPClient.init env mcp_server_url api_key 30 60;
          MCPHTTPClient.log := history |};
     use_agent := use_agent_for_summary;
     agent :=
       if use_agent_for_summary then
         Some {| model := "gemini-2.5-flash";
                 system_prompt :=
                   "You are a helpful PDF analysis assistant. " ++
                   "Provide clear, concise summaries of PDF content. " ++
                   "Focus on key points, main topics, and important details." |}
       else None;
     prompts := [] |}.

(** A method of the client, called on [self.mcp_client]. *)
Definition on_client {A} (m : M MCPHTTPClient.state A) : M state A :=
  fun st => match m (mcp_client st) with
            | (r, c) => (r, set_client c st)
            end.

(** [[
    async with self.agent:
        result = await self.agent.run(prompt)
        ... result.output
    ]] *)
Definition run_agent (prompt : string) : M state string :=
  modify (add_prompt prompt);;
  let! st := get_state in
  lift (run_outcome (prompts st)).

(** [self.use_agent and self.agent] *)
Definition agent_in_use (st : state) : bool :=
  use_agent st && match agent st with Some _ => true | None => false end.

(** [return await self.mcp_client.extract_text(pdf_path)] *)
Definition extract_text (pdf_path : string) : M state pyval :=
  on_client (MCPHTTPClient.extract_text env pdf_path).

(** [return await self.mcp_client.extract_metadata(pdf_path)] *)
Definition extract_metadata (pdf_path : string) : M state pyval :=
  on_client (MCPHTTPClient.extract_metadata env pdf_path).

Definition summary_prompt (text : pyval) : string :=
  "Please provide a concise summary of this PDF content:" ++ nl ++ nl ++
  MCPHTTPClient.format env text.

Definition insights_prompt (text : pyval) : string :=
  "Provide a brief summary and key insights from this PDF content:" ++
  nl ++ nl ++ MCPHTTPClient.format env text.

(** [[
    text = await self.extract_text(pdf_path)
    if self.use_agent and self.agent:
        async with self.agent:
            result = await self.agent.run(
                f"Please provide a concise summary of this PDF content:\n\n{text}")
            return result.output
    else:
        return text
    ]] *)
Definition summarize_pdf (pdf_path : string) : M state pyval :=
  let! text := extract_text pdf_path in
  let! st := get_state in
  if agent_in_use st then
    let! output := run_agent (summary_prompt text) in
    ret (PyStr output)
  else
    ret text.

(** [[
    text = await self.extract_text(pdf_path)
    metadata = await self.extract_metadata(pdf_path)
    result = {"text": text, "metadata": metadata,
              "text_length": len(text), "word_count": len(text.split())}
    if self.use_agent and self.agent:
        async with self.agent:
            summary_result = await self.agent.run(
                f"Provide a brief summary and key insights from this PDF content:\n\n{text}")
            result["summary"] = summary_result.output
    return result
    ]] *)
Definition analyze_pdf (pdf_path : string) : M state pyval :=
  let! text := extract_text pdf_path in
  let! metadata := extract_metadata pdf_path in
  let! text_length := lift (PyBuiltins.len text) in
  let! words := lift (PyBuiltins.split text) in
  let result : gmap string pyval :=
    <["text" := text]>
    (<["metadata" := metadata]>
    (<["text_length" := PyInt text_length]>
    (<["word_count" := PyInt (Z.of_nat (List.length words))]> ∅))) in
  let! st := get_state in
  if agent_in_use st then
    let! output := run_agent (insights_prompt text) in
    ret (PyDict (<["summary" := PyStr output]> result))
  else
    ret (PyDict result).

End WithEnvironment.
End PDFAnalyzerHTTP.

(** ** example-agent-stdio: pdf_summarizer.py *)

Module PDFSummarizerStdio.

(** The world of a summarizer: what it has done to the file system and the
    prompts its agent has been run with. *)
Record state := {
  log : list event;
  prompts : list string
}.

Section WithEnvironment.

Variable env : environment.
Variable run_outcome : agent_outcome.

Definition on_files {A} (m : PDFUtils.IO A) : M state A :=
  fun st => match m (log st) with
            | (r, log') => (r, {| log := log'; prompts := prompts st |})
            end.

(** [[
    validated_path = PDFUtils.validate_pdf_path(pdf_path)
    return str(validated_path)
    ]] *)
Definition _validate_and_resolve_path (pdf_path : string) : M state string :=
  let! validated_path := on_files (PDFUtils.validate_pdf_path env pdf_path) in
  ret (Pathlib.to_string validated_path).

(** [[
    async with self.agent:
        result = await self.agent.run(prompt)
        return result.output
    ]] *)
Definition _run_agent_with_prompt (prompt : string) : M state string :=
  modify (fun st => {| log := log st;
                       prompts := (prompts st ++ [prompt])%list |});;
  let! st := get_state in
  lift (run_outcome (prompts st)).

(** [[
    abs_path = self._validate_and_resolve_path(pdf_path)
    return await self._run_agent_with_prompt(
        f"Please summarize the PDF file at: {abs_path}")
    ]] *)
Definition summarize_pdf (pdf_path : string) : M state string :=
  let! abs_path := _validate_and_resolve_path pdf_path in
  _run_agent_with_prompt ("Please summarize the PDF file at: " ++ abs_path).

(** [[
    abs_path = self._validate_and_resolve_path(pdf_path)
    return await self._run_agent_with_prompt(
        f"Extract all text from the PDF file at: {abs_path}")
    ]] *)
Definition extract_text (pdf_path : string) : M state string :=
  let! abs_path := _validate_and_resolve_path pdf_path in
  _run_agent_with_prompt ("Extract all text from the PDF file at: " ++ abs_path).

(** [[
    abs_path = self._validate_and_resolve_path(pdf_path)
    return await self._run_agent_with_prompt(
        f"Get the metadata from the PDF file at: {abs_path}")
    ]] *)
Definition get_metadata (pdf_path : string) : M state string :=
  let! abs_path := _validate_and_resolve_path pdf_path in
  _run_agent_with_prompt ("Get the metadata from the PDF file at: " ++ abs_path).

End WithEnvironment.
End PDFSummarizerStdio.

(** * Vocabulary of the further statements *)

(** A request, as opposed to an access to the file system. *)
Definition is_http (e : event) : bool :=
  match e with
  | HttpPost _ _ _ | HttpGet _ _ => true
  | _ => false
  end.

(** A request made as the instance [c] is configured: a POST of a tool call
    to its endpoint, or a GET of the health URL under its base URL, with its
    headers. *)
Definition configured_request (env : environment) (c : MCPHTTPClient.t)
    (e : event) : Prop :=
  match e with
  | HttpPost url h body =>
      url = MCPHTTPClient.mcp_endpoint c /\ h = MCPHTTPClient.headers c /\
      exists tool b64 rid,
        body = MCPProtocol.create_tool_call_request
                 (MCPHTTPClient.tool_str tool)
                 (<["fileContent" := PyStr b64]> ∅) (MCPProtocol.IntId rid)
  | HttpGet url h =>
      url = urljoin env (MCPHTTPClient.base_url c ++ "/") "health" /\
      h = MCPHTTPClient.headers c
  | _ => True
  end.

(** What one method does: requests as the instance is configured, and an
    instance that differs in its counter at most. *)
Definition keeps_configuration (env : environment)
    (st st' : MCPHTTPClient.state) : Prop :=
  exists events k,
    MCPHTTPClient.log st' = (MCPHTTPClient.log st ++ events)%list /\
    Forall (configured_request env (MCPHTTPClient.self st)) events /\
    MCPHTTPClient.self st' =
      MCPHTTPClient.set_request_id k (MCPHTTPClient.self st).

(** What [_call_tool] makes of the first content item. *)
Definition unwrap_item (env : environment) (item : pyval) : result pyval :=
  match Py.get item "type" PyNone with
  | Ok ty =>
      if Py.eq_str ty "text" then
        match Py.getitem_str item "text" with
        | Ok text => MCPHTTPClient.json_loads_value env text
        | Raise e => Raise e
        end
      else Ok (PyDict ∅)
  | Raise e => Raise e
  end.

(** What [_call_tool] makes of the [error] and [result] members of the
    parsed body. *)
Definition unwrap_members (env : environment)
    (error_member result_member : option pyval) : result pyval :=
  match error_member with
  | Some e =>
      match Py.get e "code" PyNone with
      | Ok code =>
          match Py.get e "message" PyNone with
          | Ok message =>
              Raise (ValueError (MCPHTTPClient.mcp_error_message env code message))
          | Raise x => Raise x
          end
      | Raise x => Raise x
      end
  | None =>
      match Py.get (match result_member with
                    | Some v => v
                    | None => PyDict ∅
                    end)
              "content" (PyList []) with
      | Ok items =>
          if Py.truthy items then
            match Py.getitem_0 items with
            | Ok item => unwrap_item env item
            | Raise x => Raise x
            end
          else Ok (PyDict ∅)
      | Raise x => Raise x
      end
  end.

(** *** More servers for the examples *)

(** A server that gives its replies in turn, one for each request, and the
    last one from then on. *)
Definition replies_in_turn (replies : list http_outcome)
    (history : list event) : http_outcome :=
  List.nth (Nat.pred (List.length (List.filter is_http history))) replies
    (List.last replies (Failed ConnectionRefused)).

(** The sample response again, with another [id] and a member [extra],
    and with a second content item. *)
Definition sample_body_other_id : string :=
  "{" ++ q "jsonrpc" ++ ": " ++ q "2.0" ++ ", " ++ q "id" ++ ": 999, " ++
  q "extra" ++ ": true, " ++ q "result" ++ ": {" ++ q "content" ++ ": [{" ++
  q "type" ++ ": " ++ q "text" ++ ", " ++ q "text" ++ ": " ++ dq ++ "{" ++
  bq "text" ++ ": " ++ bq "Sample PDF text" ++ "}" ++ dq ++ "}]}}".
Definition sample_value_other_id : gmap string pyval :=
  <["jsonrpc" := PyStr "2.0"]> (<["id" := PyInt 999]>
  (<["extra" := PyBool true]>
  (<["result" := PyDict (<["content" := PyList [PyDict sample_item]]> ∅)]> ∅))).

Definition two_items_body : string :=
  content_body ("{" ++ q "type" ++ ": " ++ q "text" ++ ", " ++ q "text" ++
                ": " ++ dq ++ "{" ++ bq "text" ++ ": " ++ bq "Sample PDF text"
                ++ "}" ++ dq ++ "}, {" ++ q "type" ++ ": " ++ q "image" ++ "}").
Definition two_items_value : gmap string pyval :=
  content_value [PyDict sample_item; PyDict image_item].

Definition null_content_body : string :=
  rpc_body ("{" ++ q "content" ++ ": null}").
Definition null_content_value : gmap string pyval :=
  rpc_value (PyDict (<["content" := PyNone]> ∅)).

(** A text item whose text is no JSON, and one whose text is a JSON list. *)
Definition broken_item : gmap string pyval :=
  <["type" := PyStr "text"]> (<["text" := PyStr "{oops"]> ∅).
Definition broken_text_body : string :=
  content_body ("{" ++ q "type" ++ ": " ++ q "text" ++ ", " ++ q "text" ++
                ": " ++ q "{oops" ++ "}").
Definition broken_text_value : gmap string pyval :=
  content_value [PyDict broken_item].

Definition list_item : gmap string pyval :=
  <["type" := PyStr "text"]> (<["text" := PyStr "[1, 2]"]> ∅).
Definition list_text_body : string :=
  content_body ("{" ++ q "type" ++ ": " ++ q "text" ++ ", " ++ q "text" ++
                ": " ++ q "[1, 2]" ++ "}").
Definition list_text_value : gmap string pyval :=
  content_value [PyDict list_item].

Definition more_json_table : list (string * pyval) :=
  [(sample_body_other_id, PyDict sample_value_other_id);
   (two_items_body, PyDict two_items_value);
   (null_content_body, PyDict null_content_value);
   (broken_text_body, PyDict broken_text_value);
   (list_text_body, PyDict list_text_value);
   ("[1, 2]", PyList [PyInt 1; PyInt 2])] ++ json_table.

(** A body that is no text in any encoding [json.loads] detects: the one
    byte [0xff]. *)
Definition undecodable_body : string := String (ascii_of_nat 255) EmptyString.

Definition turns_env (bodies : list string) : environment :=
  {| json_loads := table_json_loads more_json_table;
     json_failure :=
       fun s => if String.eqb s undecodable_body then Undecodable else Malformed;
     urljoin := fun b u => b ++ u;
     py_repr := fun _ => "";
     fs := demo_fs;
     net := replies_in_turn (map ok_response bodies) |}.

(** The instance after a first call of [extract_text]. *)
Definition second_call (env : environment) : MCPHTTPClient.state :=
  snd (MCPHTTPClient._call_tool env MCPHTTPClient.extract_text_tool "ZmFrZQ=="
         (fresh_client env)).

(** An agent that answers every prompt with the same words. *)
Definition canned_agent : agent_outcome := fun _ => Ok "A summary.".

(** * Properties *)

(** ** The envelope builder *)

Section EnvelopeBuilder.

Import MCPProtocol.

Lemma create_request_is_request method params rid :
  is_request (create_request method params rid)
    (id_value rid) (PyStr method) (PyDict params).
Proof.
  unfold create_request.
  eexists. split; [reflexivity|].
  split; [rewrite !dom_insert_L, dom_empty_L; set_solver|].
  repeat split; simplify_map_eq; reflexivity.
Qed.

(** C5: [create_request] returns exactly the mapping with the members
    [jsonrpc] (always the string ["2.0"]), [id], [method] and [params], for
    every method, params, and integer or string id;
    [create_tool_call_request] returns exactly that mapping with [method] set
    to ["tools/call"] and [params] to the mapping of [name] and [arguments];
    the request for [extract_text], [{fileContent: "abc"}] and id 7 is the
    one the specification spells out.  Both are functions of their arguments
    alone. *)
Theorem create_request_exact (method tool : string)
    (params arguments : gmap string pyval) (rid : request_id) :
  is_request (create_request method params rid)
    (id_value rid) (PyStr method) (PyDict params)
  /\ (exists p : gmap string pyval,
        is_request (create_tool_call_request tool arguments rid)
          (id_value rid) (PyStr "tools/call") (PyDict p) /\
        dom p = ({["name"; "arguments"]} : gset string) /\
        p !! "name" = Some (PyStr tool) /\
        p !! "arguments" = Some (PyDict arguments))
  /\ create_tool_call_request "extract_text"
       (<["fileContent" := PyStr "abc"]> ∅) (IntId 7) =
     PyDict (list_to_map
       [("jsonrpc", PyStr "2.0");
        ("id", PyInt 7);
        ("method", PyStr "tools/call");
        ("params", PyDict (list_to_map
           [("name", PyStr "extract_text");
            ("arguments", PyDict (list_to_map
               [("fileContent", PyStr "abc")]))]))]).
Proof.
  split; [apply create_request_is_request|].
  split.
  - eexists. split; [apply create_request_is_request|].
    split; [rewrite !dom_insert_L, dom_empty_L; set_solver|].
    split; simplify_map_eq; reflexivity.
  - vm_compute. reflexivity.
Qed.

End EnvelopeBuilder.

(** ** base64 *)

Section Base64Facts.

Import Base64.

(** Lists are consumed three elements at a time. *)
Lemma list_ind3 {A} (P : list A -> Prop) :
  P [] ->
  (forall a, P [a]) ->
  (forall a b, P [a; b]) ->
  (forall a b c l, P l -> P (a :: b :: c :: l)) ->
  forall l, P l.
Proof.
  intros H0 H1 H2 H3.
  assert (Hall : forall l, P l /\ (forall a, P (a :: l)) /\
                           (forall a b, P (a :: b :: l))).
  { induction l as [|x l [IH0 [IH1 IH2]]].
    - repeat split; auto.
    - repeat split; auto. }
  intros l. apply Hall.
Qed.

Lemma byte_val_range b : 0 <= byte_val b < 256.
Proof.
  unfold byte_val. pose proof (Byte.to_N_bounded b). lia.
Qed.

Lemma byte_of_val b : byte_of (byte_val b) = Some b.
Proof.
  unfold byte_of, byte_val. rewrite N2Z.id. apply Byte.of_to_N.
Qed.

Lemma sextet_cases i :
  0 <= i < 64 -> exists n : nat, (n < 64)%nat /\ i = Z.of_nat n.
Proof. intros H. exists (Z.to_nat i). lia. Qed.

Lemma a2b_b2a i : 0 <= i < 64 -> a2b (b2a i) = Some i.
Proof.
  intros H. destruct (sextet_cases i H) as (n & Hn & ->).
  do 64 (destruct n as [|n]; [reflexivity|]). lia.
Qed.

Lemma b2a_not_pad i : 0 <= i < 64 -> Ascii.eqb (b2a i) pad = false.
Proof.
  intros H. destruct (sextet_cases i H) as (n & Hn & ->).
  do 64 (destruct n as [|n]; [reflexivity|]). lia.
Qed.

Lemma a2b_pad : a2b pad = None.
Proof. reflexivity. Qed.

Lemma b2a_standard i : standard_char (b2a i) = true.
Proof.
  unfold b2a. generalize (Z.to_nat i) as n. intros n.
  do 64 (destruct n as [|n]; [reflexivity|]). reflexivity.
Qed.

Lemma encode_group3 b0 b1 b2 tl :
  let n := byte_val b0 * 65536 + byte_val b1 * 256 + byte_val b2 in
  decode (b2a (n / 262144) :: b2a ((n / 4096) mod 64) ::
          b2a ((n / 64) mod 64) :: b2a (n mod 64) :: tl) =
  match decode tl with
  | Some bs => Some (b0 :: b1 :: b2 :: bs)
  | None => None
  end.
Proof.
  intros n.
  pose proof (byte_val_range b0). pose proof (byte_val_range b1).
  pose proof (byte_val_range b2).
  assert (Hn : 0 <= n < 16777216) by (unfold n; lia).
  cbn [decode].
  rewrite !a2b_b2a by (Z.div_mod_to_equations; lia).
  rewrite b2a_not_pad by (Z.div_mod_to_equations; lia).
  cbn [mbind option_bind].
  replace (n / 262144 * 262144 + n / 4096 mod 64 * 4096 +
           n / 64 mod 64 * 64 + n mod 64) with n
    by (Z.div_mod_to_equations; lia).
  replace (n / 65536) with (byte_val b0)
    by (unfold n; Z.div_mod_to_equations; lia).
  replace (n / 256 mod 256) with (byte_val b1)
    by (unfold n; Z.div_mod_to_equations; lia).
  replace (n mod 256) with (byte_val b2)
    by (unfold n; Z.div_mod_to_equations; lia).
  rewrite !byte_of_val. cbn [mbind option_bind].
  destruct (decode tl); reflexivity.
Qed.

Lemma encode_group1 b0 :
  let n := byte_val b0 * 16 in
  decode [b2a (n / 64); b2a (n mod 64); pad; pad] = Some [b0].
Proof.
  intros n. pose proof (byte_val_range b0).
  cbn [decode].
  rewrite !a2b_b2a by (unfold n; Z.div_mod_to_equations; lia).
  cbn [mbind option_bind].
  change (Ascii.eqb pad pad) with true. cbn iota.
  replace ((n / 64 * 64 + n mod 64) / 16) with (byte_val b0)
    by (unfold n; Z.div_mod_to_equations; lia).
  rewrite byte_of_val. reflexivity.
Qed.

Lemma encode_group2 b0 b1 :
  let n := (byte_val b0 * 256 + byte_val b1) * 4 in
  decode [b2a (n / 4096); b2a ((n / 64) mod 64); b2a (n mod 64); pad] =
  Some [b0; b1].
Proof.
  intros n. pose proof (byte_val_range b0). pose proof (byte_val_range b1).
  cbn [decode].
  rewrite !a2b_b2a by (unfold n; Z.div_mod_to_equations; lia).
  cbn [mbind option_bind].
  change (Ascii.eqb pad pad) with true. cbn iota.
  rewrite b2a_not_pad by (unfold n; Z.div_mod_to_equations; lia).
  replace ((n / 4096 * 4096 + n / 64 mod 64 * 64 + n mod 64) / 4)
    with (byte_val b0 * 256 + byte_val b1)
    by (unfold n; Z.div_mod_to_equations; lia).
  replace ((byte_val b0 * 256 + byte_val b1) / 256) with (byte_val b0)
    by (Z.div_mod_to_equations; lia).
  replace ((byte_val b0 * 256 + byte_val b1) mod 256) with (byte_val b1)
    by (Z.div_mod_to_equations; lia).
  rewrite !byte_of_val. reflexivity.
Qed.

Lemma decode_encode bs : decode (encode bs) = Some bs.
Proof.
  induction bs as [|b0|b0 b1|b0 b1 b2 rest IH] using list_ind3.
  - reflexivity.
  - apply encode_group1.
  - apply encode_group2.
  - cbn [encode]. rewrite encode_group3, IH. reflexivity.
Qed.

Lemma b64decode_b64encode bs : b64decode (b64encode bs) = Some bs.
Proof.
  unfold b64decode, b64encode.
  rewrite list_ascii_of_string_of_list_ascii. apply decode_encode.
Qed.

Lemma encode_standard bs : forallb standard_char (encode bs) = true.
Proof.
  induction bs as [|b0|b0 b1|b0 b1 b2 rest IH] using list_ind3;
    cbn [encode forallb]; rewrite ?b2a_standard, ?IH; reflexivity.
Qed.

Lemma encode_length bs :
  Z.of_nat (List.length (encode bs)) = 4 * ((Z.of_nat (List.length bs) + 2) / 3).
Proof.
  induction bs as [|b0|b0 b1|b0 b1 b2 rest IH] using list_ind3;
    try reflexivity.
  cbn [encode List.length].
  rewrite !Nat2Z.inj_succ, IH. Z.div_mod_to_equations. lia.
Qed.

(** The test vectors of RFC 4648, section 10, and bytes that use the last
    two characters of the alphabet. *)
Example rfc4648_test_vectors :
  b64encode [] = "" /\
  b64encode [x66] = "Zg==" /\
  b64encode [x66; x6f] = "Zm8=" /\
  b64encode [x66; x6f; x6f] = "Zm9v" /\
  b64encode [x66; x6f; x6f; x62] = "Zm9vYg==" /\
  b64encode [x66; x6f; x6f; x62; x61] = "Zm9vYmE=" /\
  b64encode [x66; x6f; x6f; x62; x61; x72] = "Zm9vYmFy" /\
  b64encode [xff; xfe; xfd] = "//79" /\
  b64encode [xfb; xef] = "++8=" /\
  b64decode "Zm9vYmE=" = Some [x66; x6f; x6f; x62; x61] /\
  b64decode "Zm9vYmE" = None /\
  b64decode "Zm9v-mE=" = None.
Proof. repeat split. Qed.

End Base64Facts.

(** ** Paths and extensions *)

Section PathFacts.

Import Pathlib.

(** Strings, by their characters. *)
Lemma append_cons c (a b : string) : String c a ++ b = String c (a ++ b).
Proof. reflexivity. Qed.

Lemma length_append (a b : string) :
  String.length (a ++ b) = (String.length a + String.length b)%nat.
Proof.
  induction a as [|c a IH]; [reflexivity|].
  rewrite append_cons. cbn [String.length]. rewrite IH. reflexivity.
Qed.

Lemma len_app a b : len (a ++ b) = len a + len b.
Proof. unfold len. rewrite length_append. lia. Qed.

Lemma substring_whole (s : string) : substring 0 (String.length s) s = s.
Proof.
  induction s as [|c s IH]; [reflexivity|].
  cbn [String.length substring]. rewrite IH. reflexivity.
Qed.

Lemma substring_skip (a b : string) (m : nat) :
  substring (String.length a) m (a ++ b) = substring 0 m b.
Proof.
  induction a as [|c a IH]; [reflexivity|].
  rewrite append_cons. cbn [String.length substring]. exact IH.
Qed.

(** [(a + b)[len(a):] == b] *)
Lemma slice_from_app (a b : string) : slice_from (len a) (a ++ b) = b.
Proof.
  unfold slice_from, len. rewrite Nat2Z.id, length_append.
  replace (String.length a + String.length b - String.length a)%nat
    with (String.length b) by lia.
  rewrite substring_skip. apply substring_whole.
Qed.

(** [s == s[:k] + s[k:]] *)
Lemma split_at_index (k : nat) : forall s : string,
  (k <= String.length s)%nat ->
  exists a, s = a ++ slice_from (Z.of_nat k) s /\ String.length a = k.
Proof.
  induction k as [|k IH]; intros s Hk.
  - exists "". split; [|reflexivity].
    unfold slice_from. cbn [Z.of_nat Z.to_nat].
    rewrite Nat.sub_0_r, substring_whole. reflexivity.
  - destruct s as [|c s]; [cbn in Hk; lia|]. cbn [String.length] in Hk.
    destruct (IH s ltac:(lia)) as (a & Ha & Hlen).
    exists (String c a). split; [|cbn [String.length]; congruence].
    rewrite append_cons. f_equal. rewrite Ha at 1. f_equal.
    unfold slice_from. rewrite !Nat2Z.id. reflexivity.
Qed.

(** [lower] works character by character and keeps the dots. *)
Lemma lower_app (a b : string) : lower (a ++ b) = lower a ++ lower b.
Proof.
  induction a as [|c a IH]; [reflexivity|].
  rewrite append_cons. cbn [lower]. rewrite IH. reflexivity.
Qed.

Lemma lower_length (s : string) : String.length (lower s) = String.length s.
Proof.
  induction s as [|c s IH]; [reflexivity|].
  cbn [lower String.length]. congruence.
Qed.

Lemma len_lower s : len (lower s) = len s.
Proof. unfold len. rewrite lower_length. reflexivity. Qed.

Lemma lower_ascii_dot c : lower_ascii c = "."%char <-> c = "."%char.
Proof.
  split; [|intros ->; reflexivity].
  unfold lower_ascii.
  destruct ((65 <=? nat_of_ascii c)%nat && (nat_of_ascii c <=? 90)%nat)
    eqn:E; [|tauto].
  intros H. apply andb_prop in E as [E1 E2].
  apply Nat.leb_le in E1, E2.
  apply (f_equal nat_of_ascii) in H.
  rewrite nat_ascii_embedding in H by lia.
  change (nat_of_ascii ".") with 46%nat in H. lia.
Qed.

(** A string that lowers to [.pdf] is a dot and three characters that are
    no dots. *)
Lemma lower_four (e : string) :
  lower e = ".pdf" ->
  exists c1 c2 c3,
    e = String "." (String c1 (String c2 (String c3 ""))) /\
    c1 <> "."%char /\ c2 <> "."%char /\ c3 <> "."%char.
Proof.
  destruct e as [|c0 [|c1 [|c2 [|c3 [|c4 e]]]]]; try discriminate.
  cbn [lower]. intros H. injection H as H0 H1 H2 H3.
  apply (proj1 (lower_ascii_dot c0)) in H0. subst c0.
  exists c1, c2, c3. split; [reflexivity|].
  repeat split; intros ->; discriminate.
Qed.

Lemma rfind_from_app c (a b : string) i acc :
  rfind_from c (a ++ b) i acc =
  rfind_from c b (i + len a) (rfind_from c a i acc).
Proof.
  revert i acc. induction a as [|x a IH]; intros i acc.
  - cbn. f_equal. unfold len. cbn. lia.
  - rewrite append_cons. cbn [rfind_from]. rewrite IH. f_equal.
    unfold len. cbn [String.length]. lia.
Qed.

(** The suffix of a name made of a stem, a dot and three characters that
    are no dots. *)
Lemma suffix_of_name (stem : string) c1 c2 c3 :
  stem <> "" ->
  c1 <> "."%char -> c2 <> "."%char -> c3 <> "."%char ->
  forall p,
    name p = stem ++ String "." (String c1 (String c2 (String c3 ""))) ->
    suffix p = String "." (String c1 (String c2 (String c3 ""))).
Proof.
  intros Hstem H1 H2 H3 p Hname. unfold suffix. rewrite Hname.
  set (ext := String "." (String c1 (String c2 (String c3 "")))).
  assert (Hr : rfind "." (stem ++ ext) = len stem).
  { unfold rfind. rewrite rfind_from_app. unfold ext. cbn [rfind_from].
    rewrite Ascii.eqb_refl.
    rewrite !(proj2 (Ascii.eqb_neq _ _)) by assumption. lia. }
  rewrite Hr.
  assert (Hlen : len (stem ++ ext) = len stem + 4).
  { rewrite len_app. reflexivity. }
  assert (Hpos : 0 < len stem).
  { unfold len. destruct stem; [congruence|]. cbn [String.length]. lia. }
  rewrite Hlen.
  replace (0 <? len stem) with true by (symmetry; apply Z.ltb_lt; lia).
  replace (len stem <? len stem + 4 - 1) with true
    by (symmetry; apply Z.ltb_lt; lia).
  cbn [andb]. apply slice_from_app.
Qed.

(** The extension is [.pdf], in any letter case, exactly when the name ends
    in [.pdf], in any letter case, and is longer than these four
    characters: what the name needs besides its ending is a character before
    it. *)
Lemma has_pdf_suffix_name p :
  has_pdf_suffix p = true <->
  name_ends_in_pdf p = true /\ 4 < len (name p).
Proof.
  unfold has_pdf_suffix, name_ends_in_pdf, has_ending.
  rewrite len_lower. change (len ".pdf") with 4.
  set (nm := name p).
  split.
  - intros H. apply String.eqb_eq in H. unfold suffix in H. fold nm in H.
    set (i := rfind "." nm) in *.
    destruct ((0 <? i) && (i <? len nm - 1)) eqn:E; [|discriminate].
    apply andb_prop in E as [E1 E2].
    apply Z.ltb_lt in E1, E2.
    destruct (split_at_index (Z.to_nat i) nm) as (stem & Hnm & Hstem);
      [unfold len in E2; lia|].
    rewrite Z2Nat.id in Hnm by lia.
    assert (Hi : len stem = i) by (unfold len; lia).
    assert (Hext : len (slice_from i nm) = 4).
    { rewrite <- len_lower, H. reflexivity. }
    assert (Hlen : len nm = i + 4).
    { rewrite Hnm, len_app, Hi, Hext. reflexivity. }
    split; [|lia].
    apply andb_true_intro. split; [apply Z.leb_le; lia|].
    apply String.eqb_eq.
    replace (len nm - 4) with (len (lower stem)) by (rewrite len_lower; lia).
    rewrite Hnm, lower_app, slice_from_app. exact H.
  - intros [H Hlong]. apply andb_prop in H as [_ H].
    apply String.eqb_eq in H. apply String.eqb_eq.
    destruct (split_at_index (Z.to_nat (len nm - 4)) nm)
      as (stem & Hnm & Hstem); [unfold len in *; lia|].
    rewrite Z2Nat.id in Hnm by lia.
    assert (Hi : len stem = len nm - 4) by (unfold len in *; lia).
    remember (slice_from (len nm - 4) nm) as ext eqn:Eext.
    assert (Hlow : lower ext = ".pdf").
    { rewrite <- H.
      replace (len nm - 4) with (len (lower stem))
        by (rewrite len_lower; lia).
      rewrite Hnm, lower_app, slice_from_app. reflexivity. }
    destruct (lower_four _ Hlow) as (c1 & c2 & c3 & Hext & H1 & H2 & H3).
    rewrite (suffix_of_name stem c1 c2 c3); try assumption.
    + rewrite <- Hext. exact Hlow.
    + intros ->. change (len "") with 0 in Hi. lia.
    + fold nm. rewrite <- Hext. exact Hnm.
Qed.

End PathFacts.

(** ** The file validator and encoder *)

Section FileValidator.

Import PDFUtils.

Variable env : environment.

(** Every run of [validate_pdf_path]: what it returns and what it does. *)
Lemma validate_pdf_path_run pdf_path log :
  let path := Pathlib.parse pdf_path in
  validate_pdf_path env pdf_path log =
  match fs_stat (fs env) path with
  | None =>
      (Raise (FileNotFoundError ("PDF file not found: " ++ pdf_path)),
       (log ++ [PathExists path])%list)
  | Some _ =>
      if has_pdf_suffix path then
        (Ok (fs_resolve (fs env) path),
         (log ++ [PathExists path; PathResolve path])%list)
      else
        (Raise (ValueError ("File is not a PDF: " ++ pdf_path)),
         (log ++ [PathExists path])%list)
  end.
Proof.
  intros path.
  unfold validate_pdf_path, path_exists, path_resolve, emit, modify, bind,
    ret, raise, has_pdf_suffix.
  fold path.
  destruct (fs_stat (fs env) path) as [n|]; cbn [negb]; [|reflexivity].
  destruct (String.eqb (Pathlib.lower (Pathlib.suffix path)) ".pdf");
    cbn [negb]; [|reflexivity].
  rewrite <- app_assoc. reflexivity.
Qed.

Lemma has_pdf_suffix_false path :
  Pathlib.lower (Pathlib.suffix path) <> ".pdf" -> has_pdf_suffix path = false.
Proof.
  intros H. unfold has_pdf_suffix. apply String.eqb_neq. exact H.
Qed.

(** C3: a path that does not exist is refused with [FileNotFoundError],
    whatever its extension; a path that exists and whose extension, compared
    case-insensitively, is not [.pdf] is refused with [ValueError].  The
    existence check comes first. *)
Theorem validate_pdf_path_refuses pdf_path log :
  let path := Pathlib.parse pdf_path in
  (fs_stat (fs env) path = None ->
   fst (validate_pdf_path env pdf_path log) =
     Raise (FileNotFoundError ("PDF file not found: " ++ pdf_path)))
  /\ (forall n, fs_stat (fs env) path = Some n ->
      Pathlib.lower (Pathlib.suffix path) <> ".pdf" ->
      fst (validate_pdf_path env pdf_path log) =
        Raise (ValueError ("File is not a PDF: " ++ pdf_path))).
Proof.
  intros path. split.
  - intros H. rewrite validate_pdf_path_run. fold path. rewrite H. reflexivity.
  - intros n H Hsuf. rewrite validate_pdf_path_run. fold path. rewrite H.
    rewrite (has_pdf_suffix_false _ Hsuf). reflexivity.
Qed.

Lemma has_pdf_suffix_true path :
  Pathlib.lower (Pathlib.suffix path) = ".pdf" -> has_pdf_suffix path = true.
Proof.
  intros H. unfold has_pdf_suffix. rewrite H. reflexivity.
Qed.

Lemma suffix_same_name p q :
  Pathlib.name p = Pathlib.name q -> Pathlib.suffix p = Pathlib.suffix q.
Proof. intros H. unfold Pathlib.suffix. rewrite H. reflexivity. Qed.

Lemma assoc_In {A} p (tbl : list (Pathlib.Path * A)) a :
  assoc p tbl = Some a -> In (p, a) tbl.
Proof.
  induction tbl as [|[q b] tbl IH]; cbn [assoc]; [discriminate|].
  destruct (decide (p = q)) as [->|Hne].
  - intros H. injection H as ->. left. reflexivity.
  - intros H. right. apply IH. exact H.
Qed.

Lemma absolutize_absolute cwd p :
  Pathlib.is_absolute (absolutize cwd p) = true.
Proof.
  unfold absolutize. destruct (Pathlib.is_absolute p) eqn:E; [exact E|].
  reflexivity.
Qed.

Lemma absolutize_fixed cwd p :
  Pathlib.is_absolute p = true -> absolutize cwd p = p.
Proof. intros H. unfold absolutize. rewrite H. reflexivity. Qed.

Lemma table_fs_resolve cwd links nodes p :
  fs_resolve (table_fs cwd links nodes) p =
    match assoc (absolutize cwd p) links with
    | Some target => target
    | None => absolutize cwd p
    end.
Proof. reflexivity. Qed.

(** A file system given by tables resolves as [Path.resolve] promises, when
    its links lead to absolute paths that are no links. *)
Lemma table_fs_resolves_canonically cwd links nodes :
  links_resolved links = true ->
  resolves_canonically (table_fs cwd links nodes).
Proof.
  intros Hlinks. unfold links_resolved in Hlinks.
  rewrite forallb_forall in Hlinks.
  assert (Htarget : forall a t, assoc a links = Some t ->
            Pathlib.is_absolute t = true /\ assoc t links = None).
  { intros a t Ha. apply assoc_In, Hlinks in Ha. cbn [snd] in Ha.
    apply andb_prop in Ha. destruct Ha as [Habs Hno].
    split; [exact Habs|]. destruct (assoc t links); [discriminate|reflexivity]. }
  assert (Hres : forall p,
            fs_resolve (table_fs cwd links nodes)
              (fs_resolve (table_fs cwd links nodes) p) =
            fs_resolve (table_fs cwd links nodes) p).
  { intros p. rewrite (table_fs_resolve cwd links nodes p).
    destruct (assoc (absolutize cwd p) links) as [t|] eqn:E.
    - destruct (Htarget _ _ E) as [Habs Hno].
      rewrite table_fs_resolve, (absolutize_fixed _ _ Habs), Hno. reflexivity.
    - rewrite table_fs_resolve,
        (absolutize_fixed _ _ (absolutize_absolute cwd p)), E. reflexivity. }
  split.
  - intros p. rewrite table_fs_resolve.
    destruct (assoc (absolutize cwd p) links) as [t|] eqn:E.
    + apply (Htarget _ _ E).
    + apply absolutize_absolute.
  - exact Hres.
  - intros p.
    change (assoc (fs_resolve (table_fs cwd links nodes)
                     (fs_resolve (table_fs cwd links nodes) p)) nodes =
            assoc (fs_resolve (table_fs cwd links nodes) p) nodes).
    rewrite Hres. reflexivity.
Qed.

(** C7, as amended: a path that exists and whose extension ([Path.suffix])
    is [.pdf], in any letter case, is accepted; the result is
    [path.resolve()], and the existence check and the resolution are all
    that is done to the file system: nothing is opened.  Where
    [Path.resolve] keeps its promises, the result is absolute, canonical
    (resolving it changes nothing) and a path of the same existing file; it
    has the extension of the argument when the resolution keeps the name.
    For a symbolic link the result is the target of the link, with the name
    and the extension of the target.  By [has_pdf_suffix_name] the
    extension is [.pdf] when the name ends in [.pdf] and has a character
    before it. *)
Theorem validate_pdf_path_accepts pdf_path log n :
  let path := Pathlib.parse pdf_path in
  fs_stat (fs env) path = Some n ->
  Pathlib.lower (Pathlib.suffix path) = ".pdf" ->
  exists resolved events,
    validate_pdf_path env pdf_path log = (Ok resolved, (log ++ events)%list) /\
    resolved = fs_resolve (fs env) path /\
    events = [PathExists path; PathResolve path] /\
    existsb is_open events = false /\
    (resolves_canonically (fs env) ->
     Pathlib.is_absolute resolved = true /\
     fs_resolve (fs env) resolved = resolved /\
     fs_stat (fs env) resolved = Some n /\
     (Pathlib.name resolved = Pathlib.name path ->
      Pathlib.suffix resolved = Pathlib.suffix path /\
      has_pdf_suffix resolved = true)) /\
    (forall cwd links nodes target,
       fs env = table_fs cwd links nodes ->
       assoc (absolutize cwd path) links = Some target ->
       resolved = target /\
       Pathlib.name resolved = Pathlib.name target /\
       Pathlib.suffix resolved = Pathlib.suffix target).
Proof.
  intros path Hstat Hsuf.
  exists (fs_resolve (fs env) path), [PathExists path; PathResolve path].
  split; [|split; [reflexivity|split; [reflexivity|split; [reflexivity|split]]]].
  - rewrite validate_pdf_path_run. fold path.
    rewrite Hstat, (has_pdf_suffix_true _ Hsuf). reflexivity.
  - intros [Habs Hres Hsame].
    split; [apply Habs|]. split; [apply Hres|].
    split; [rewrite Hsame; exact Hstat|].
    intros Hname. pose proof (suffix_same_name _ _ Hname) as Hs.
    split; [exact Hs|].
    apply has_pdf_suffix_true. rewrite Hs. exact Hsuf.
  - intros cwd links nodes target Hfs Hlink.
    rewrite Hfs, table_fs_resolve, Hlink. repeat split.
Qed.

(** The same in terms of the name alone. *)
Lemma validate_pdf_path_accepts_by_name pdf_path log n :
  let path := Pathlib.parse pdf_path in
  fs_stat (fs env) path = Some n ->
  name_ends_in_pdf path = true ->
  4 < Pathlib.len (Pathlib.name path) ->
  fst (validate_pdf_path env pdf_path log) = Ok (fs_resolve (fs env) path).
Proof.
  intros path Hstat Hname Hlong.
  rewrite validate_pdf_path_run. fold path.
  rewrite Hstat, (proj2 (has_pdf_suffix_name path) (conj Hname Hlong)).
  reflexivity.
Qed.

(** Every run of [read_pdf_as_base64] that gets past the validation. *)
Lemma read_pdf_as_base64_run pdf_path log path log' :
  validate_pdf_path env pdf_path log = (Ok path, log') ->
  read_pdf_as_base64 env pdf_path log =
  match fs_stat (fs env) path with
  | Some (File data) =>
      (Ok (Base64.b64encode data), (log' ++ [OpenRead path])%list)
  | Some Directory =>
      (Raise (IsADirectoryError (strerror 21 "Is a directory" path)),
       (log' ++ [OpenRead path])%list)
  | None =>
      (Raise (FileNotFoundError (strerror 2 "No such file or directory" path)),
       (log' ++ [OpenRead path])%list)
  end.
Proof.
  intros H. unfold read_pdf_as_base64, bind at 1. rewrite H.
  unfold open_read, emit, modify, bind, ret, raise.
  destruct (fs_stat (fs env) path) as [[data|]|]; reflexivity.
Qed.

Lemma validate_pdf_path_fst pdf_path log path :
  fst (validate_pdf_path env pdf_path log) = Ok path ->
  exists log', validate_pdf_path env pdf_path log = (Ok path, log').
Proof.
  destruct (validate_pdf_path env pdf_path log) as [r log'] eqn:E.
  cbn [fst]. intros ->. exists log'. reflexivity.
Qed.

(** C4: for a file [validate_pdf_path] accepts, [read_pdf_as_base64] returns
    a string whose base64 decoding is the byte sequence of the file, of any
    length (none, a megabyte or more); the string is the standard base64 of
    the bytes: characters of the standard alphabet and [=] only (no line
    break, no [-] or [_]), four for every three bytes or part of three, and
    the empty string for no bytes. *)
Theorem read_pdf_as_base64_round_trip pdf_path log path data :
  fst (validate_pdf_path env pdf_path log) = Ok path ->
  fs_stat (fs env) path = Some (File data) ->
  exists s,
    fst (read_pdf_as_base64 env pdf_path log) = Ok s /\
    Base64.b64decode s = Some data /\
    (data = [] -> s = "") /\
    forallb standard_char (list_ascii_of_string s) = true /\
    standard_char "010" = false /\ standard_char "-" = false /\
    standard_char "_" = false /\
    Z.of_nat (String.length s) = 4 * ((Z.of_nat (List.length data) + 2) / 3).
Proof.
  intros Hval Hstat.
  destruct (validate_pdf_path_fst _ _ _ Hval) as [log' Hrun].
  exists (Base64.b64encode data).
  rewrite (read_pdf_as_base64_run _ _ _ _ Hrun), Hstat.
  split; [reflexivity|].
  split; [apply b64decode_b64encode|].
  split; [intros ->; reflexivity|].
  unfold Base64.b64encode. rewrite list_ascii_of_string_of_list_ascii.
  split; [apply encode_standard|].
  do 3 (split; [reflexivity|]).
  rewrite <- encode_length.
  f_equal. clear. induction (Base64.encode data) as [|c l IH];
    cbn [string_of_list_ascii String.length List.length]; congruence.
Qed.

(** C10, as amended: [validate_pdf_path] does not check what kind of file
    is at the path.  An existing directory whose extension ([Path.suffix]) is
    [.pdf], in any letter case, is accepted and its resolved path returned;
    [read_pdf_as_base64] then fails when it opens the directory, with
    [IsADirectoryError], which is neither [FileNotFoundError] nor a
    [ValueError]. *)
Theorem validate_pdf_path_accepts_directory pdf_path log :
  let path := Pathlib.parse pdf_path in
  let resolved := fs_resolve (fs env) path in
  fs_stat (fs env) path = Some Directory ->
  fs_stat (fs env) resolved = Some Directory ->
  Pathlib.lower (Pathlib.suffix path) = ".pdf" ->
  fst (validate_pdf_path env pdf_path log) = Ok resolved /\
  exists e,
    fst (read_pdf_as_base64 env pdf_path log) = Raise e /\
    e = IsADirectoryError (strerror 21 "Is a directory" resolved) /\
    is_OSError e = true /\
    (forall msg, e <> FileNotFoundError msg) /\
    is_ValueError e = false.
Proof.
  intros path resolved Hstat Hdir Hsuf.
  pose proof (validate_pdf_path_run pdf_path log) as Hrun.
  cbv zeta in Hrun. fold path in Hrun.
  rewrite Hstat, (has_pdf_suffix_true _ Hsuf) in Hrun.
  fold resolved in Hrun.
  split; [rewrite Hrun; reflexivity|].
  exists (IsADirectoryError (strerror 21 "Is a directory" resolved)).
  rewrite (read_pdf_as_base64_run _ _ _ _ Hrun), Hdir.
  repeat split; try reflexivity. intros msg. discriminate.
Qed.

End FileValidator.

(** *** The file validator on the small file system *)

Lemma validate_pdf_path_refuses_witness :
  fst (PDFUtils.validate_pdf_path (offline_env demo_fs) "/nonexistent/file.txt" []) =
    Raise (FileNotFoundError "PDF file not found: /nonexistent/file.txt")
  /\ fst (PDFUtils.validate_pdf_path (offline_env demo_fs) "notes.txt" []) =
    Raise (ValueError "File is not a PDF: notes.txt").
Proof.
  split.
  - apply (proj1 (validate_pdf_path_refuses (offline_env demo_fs)
                    "/nonexistent/file.txt" [])).
    reflexivity.
  - apply (proj2 (validate_pdf_path_refuses (offline_env demo_fs)
                    "notes.txt" []) (File [x68; x69])).
    + reflexivity.
    + discriminate.
Defined.

Lemma demo_fs_resolves_canonically : resolves_canonically demo_fs.
Proof. apply table_fs_resolves_canonically. reflexivity. Qed.

Lemma validate_pdf_path_accepts_witness :
  (exists resolved,
     fst (PDFUtils.validate_pdf_path (offline_env demo_fs) "report.PDF" []) =
       Ok resolved /\
     resolved = Pathlib.parse "/srv/docs/report.PDF" /\
     Pathlib.is_absolute resolved = true /\
     fs_resolve demo_fs resolved = resolved /\
     fs_stat demo_fs resolved = Some (File fake_pdf) /\
     Pathlib.suffix resolved = ".PDF") /\
  (exists target,
     fst (PDFUtils.validate_pdf_path (offline_env demo_fs) "link.pdf" []) =
       Ok target /\
     Pathlib.name target = "notes.txt").
Proof.
  destruct (validate_pdf_path_accepts (offline_env demo_fs) "report.PDF" []
              (File fake_pdf) eq_refl eq_refl)
    as (resolved & events & Hrun & Hresolved & _ & _ & Hfs & _).
  destruct (Hfs demo_fs_resolves_canonically)
    as (Habs & Hcanonical & Hsame & Hname).
  destruct (validate_pdf_path_accepts (offline_env demo_fs) "link.pdf" []
              (File [x68; x69]) eq_refl eq_refl)
    as (target & events' & Hrun' & _ & _ & _ & _ & Hlink).
  destruct (Hlink _ _ _ (Pathlib.parse "/srv/docs/notes.txt") eq_refl eq_refl)
    as (Htarget & _ & _).
  split.
  - exists resolved. rewrite Hrun.
    split; [reflexivity|]. split; [exact Hresolved|].
    split; [exact Habs|]. split; [exact Hcanonical|]. split; [exact Hsame|].
    rewrite (proj1 (Hname ltac:(rewrite Hresolved; reflexivity))).
    reflexivity.
  - exists target. rewrite Hrun'. split; [reflexivity|].
    rewrite Htarget. reflexivity.
Defined.

(** C7, as stated, fails: the file [/srv/docs/.pdf] exists and its name ends
    in [.pdf], and it is refused, because a name that starts with its only
    dot has no extension. *)
Lemma dot_pdf_file_is_refused :
  let env := offline_env demo_fs in
  let path := Pathlib.parse "/srv/docs/.pdf" in
  fs_stat (fs env) path = Some (File fake_pdf) /\
  Pathlib.name path = ".pdf" /\
  name_ends_in_pdf path = true /\
  Pathlib.suffix path = "" /\
  PDFUtils.validate_pdf_path env "/srv/docs/.pdf" [] =
    (Raise (ValueError "File is not a PDF: /srv/docs/.pdf"),
     [PathExists path]).
Proof. repeat split. Qed.

(** The path returned for a symbolic link is the path of its target, with
    the extension of the target. *)
Example resolved_link_has_target_suffix :
  let env := offline_env demo_fs in
  exists resolved,
    fst (PDFUtils.validate_pdf_path env "link.pdf" []) = Ok resolved /\
    Pathlib.suffix (Pathlib.parse "link.pdf") = ".pdf" /\
    Pathlib.suffix resolved = ".txt".
Proof. eexists. repeat split. Qed.

Lemma read_pdf_as_base64_round_trip_witness :
  exists s,
    fst (PDFUtils.read_pdf_as_base64 (offline_env demo_fs) "report.PDF" []) = Ok s /\
    Base64.b64decode s = Some fake_pdf /\
    (fake_pdf = [] -> s = "") /\
    forallb standard_char (list_ascii_of_string s) = true /\
    standard_char "010" = false /\ standard_char "-" = false /\
    standard_char "_" = false /\
    Z.of_nat (String.length s) = 4 * ((Z.of_nat (List.length fake_pdf) + 2) / 3).
Proof.
  apply (read_pdf_as_base64_round_trip (offline_env demo_fs) "report.PDF" []
           (Pathlib.parse "/srv/docs/report.PDF")); reflexivity.
Defined.

Example read_pdf_as_base64_fake :
  fst (PDFUtils.read_pdf_as_base64 (offline_env demo_fs) "report.PDF" []) =
    Ok "ZmFrZQ=="
  /\ fst (PDFUtils.read_pdf_as_base64 (offline_env demo_fs) "empty.pdf" []) =
    Ok "".
Proof. split; reflexivity. Qed.

Lemma validate_pdf_path_accepts_directory_witness :
  fst (PDFUtils.validate_pdf_path (offline_env demo_fs) "/srv/scans.pdf" []) =
    Ok (Pathlib.parse "/srv/scans.pdf") /\
  exists e,
    fst (PDFUtils.read_pdf_as_base64 (offline_env demo_fs) "/srv/scans.pdf" []) =
      Raise e /\
    e = IsADirectoryError "[Errno 21] Is a directory: '/srv/scans.pdf'" /\
    is_OSError e = true /\
    (forall msg, e <> FileNotFoundError msg) /\
    is_ValueError e = false.
Proof.
  apply (validate_pdf_path_accepts_directory (offline_env demo_fs)
           "/srv/scans.pdf" []); reflexivity.
Defined.

(** C10, as stated, fails: [/srv/.pdf] is an existing directory whose name
    ends in [.pdf], and the validation itself refuses it, with the
    [ValueError] of a wrong extension. *)
Lemma dot_pdf_directory_is_refused :
  let env := offline_env demo_fs in
  let path := Pathlib.parse "/srv/.pdf" in
  fs_stat (fs env) path = Some Directory /\
  Pathlib.name path = ".pdf" /\
  name_ends_in_pdf path = true /\
  fst (PDFUtils.validate_pdf_path env "/srv/.pdf" []) =
    Raise (ValueError "File is not a PDF: /srv/.pdf") /\
  fst (PDFUtils.read_pdf_as_base64 env "/srv/.pdf" []) =
    Raise (ValueError "File is not a PDF: /srv/.pdf").
Proof. repeat split. Qed.

(** ** The tool-call client *)

Section ToolCallClient.

Import MCPHTTPClient.

Variable env : environment.

(** [_call_tool] advances the counter and posts the request; what the
    network makes of the request decides how the call goes on. *)
Ltac post_request Hnet :=
  cbv [_call_tool _next_request_id client_post on_world PDFUtils.emit bind ret
       raise lift get_state modify];
  cbn [self log];
  unfold requested, tool_request in Hnet; cbn [log] in Hnet;
  cbn [_request_id set_request_id mcp_endpoint headers];
  rewrite Hnet.

(** ... and, once a response with a 2xx status has been parsed, what is made
    of the parsed value. *)
Ltac parse_response Hnet Hstatus Hjson :=
  post_request Hnet;
  cbv [raise_for_status response_json ret raise]; rewrite Hstatus, Hjson.

Lemma call_tool_transport_failure tool b64 st f :
  net env (log (requested st tool b64)) = Failed f ->
  _call_tool env tool b64 st = (Raise (TransportError f), requested st tool b64).
Proof.
  intros Hnet. post_request Hnet. reflexivity.
Qed.

Lemma call_tool_status_failure tool b64 st r :
  net env (log (requested st tool b64)) = Responded r ->
  is_success r = false ->
  _call_tool env tool b64 st =
    (Raise (HTTPStatusError (status_code r)), requested st tool b64).
Proof.
  intros Hnet Hstatus. post_request Hnet.
  cbv [raise_for_status ret raise]. rewrite Hstatus. reflexivity.
Qed.

(** Whatever happens, the state [_call_tool] leaves is the same. *)
Lemma call_tool_state tool b64 st :
  snd (_call_tool env tool b64 st) = requested st tool b64.
Proof.
  destruct (net env (log (requested st tool b64))) as [r|f] eqn:Hnet.
  - pose proof Hnet as Hnet'. post_request Hnet.
    cbv [raise_for_status response_json ret raise].
    destruct (is_success r); [|reflexivity].
    destruct (json_loads env (content r)) as [rpc|]; [|reflexivity].
    destruct (Py.contains_str "error" rpc) as [[|]|]; [| |reflexivity].
    + destruct (Py.getitem_str rpc "error") as [error|]; [|reflexivity].
      destruct (Py.get error "code" PyNone); [|reflexivity].
      destruct (Py.get error "message" PyNone); reflexivity.
    + destruct (Py.get rpc "result" (PyDict ∅)) as [result|]; [|reflexivity].
      destruct (Py.get result "content" (PyList [])) as [items|];
        [|reflexivity].
      destruct (negb (Py.truthy items)); [reflexivity|].
      destruct (Py.getitem_0 items) as [item|]; [|reflexivity].
      destruct (Py.get item "type" PyNone) as [ty|]; [|reflexivity].
      destruct (Py.eq_str ty "text"); [|reflexivity].
      destruct (Py.getitem_str item "text") as [text|]; [|reflexivity].
      destruct (json_loads_value env text); reflexivity.
  - rewrite (call_tool_transport_failure _ _ _ _ Hnet). reflexivity.
Qed.

Lemma result_content_items rpc items :
  result_content rpc = ContentItems items ->
  exists result,
    rpc !! "result" = Some (PyDict result) /\
    result !! "content" = Some (PyList items).
Proof.
  unfold result_content. intros H.
  destruct (rpc !! "result") as [[| | | | |?|result]|]; try discriminate.
  exists result. split; [reflexivity|].
  destruct (result !! "content") as [[| | | | |l|?]|]; try discriminate.
  congruence.
Qed.

Lemma result_content_absent rpc :
  result_content rpc = ContentAbsent ->
  rpc !! "result" = None \/
  exists result, rpc !! "result" = Some (PyDict result) /\
                 result !! "content" = None.
Proof.
  unfold result_content. intros H.
  destruct (rpc !! "result") as [[| | | | |?|result]|]; try discriminate;
    [right|left; reflexivity].
  exists result. split; [reflexivity|].
  destruct (result !! "content") as [[| | | | |l|?]|]; try discriminate.
  reflexivity.
Qed.

Lemma no_error_key (rpc : gmap string pyval) :
  rpc !! "error" = None ->
  Py.contains_str "error" (PyDict rpc) = Ok false.
Proof.
  intros H. cbn [Py.contains_str]. rewrite H.
  rewrite bool_decide_eq_false_2; [reflexivity|].
  intros [x Hx]. discriminate.
Qed.

(** The three ways a response without [error] is unwrapped. *)
Lemma call_tool_no_content tool b64 st r rpc :
  net env (log (requested st tool b64)) = Responded r ->
  is_success r = true ->
  json_loads env (content r) = Some (PyDict rpc) ->
  rpc !! "error" = None ->
  result_content rpc = ContentAbsent \/ result_content rpc = ContentItems [] ->
  _call_tool env tool b64 st = (Ok (PyDict ∅), requested st tool b64).
Proof.
  intros Hnet Hstatus Hjson Herr Hcontent.
  parse_response Hnet Hstatus Hjson. rewrite (no_error_key _ Herr).
  cbn [Py.get].
  destruct Hcontent as [Habs|Hnil].
  - destruct (result_content_absent _ Habs) as [Hres|(result & Hres & Hc)];
      rewrite Hres; cbn [Py.get].
    + rewrite lookup_empty. reflexivity.
    + rewrite Hc. reflexivity.
  - destruct (result_content_items _ _ Hnil) as (result & Hres & Hc).
    rewrite Hres. cbn [Py.get]. rewrite Hc. reflexivity.
Qed.

Lemma call_tool_first_item tool b64 st r rpc item rest :
  net env (log (requested st tool b64)) = Responded r ->
  is_success r = true ->
  json_loads env (content r) = Some (PyDict rpc) ->
  rpc !! "error" = None ->
  result_content rpc = ContentItems (PyDict item :: rest) ->
  _call_tool env tool b64 st =
    (if Py.eq_str (match item !! "type" with Some ty => ty | None => PyNone end)
          "text"
     then match Py.getitem_str (PyDict item) "text" with
          | Ok text => json_loads_value env text
          | Raise e => Raise e
          end
     else Ok (PyDict ∅),
     requested st tool b64).
Proof.
  intros Hnet Hstatus Hjson Herr Hcontent.
  parse_response Hnet Hstatus Hjson. rewrite (no_error_key _ Herr).
  destruct (result_content_items _ _ Hcontent) as (result & Hres & Hc).
  cbn [Py.get]. rewrite Hres. cbn [Py.get]. rewrite Hc.
  cbn [Py.truthy negb Py.getitem_0 Py.get].
  destruct (Py.eq_str _ "text"); [|reflexivity].
  destruct (Py.getitem_str (PyDict item) "text") as [text|e]; [|reflexivity].
  destruct (json_loads_value env text); reflexivity.
Qed.

Lemma eq_str_other_type (item : gmap string pyval) :
  item !! "type" <> Some (PyStr "text") ->
  Py.eq_str (match item !! "type" with Some ty => ty | None => PyNone end)
    "text" = false.
Proof.
  intros H. destruct (item !! "type") as [ty|]; [|reflexivity].
  destruct ty; try reflexivity. cbn [Py.eq_str].
  apply String.eqb_neq. congruence.
Qed.

(** The public methods read the file, call the tool and hand on the
    result. *)
Lemma extract_text_run st0 pdf_path b64 st :
  reads_into env st0 pdf_path b64 st ->
  extract_text env pdf_path st0 =
  match _call_tool env extract_text_tool b64 st with
  | (Ok result, st') => (Py.get result "text" (PyStr ""), st')
  | (Raise e, st') => (Raise e, st')
  end.
Proof.
  intros [Hread Hself]. destruct st as [c l]. cbn [self log] in *. subst c.
  unfold extract_text, bind at 1, on_world. rewrite Hread.
  unfold bind at 1.
  destruct (_call_tool env extract_text_tool b64 _) as [[result|e] st'];
    reflexivity.
Qed.

Lemma extract_metadata_run st0 pdf_path b64 st :
  reads_into env st0 pdf_path b64 st ->
  extract_metadata env pdf_path st0 =
    _call_tool env extract_metadata_tool b64 st.
Proof.
  intros [Hread Hself]. destruct st as [c l]. cbn [self log] in *. subst c.
  unfold extract_metadata, bind at 1, on_world. rewrite Hread.
  unfold bind at 1.
  destruct (_call_tool env extract_metadata_tool b64 _) as [[result|e] st'];
    reflexivity.
Qed.

(** C1: a response without [error] is unwrapped as follows.  When
    [result.content] is absent or the empty list, [_call_tool] returns the
    empty mapping, so that [extract_text] returns [""] and [extract_metadata]
    the empty mapping.  When the first content item has type ["text"],
    [_call_tool] returns what [json.loads] makes of its [text] member, and
    [extract_text] the [text] member of that, or [""] when there is none.
    When the first content item has another type, or none, [_call_tool]
    returns the empty mapping and raises nothing. *)
Theorem call_tool_unwraps_result tool b64 st r rpc :
  net env (log (requested st tool b64)) = Responded r ->
  is_success r = true ->
  json_loads env (content r) = Some (PyDict rpc) ->
  rpc !! "error" = None ->
  (result_content rpc = ContentAbsent \/ result_content rpc = ContentItems [] ->
   fst (_call_tool env tool b64 st) = Ok (PyDict ∅) /\
   (forall st0 pdf_path,
      tool = extract_text_tool -> reads_into env st0 pdf_path b64 st ->
      fst (extract_text env pdf_path st0) = Ok (PyStr "")) /\
   (forall st0 pdf_path,
      tool = extract_metadata_tool -> reads_into env st0 pdf_path b64 st ->
      fst (extract_metadata env pdf_path st0) = Ok (PyDict ∅)))
  /\ (forall item rest text,
      result_content rpc = ContentItems (PyDict item :: rest) ->
      item !! "type" = Some (PyStr "text") ->
      item !! "text" = Some (PyStr text) ->
      fst (_call_tool env tool b64 st) = json_loads_value env (PyStr text) /\
      (forall st0 pdf_path decoded,
         tool = extract_text_tool -> reads_into env st0 pdf_path b64 st ->
         json_loads env text = Some (PyDict decoded) ->
         fst (extract_text env pdf_path st0) =
           Ok (match decoded !! "text" with
               | Some v => v
               | None => PyStr ""
               end)))
  /\ (forall item rest,
      result_content rpc = ContentItems (PyDict item :: rest) ->
      item !! "type" <> Some (PyStr "text") ->
      fst (_call_tool env tool b64 st) = Ok (PyDict ∅)).
Proof.
  intros Hnet Hstatus Hjson Herr. split; [|split].
  - intros Hcontent.
    pose proof (call_tool_no_content _ _ _ _ _ Hnet Hstatus Hjson Herr Hcontent)
      as Hrun.
    split; [rewrite Hrun; reflexivity|]. split.
    + intros st0 pdf_path -> Hread.
      rewrite (extract_text_run _ _ _ _ Hread), Hrun.
      cbn [fst Py.get]. rewrite lookup_empty. reflexivity.
    + intros st0 pdf_path -> Hread.
      rewrite (extract_metadata_run _ _ _ _ Hread), Hrun. reflexivity.
  - intros item rest text Hcontent Hty Htext.
    pose proof (call_tool_first_item _ _ _ _ _ _ _ Hnet Hstatus Hjson Herr
                  Hcontent) as Hrun.
    rewrite Hty in Hrun. cbn [Py.eq_str Py.getitem_str] in Hrun.
    rewrite Htext in Hrun. change (String.eqb "text" "text") with true in Hrun.
    cbv iota in Hrun.
    split; [rewrite Hrun; reflexivity|].
    intros st0 pdf_path decoded -> Hread Hdec.
    rewrite (extract_text_run _ _ _ _ Hread), Hrun.
    cbn [json_loads_value]. rewrite Hdec. reflexivity.
  - intros item rest Hcontent Hty.
    rewrite (call_tool_first_item _ _ _ _ _ _ _ Hnet Hstatus Hjson Herr
               Hcontent).
    rewrite (eq_str_other_type _ Hty). reflexivity.
Qed.

(** C9: when the first content item of a response without [error] has type
    ["text"] and no [text] member, [_call_tool] raises the [KeyError] of the
    failed lookup: a [LookupError], not the [JSONDecodeError] of a text that
    does not parse nor any other [ValueError], and no mapping is returned. *)
Theorem call_tool_text_item_without_text tool b64 st r rpc item rest :
  net env (log (requested st tool b64)) = Responded r ->
  is_success r = true ->
  json_loads env (content r) = Some (PyDict rpc) ->
  rpc !! "error" = None ->
  result_content rpc = ContentItems (PyDict item :: rest) ->
  item !! "type" = Some (PyStr "text") ->
  item !! "text" = None ->
  exists e,
    fst (_call_tool env tool b64 st) = Raise e /\
    e = KeyError (PyStr "text") /\
    is_LookupError e = true /\
    e <> JSONDecodeError /\
    is_ValueError e = false.
Proof.
  intros Hnet Hstatus Hjson Herr Hcontent Hty Htext.
  exists (KeyError (PyStr "text")).
  rewrite (call_tool_first_item _ _ _ _ _ _ _ Hnet Hstatus Hjson Herr Hcontent).
  rewrite Hty. cbn [Py.eq_str Py.getitem_str]. rewrite Htext.
  repeat split. discriminate.
Qed.

Lemma substring_of_prefix (t rest : string) :
  Py.substring_of t (t ++ rest) = true.
Proof.
  assert (Hp : String.prefix t (t ++ rest) = true).
  { induction t as [|c t IH].
    - destruct rest; reflexivity.
    - change (String c t ++ rest) with (String c (t ++ rest)).
      cbn [String.prefix]. rewrite IH.
      destruct (ascii_dec c c); [reflexivity|congruence]. }
  revert Hp. generalize (t ++ rest). intros s Hp.
  destruct s; cbn [Py.substring_of]; rewrite Hp; reflexivity.
Qed.

Lemma substring_of_refl (t : string) : Py.substring_of t t = true.
Proof.
  assert (Happ : t ++ "" = t).
  { induction t as [|c t IH]; [reflexivity|].
    change (String c t ++ "") with (String c (t ++ "")). congruence. }
  rewrite <- Happ at 2. apply substring_of_prefix.
Qed.

Lemma substring_of_app (t before s : string) :
  Py.substring_of t s = true -> Py.substring_of t (before ++ s) = true.
Proof.
  intros H. induction before as [|c before IH]; [exact H|].
  change (String c before ++ s) with (String c (before ++ s)).
  cbn [Py.substring_of]. rewrite IH. apply orb_true_r.
Qed.

(** C2: a status outside 2xx makes [_call_tool] raise [HTTPStatusError], an
    [httpx.HTTPError], whatever the body is and whether it parses or not.
    With a 2xx status and an [error] member (an object, as JSON-RPC has it)
    in the parsed body, [_call_tool] raises a [ValueError], which is not an
    [httpx.HTTPError], whatever else the body holds, the [result] member
    included; its message is built from the [code] and [message] members of
    the error and contains the digits of an integer code and the text of a
    string message. *)
Theorem call_tool_reports_errors tool b64 st r :
  net env (log (requested st tool b64)) = Responded r ->
  (is_success r = false ->
   fst (_call_tool env tool b64 st) = Raise (HTTPStatusError (status_code r)) /\
   is_HTTPError (HTTPStatusError (status_code r)) = true)
  /\ (forall (rpc error : gmap string pyval),
      is_success r = true ->
      json_loads env (content r) = Some (PyDict rpc) ->
      rpc !! "error" = Some (PyDict error) ->
      exists msg,
        fst (_call_tool env tool b64 st) = Raise (ValueError msg) /\
        is_ValueError (ValueError msg) = true /\
        is_HTTPError (ValueError msg) = false /\
        msg = mcp_error_message env
                (match error !! "code" with Some v => v | None => PyNone end)
                (match error !! "message" with Some v => v | None => PyNone end) /\
        (forall code text,
           error !! "code" = Some (PyInt code) ->
           error !! "message" = Some (PyStr text) ->
           msg = "MCP error [" ++ pretty code ++ "]: " ++ text /\
           Py.substring_of (pretty code) msg = true /\
           Py.substring_of text msg = true)).
Proof.
  intros Hnet. split.
  - intros Hstatus.
    rewrite (call_tool_status_failure _ _ _ _ Hnet Hstatus).
    split; reflexivity.
  - intros rpc error Hstatus Hjson Herr.
    eexists. split; [|split; [reflexivity|split; [reflexivity|split;
      [reflexivity|]]]].
    + parse_response Hnet Hstatus Hjson.
      cbn [Py.contains_str]. rewrite Herr.
      rewrite bool_decide_eq_true_2 by (eexists; reflexivity).
      cbn [Py.getitem_str]. rewrite Herr. cbn [Py.get fst]. reflexivity.
    + intros code text -> ->. unfold mcp_error_message. cbn [format].
      split; [reflexivity|]. split.
      * apply (substring_of_app _ "MCP error ["). apply substring_of_prefix.
      * apply (substring_of_app _ "MCP error [").
        apply substring_of_app. apply (substring_of_app _ "]: ").
        apply substring_of_refl.
Qed.

(** Every run of [health_check]. *)
Lemma health_check_run st :
  let probe := HttpGet (urljoin env (base_url (self st) ++ "/") "health")
                 (headers (self st)) in
  health_check env st =
    (Ok (match net env (log st ++ [probe])%list with
         | Responded r => status_code r =? 200
         | Failed _ => false
         end),
     {| self := self st; log := (log st ++ [probe])%list |}).
Proof.
  cbv [health_check try_except client_get on_world PDFUtils.emit bind ret
       raise get_state modify].
  cbn [self log].
  destruct (net env _) as [r|f]; reflexivity.
Qed.

(** C6: [health_check] sends one GET to the [health] URL under the base URL
    and never raises: it returns [True] exactly when a response comes back
    with status 200, and [False] for every other status and for every
    failure in transit.  A response with status 500 to the request of
    [_call_tool], by contrast, is raised as an [httpx.HTTPError]. *)
Theorem health_check_reports tool b64 st :
  let probe := HttpGet (urljoin env (base_url (self st) ++ "/") "health")
                 (headers (self st)) in
  let outcome := net env (log st ++ [probe])%list in
  (exists healthy,
     health_check env st =
       (Ok healthy, {| self := self st; log := (log st ++ [probe])%list |}) /\
     (healthy = true <-> exists r, outcome = Responded r /\ status_code r = 200) /\
     (forall r, outcome = Responded r -> status_code r <> 200 -> healthy = false) /\
     (forall f, outcome = Failed f -> healthy = false))
  /\ (forall r,
        net env (log (requested st tool b64)) = Responded r ->
        status_code r = 500 ->
        fst (_call_tool env tool b64 st) = Raise (HTTPStatusError 500) /\
        is_HTTPError (HTTPStatusError 500) = true).
Proof.
  intros probe outcome. split.
  - exists (match outcome with
            | Responded r => status_code r =? 200
            | Failed _ => false
            end).
    split; [apply health_check_run|].
    clearbody outcome. destruct outcome as [r|f].
    + split; [split|split].
      * intros H. exists r. split; [reflexivity|]. apply Z.eqb_eq. exact H.
      * intros (r' & Hr' & H200). injection Hr' as <-.
        apply Z.eqb_eq. exact H200.
      * intros r' Hr' Hne. injection Hr' as <-. apply Z.eqb_neq. exact Hne.
      * intros f Hf. discriminate.
    + split; [split|split].
      * discriminate.
      * intros (r & Hr & _). discriminate.
      * intros r Hr. discriminate.
      * reflexivity.
  - intros r Hnet H500.
    assert (Hstatus : is_success r = false).
    { unfold is_success. rewrite H500. reflexivity. }
    rewrite (call_tool_status_failure _ _ _ _ Hnet Hstatus), H500.
    split; reflexivity.
Qed.

(** *** The request counter *)

Lemma posted_ids_app evs1 evs2 :
  posted_ids (evs1 ++ evs2) = (posted_ids evs1 ++ posted_ids evs2)%list.
Proof. unfold posted_ids. apply omap_app. Qed.

Lemma posted_id_tool_request st tool b64 :
  posted_id (tool_request st tool b64) = Some (PyInt (_request_id (self st) + 1)).
Proof.
  unfold tool_request, MCPProtocol.create_tool_call_request,
    MCPProtocol.create_request. cbn [posted_id].
  rewrite lookup_insert_ne by discriminate.
  rewrite lookup_insert_eq. reflexivity.
Qed.

Lemma ids_up_to_succ k :
  ids_up_to (S k) = (ids_up_to k ++ [PyInt (Z.of_nat k + 1)])%list.
Proof.
  unfold ids_up_to. rewrite seq_S, map_app. cbn [map].
  repeat f_equal. lia.
Qed.

(** What reading a file does is done to the file system alone. *)
Lemma read_pdf_as_base64_events pdf_path l :
  exists events,
    snd (PDFUtils.read_pdf_as_base64 env pdf_path l) = (l ++ events)%list /\
    posted_ids events = [].
Proof.
  pose proof (validate_pdf_path_run env pdf_path l) as Hval. cbv zeta in Hval.
  set (path := Pathlib.parse pdf_path) in Hval.
  destruct (fs_stat (fs env) path) as [n|].
  - destruct (has_pdf_suffix path).
    + rewrite (read_pdf_as_base64_run env _ _ _ _ Hval).
      exists [PathExists path; PathResolve path;
              OpenRead (fs_resolve (fs env) path)].
      split; [|reflexivity].
      destruct (fs_stat (fs env) (fs_resolve (fs env) path)) as [[data|]|];
        cbn [snd]; rewrite <- app_assoc; reflexivity.
    + exists [PathExists path]. split; [|reflexivity].
      unfold PDFUtils.read_pdf_as_base64, bind. rewrite Hval. reflexivity.
  - exists [PathExists path]. split; [|reflexivity].
    unfold PDFUtils.read_pdf_as_base64, bind. rewrite Hval. reflexivity.
Qed.

Lemma call_tool_effect tool b64 st :
  exists events,
    log (snd (_call_tool env tool b64 st)) = (log st ++ events)%list /\
    posted_ids events = [PyInt (_request_id (self st) + 1)] /\
    _request_id (self (snd (_call_tool env tool b64 st))) =
      _request_id (self st) + 1.
Proof.
  rewrite call_tool_state. exists [tool_request st tool b64].
  split; [reflexivity|]. split; [|reflexivity].
  change (posted_ids [tool_request st tool b64])
    with (match posted_id (tool_request st tool b64) with
          | Some i => [i]
          | None => []
          end).
  rewrite posted_id_tool_request. reflexivity.
Qed.

Lemma read_then_call_effect {A} tool pdf_path (k : pyval -> M state A) st :
  (forall v st1, snd (k v st1) = st1) ->
  method_effect st
    (snd (bind (on_world (PDFUtils.read_pdf_as_base64 env pdf_path))
            (fun b64 => bind (_call_tool env tool b64) k) st)).
Proof.
  intros Hk.
  destruct (read_pdf_as_base64_events pdf_path (log st)) as (evs & Hlog & Hids).
  unfold bind at 1, on_world.
  destruct (PDFUtils.read_pdf_as_base64 env pdf_path (log st)) as [[b64|e] l].
  - cbn [snd] in Hlog. subst l. unfold bind.
    set (st1 := {| self := self st; log := (log st ++ evs)%list |}).
    destruct (call_tool_effect tool b64 st1) as (evs' & Hlog' & Hids' & Hrid).
    destruct (_call_tool env tool b64 st1) as [[v|e] st2]; cbn [snd] in *.
    + rewrite Hk. exists (evs ++ evs')%list.
      split; [rewrite Hlog', app_assoc; reflexivity|].
      right. rewrite posted_ids_app, Hids. split; assumption.
    + exists (evs ++ evs')%list.
      split; [rewrite Hlog', app_assoc; reflexivity|].
      right. rewrite posted_ids_app, Hids. split; assumption.
  - cbn [snd] in *. subst l. exists evs. split; [reflexivity|].
    left. split; [assumption|reflexivity].
Qed.

Lemma run_method_effect c st : method_effect st (run_method env c st).
Proof.
  destruct c as [p|p| |tool b64]; cbn [run_method].
  - apply read_then_call_effect. intros v st1.
    unfold lift. reflexivity.
  - apply read_then_call_effect. intros v st1. reflexivity.
  - rewrite health_check_run. cbn [snd].
    eexists. split; [reflexivity|]. left. split; reflexivity.
  - destruct (call_tool_effect tool b64 st) as (evs & Hlog & Hids & Hrid).
    exists evs. split; [assumption|]. right. split; assumption.
Qed.

Lemma run_methods_ids calls : forall st log0 events k,
  log st = (log0 ++ events)%list ->
  posted_ids events = ids_up_to k ->
  _request_id (self st) = Z.of_nat k ->
  exists events' k',
    log (run_methods env calls st) = (log0 ++ events')%list /\
    posted_ids events' = ids_up_to k' /\
    _request_id (self (run_methods env calls st)) = Z.of_nat k' /\
    (forallb is_tool_call calls = true -> k' = (k + List.length calls)%nat).
Proof.
  induction calls as [|c calls IH]; intros st log0 events k Hlog Hids Hrid.
  - exists events, k. cbn. repeat split; try assumption. lia.
  - cbn [run_methods fold_left].
    destruct (run_method_effect c st) as (evs & Hlog' & Hcase).
    assert (Htool : is_tool_call c = true ->
                    _request_id (self (run_method env c st)) =
                      _request_id (self st) + 1).
    { destruct c; try discriminate. intros _. cbn [run_method].
      destruct (call_tool_effect tool file_content_base64 st)
        as (? & _ & _ & H). exact H. }
    destruct Hcase as [[Hnone Hsame]|[Hone Hnext]].
    + destruct (IH (run_method env c st) log0 (events ++ evs)%list k)
        as (events' & k' & H1 & H2 & H3 & H4).
      * rewrite Hlog', Hlog, app_assoc. reflexivity.
      * rewrite posted_ids_app, Hnone, app_nil_r. assumption.
      * rewrite Hsame. assumption.
      * exists events', k'. repeat split; try assumption.
        cbn [forallb]. intros Hall. apply andb_prop in Hall as [Hc Hall].
        specialize (Htool Hc). lia.
    + destruct (IH (run_method env c st) log0 (events ++ evs)%list (S k))
        as (events' & k' & H1 & H2 & H3 & H4).
      * rewrite Hlog', Hlog, app_assoc. reflexivity.
      * rewrite posted_ids_app, Hone, Hids, ids_up_to_succ, Hrid. reflexivity.
      * rewrite Hnext, Hrid. lia.
      * exists events', k'. repeat split; try assumption.
        cbn [forallb List.length]. intros Hall.
        apply andb_prop in Hall as [_ Hall]. specialize (H4 Hall). lia.
Qed.

(** C8: the requests an instance posts carry the ids 1, 2, 3, ... in the
    order they are posted, whatever calls are made on the instance, whatever
    the calls return or raise, and whatever happened in the world before the
    instance was made; an instance made later starts at 1 again.  A sequence
    of tool calls posts one request for each call: three of them post the ids
    1, 2 and 3.  The counter of the instance holds the id posted last. *)
Theorem request_ids_count_from_one log0
    base_a key_a timeout_a read_timeout_a calls_a
    base_b key_b timeout_b read_timeout_b calls_b :
  let a := run_methods env calls_a
             {| self := init env base_a key_a timeout_a read_timeout_a;
                log := log0 |} in
  let b := run_methods env calls_b
             {| self := init env base_b key_b timeout_b read_timeout_b;
                log := log a |} in
  exists events_a k_a events_b k_b,
    log a = (log0 ++ events_a)%list /\
    posted_ids events_a = ids_up_to k_a /\
    _request_id (self a) = Z.of_nat k_a /\
    (forallb is_tool_call calls_a = true -> k_a = List.length calls_a) /\
    (forall t1 c1 t2 c2 t3 c3,
       calls_a = [CallTool t1 c1; CallTool t2 c2; CallTool t3 c3] ->
       posted_ids events_a = [PyInt 1; PyInt 2; PyInt 3]) /\
    log b = (log a ++ events_b)%list /\
    posted_ids events_b = ids_up_to k_b /\
    _request_id (self b) = Z.of_nat k_b /\
    (forallb is_tool_call calls_b = true -> k_b = List.length calls_b).
Proof.
  intros a b.
  destruct (run_methods_ids calls_a
              {| self := init env base_a key_a timeout_a read_timeout_a;
                 log := log0 |} log0 [] 0%nat)
    as (events_a & k_a & Ha1 & Ha2 & Ha3 & Ha4);
    [cbn [log]; rewrite app_nil_r; reflexivity|reflexivity|reflexivity|].
  destruct (run_methods_ids calls_b
              {| self := init env base_b key_b timeout_b read_timeout_b;
                 log := log a |} (log a) [] 0%nat)
    as (events_b & k_b & Hb1 & Hb2 & Hb3 & Hb4);
    [cbn [log]; rewrite app_nil_r; reflexivity|reflexivity|reflexivity|].
  exists events_a, k_a, events_b, k_b.
  fold a in Ha1, Ha3. fold b in Hb1, Hb3.
  repeat split; try assumption.
  intros t1 c1 t2 c2 t3 c3 Hcalls. rewrite Ha2, Ha4 by (rewrite Hcalls; reflexivity).
  rewrite Hcalls. reflexivity.
Qed.

End ToolCallClient.


(** *** The client against the example servers *)

(** The example of the specification: the text of the PDF comes back. *)
Example extract_text_sample :
  fst (MCPHTTPClient.extract_text sample_env "report.PDF"
         (fresh_client sample_env)) = Ok (PyStr "Sample PDF text").
Proof. vm_compute. reflexivity. Qed.

Example extract_empty_content :
  fst (MCPHTTPClient.extract_text empty_content_env "report.PDF"
         (fresh_client empty_content_env)) = Ok (PyStr "")
  /\ fst (MCPHTTPClient.extract_metadata empty_content_env "report.PDF"
            (fresh_client empty_content_env)) = Ok (PyDict ∅).
Proof. split; vm_compute; reflexivity. Qed.

Lemma call_tool_unwraps_result_witness :
  (fst (MCPHTTPClient._call_tool empty_content_env
          MCPHTTPClient.extract_text_tool "ZmFrZQ=="
          (after_reading empty_content_env "report.PDF"
             (fresh_client empty_content_env))) = Ok (PyDict ∅)
   /\ fst (MCPHTTPClient.extract_text empty_content_env "report.PDF"
             (fresh_client empty_content_env)) = Ok (PyStr ""))
  /\ (fst (MCPHTTPClient._call_tool sample_env
             MCPHTTPClient.extract_text_tool "ZmFrZQ=="
             (after_reading sample_env "report.PDF" (fresh_client sample_env))) =
        Ok (PyDict sample_text_value)
      /\ fst (MCPHTTPClient.extract_text sample_env "report.PDF"
                (fresh_client sample_env)) = Ok (PyStr "Sample PDF text"))
  /\ fst (MCPHTTPClient._call_tool image_env
            MCPHTTPClient.extract_metadata_tool "ZmFrZQ=="
            (after_reading image_env "report.PDF" (fresh_client image_env))) =
       Ok (PyDict ∅).
Proof.
  split; [|split].
  - destruct (call_tool_unwraps_result empty_content_env
                MCPHTTPClient.extract_text_tool "ZmFrZQ=="
                (after_reading empty_content_env "report.PDF"
                   (fresh_client empty_content_env))
                {| status_code := 200; content := empty_content_body |}
                empty_content_value
                ltac:(vm_compute; reflexivity) ltac:(vm_compute; reflexivity)
                ltac:(vm_compute; reflexivity) ltac:(vm_compute; reflexivity))
      as (Hempty & _ & _).
    destruct (Hempty ltac:(right; vm_compute; reflexivity))
      as (Hcall & Htext & _).
    split; [exact Hcall|].
    apply Htext; [reflexivity|]. split; vm_compute; reflexivity.
  - destruct (call_tool_unwraps_result sample_env
                MCPHTTPClient.extract_text_tool "ZmFrZQ=="
                (after_reading sample_env "report.PDF" (fresh_client sample_env))
                {| status_code := 200; content := sample_body |}
                sample_value
                ltac:(vm_compute; reflexivity) ltac:(vm_compute; reflexivity)
                ltac:(vm_compute; reflexivity) ltac:(vm_compute; reflexivity))
      as (_ & Htext & _).
    destruct (Htext sample_item [] sample_text
                ltac:(vm_compute; reflexivity) ltac:(vm_compute; reflexivity)
                ltac:(vm_compute; reflexivity))
      as (Hcall & Hextract).
    split; [exact Hcall|].
    apply (Hextract (fresh_client sample_env) "report.PDF" sample_text_value);
      [reflexivity| |vm_compute; reflexivity].
    split; vm_compute; reflexivity.
  - destruct (call_tool_unwraps_result image_env
                MCPHTTPClient.extract_metadata_tool "ZmFrZQ=="
                (after_reading image_env "report.PDF" (fresh_client image_env))
                {| status_code := 200; content := image_body |}
                image_value
                ltac:(vm_compute; reflexivity) ltac:(vm_compute; reflexivity)
                ltac:(vm_compute; reflexivity) ltac:(vm_compute; reflexivity))
      as (_ & _ & Hother).
    apply (Hother image_item []); [vm_compute; reflexivity|].
    vm_compute. discriminate.
Defined.

Lemma call_tool_text_item_without_text_witness :
  exists e,
    fst (MCPHTTPClient._call_tool no_text_env MCPHTTPClient.extract_text_tool
           "ZmFrZQ=="
           (after_reading no_text_env "report.PDF" (fresh_client no_text_env))) =
      Raise e /\
    e = KeyError (PyStr "text") /\
    is_LookupError e = true /\
    e <> JSONDecodeError /\
    is_ValueError e = false.
Proof.
  apply (call_tool_text_item_without_text no_text_env
           MCPHTTPClient.extract_text_tool "ZmFrZQ=="
           (after_reading no_text_env "report.PDF" (fresh_client no_text_env))
           {| status_code := 200; content := no_text_body |}
           no_text_value no_text_item []); vm_compute; reflexivity.
Defined.

Example extract_text_without_text_member :
  fst (MCPHTTPClient.extract_text no_text_env "report.PDF"
         (fresh_client no_text_env)) = Raise (KeyError (PyStr "text")).
Proof. vm_compute. reflexivity. Qed.

Lemma call_tool_reports_errors_witness :
  fst (MCPHTTPClient._call_tool failing_env MCPHTTPClient.extract_text_tool
         "ZmFrZQ==" (fresh_client failing_env)) = Raise (HTTPStatusError 500)
  /\ fst (MCPHTTPClient._call_tool error_env MCPHTTPClient.extract_text_tool
            "ZmFrZQ==" (fresh_client error_env)) =
       Raise (ValueError "MCP error [-32600]: Invalid request").
Proof.
  split.
  - apply (proj1 (call_tool_reports_errors failing_env
                    MCPHTTPClient.extract_text_tool "ZmFrZQ=="
                    (fresh_client failing_env)
                    {| status_code := 500; content := "" |} eq_refl)).
    reflexivity.
  - destruct (proj2 (call_tool_reports_errors error_env
                       MCPHTTPClient.extract_text_tool "ZmFrZQ=="
                       (fresh_client error_env)
                       {| status_code := 200; content := error_body |} eq_refl)
                error_value error_object
                ltac:(vm_compute; reflexivity) ltac:(vm_compute; reflexivity)
                ltac:(vm_compute; reflexivity))
      as (msg & Hcall & _ & _ & _ & Hmsg).
    destruct (Hmsg (-32600) "Invalid request"
                ltac:(vm_compute; reflexivity) ltac:(vm_compute; reflexivity))
      as (-> & _).
    exact Hcall.
Defined.

(** The [error] member is looked at first: a [result] that would make the
    unwrapping fail does not matter when there is an [error]. *)
Example error_before_result :
  fst (MCPHTTPClient._call_tool error_and_result_env
         MCPHTTPClient.extract_text_tool "ZmFrZQ=="
         (fresh_client error_and_result_env)) =
    Raise (ValueError "MCP error [-32600]: Invalid request")
  /\ fst (MCPHTTPClient._call_tool null_result_env
            MCPHTTPClient.extract_text_tool "ZmFrZQ=="
            (fresh_client null_result_env)) =
       Raise (AttributeError PyNone "get").
Proof. split; vm_compute; reflexivity. Qed.

(** An [error] member that is no object is outside JSON-RPC; the lookup of
    its [code] fails. *)
Example error_member_null :
  fst (MCPHTTPClient._call_tool null_error_env
         MCPHTTPClient.extract_text_tool "ZmFrZQ=="
         (fresh_client null_error_env)) = Raise (AttributeError PyNone "get").
Proof. vm_compute. reflexivity. Qed.

Lemma health_check_reports_witness :
  fst (MCPHTTPClient.health_check failing_env (fresh_client failing_env)) =
    Ok false
  /\ fst (MCPHTTPClient._call_tool failing_env MCPHTTPClient.extract_text_tool
            "ZmFrZQ==" (fresh_client failing_env)) = Raise (HTTPStatusError 500).
Proof.
  destruct (health_check_reports failing_env MCPHTTPClient.extract_text_tool
              "ZmFrZQ==" (fresh_client failing_env))
    as ((healthy & Hrun & _ & Hother & _) & Hcall).
  split.
  - rewrite Hrun.
    rewrite (Hother {| status_code := 500; content := "" |});
      [reflexivity|vm_compute; reflexivity|discriminate].
  - apply (Hcall {| status_code := 500; content := "" |}); reflexivity.
Defined.

Example health_check_examples :
  fst (MCPHTTPClient.health_check sample_env (fresh_client sample_env)) = Ok true
  /\ fst (MCPHTTPClient.health_check unreachable_env
            (fresh_client unreachable_env)) = Ok false
  /\ fst (MCPHTTPClient._call_tool unreachable_env
            MCPHTTPClient.extract_text_tool "ZmFrZQ=="
            (fresh_client unreachable_env)) =
       Raise (TransportError ConnectionRefused).
Proof. repeat split; vm_compute; reflexivity. Qed.

Lemma request_ids_count_from_one_witness :
  exists events,
    MCPHTTPClient.log
      (run_methods sample_env
         [CallTool MCPHTTPClient.extract_text_tool "ZmFrZQ==";
          CallTool MCPHTTPClient.extract_metadata_tool "ZmFrZQ==";
          CallTool MCPHTTPClient.extract_text_tool ""]
         (fresh_client sample_env)) = events /\
    posted_ids events = [PyInt 1; PyInt 2; PyInt 3].
Proof.
  destruct (request_ids_count_from_one sample_env []
              "http://localhost:3000/" None 30 60
              [CallTool MCPHTTPClient.extract_text_tool "ZmFrZQ==";
               CallTool MCPHTTPClient.extract_metadata_tool "ZmFrZQ==";
               CallTool MCPHTTPClient.extract_text_tool ""]
              "http://localhost:3000/" None 30 60 [])
    as (events & k & _ & _ & Hlog & _ & _ & _ & Hthree & _).
  exists events. split; [exact Hlog|].
  apply (Hthree _ _ _ _ _ _ eq_refl).
Defined.

(** Three extractions in a row, as in the tests of the client. *)
Example three_extractions :
  posted_ids
    (MCPHTTPClient.log
       (run_methods sample_env
          [ExtractText "report.PDF"; ExtractText "report.PDF";
           ExtractText "report.PDF"]
          (fresh_client sample_env))) = [PyInt 1; PyInt 2; PyInt 3].
Proof. vm_compute. reflexivity. Qed.

(** A call that fails before or after the request is posted: the id is
    used up only when the request is posted. *)
Example ids_with_failures :
  posted_ids
    (MCPHTTPClient.log
       (run_methods failing_env
          [ExtractText "missing.pdf"; ExtractText "report.PDF"; HealthCheck;
           ExtractMetadata "report.PDF"]
          (fresh_client failing_env))) = [PyInt 1; PyInt 2].
Proof. vm_compute. reflexivity. Qed.

(** * Further properties *)

(** ** The configuration of an instance *)

Section ClientConfiguration.

Import MCPHTTPClient.

Variable env : environment.

Lemma append_last_eq (a b : string) (x y : ascii) :
  a ++ String x "" = b ++ String y "" -> x = y.
Proof.
  revert b. induction a as [|c a IH]; intros [|d b] H.
  - injection H as ->. reflexivity.
  - rewrite append_cons in H. injection H as _ H. destruct b; discriminate.
  - rewrite append_cons in H. injection H as _ H. destruct a; discriminate.
  - rewrite !append_cons in H. injection H as _ H. exact (IH _ H).
Qed.

Lemma rstrip_slash_cases s :
  rstrip_slash s = "" \/
  exists t c, rstrip_slash s = t ++ String c "" /\ c <> "/"%char.
Proof.
  induction s as [|c s IH]; [left; reflexivity|].
  cbn [rstrip_slash].
  destruct IH as [->|(t & c0 & -> & Hc0)].
  - cbn [String.eqb andb]. destruct (Ascii.eqb c "/") eqn:E.
    + left. reflexivity.
    + right. exists "", c. split; [reflexivity|].
      apply Ascii.eqb_neq. exact E.
  - right. exists (String c t), c0.
    replace (String.eqb (t ++ String c0 "") "") with false
      by (destruct t; reflexivity).
    split; [reflexivity|assumption].
Qed.

Lemma rstrip_slash_no_slash s t : rstrip_slash s <> t ++ "/".
Proof.
  intros H. destruct (rstrip_slash_cases s) as [E|(t' & c & E & Hc)];
    rewrite E in H.
  - destruct t; discriminate.
  - apply append_last_eq in H. congruence.
Qed.

Lemma rstrip_slash_app_slash s : rstrip_slash (s ++ "/") = rstrip_slash s.
Proof.
  induction s as [|c s IH]; [reflexivity|].
  rewrite append_cons. cbn [rstrip_slash]. rewrite IH. reflexivity.
Qed.

Lemma rstrip_slash_fixed s :
  (forall t, s <> t ++ "/") -> rstrip_slash s = s.
Proof.
  induction s as [|c s IH]; intros H; [reflexivity|].
  cbn [rstrip_slash].
  destruct s as [|d s].
  - cbn [rstrip_slash String.eqb andb].
    destruct (Ascii.eqb c "/") eqn:E; [|reflexivity].
    apply Ascii.eqb_eq in E. subst c. exfalso. apply (H ""). reflexivity.
  - rewrite IH.
    + reflexivity.
    + intros t Ht. apply (H (String c t)). rewrite append_cons, Ht.
      reflexivity.
Qed.

(** X1: the base URL is kept without its trailing slashes: a base URL and
    the same with a slash more make the same instance, the base URL kept
    never ends in a slash, one that has no slash at its end is kept as it
    is, and making an instance from the kept base URL changes nothing. *)
Theorem init_normalises_base_url base api_key tmo read_tmo :
  init env (base ++ "/") api_key tmo read_tmo =
    init env base api_key tmo read_tmo /\
  (forall t, base_url (init env base api_key tmo read_tmo) <> t ++ "/") /\
  ((forall t, base <> t ++ "/") ->
   base_url (init env base api_key tmo read_tmo) = base) /\
  init env (base_url (init env base api_key tmo read_tmo)) api_key tmo read_tmo =
    init env base api_key tmo read_tmo.
Proof.
  split; [|split; [|split]].
  - unfold init. rewrite rstrip_slash_app_slash. reflexivity.
  - intros t. apply rstrip_slash_no_slash.
  - intros H. apply rstrip_slash_fixed. exact H.
  - unfold init. cbn [base_url].
    rewrite (rstrip_slash_fixed (rstrip_slash base))
      by (intros t; apply rstrip_slash_no_slash).
    reflexivity.
Qed.

Lemma set_request_id_same c : set_request_id (_request_id c) c = c.
Proof. destruct c. reflexivity. Qed.

Lemma fs_events_of_read pdf_path l :
  exists events,
    snd (PDFUtils.read_pdf_as_base64 env pdf_path l) = (l ++ events)%list /\
    existsb is_http events = false.
Proof.
  pose proof (validate_pdf_path_run env pdf_path l) as Hval. cbv zeta in Hval.
  set (path := Pathlib.parse pdf_path) in Hval.
  destruct (fs_stat (fs env) path) as [n|].
  - destruct (has_pdf_suffix path).
    + rewrite (read_pdf_as_base64_run env _ _ _ _ Hval).
      exists [PathExists path; PathResolve path;
              OpenRead (fs_resolve (fs env) path)].
      split; [|reflexivity].
      destruct (fs_stat (fs env) (fs_resolve (fs env) path)) as [[data|]|];
        cbn [snd]; rewrite <- app_assoc; reflexivity.
    + exists [PathExists path]. split; [|reflexivity].
      unfold PDFUtils.read_pdf_as_base64, bind. rewrite Hval. reflexivity.
  - exists [PathExists path]. split; [|reflexivity].
    unfold PDFUtils.read_pdf_as_base64, bind. rewrite Hval. reflexivity.
Qed.

Lemma fs_event_configured c e :
  is_http e = false -> configured_request env c e.
Proof. destruct e; try discriminate; intros _; exact I. Qed.

Lemma fs_events_configured c events :
  existsb is_http events = false -> Forall (configured_request env c) events.
Proof.
  induction events as [|e events IH]; [constructor|].
  cbn [existsb]. intros H. apply orb_false_elim in H as [He H].
  constructor; [apply fs_event_configured; exact He|apply IH; exact H].
Qed.

Lemma tool_request_configured st tool b64 :
  configured_request env (self st) (tool_request st tool b64).
Proof.
  unfold tool_request. cbn [configured_request].
  split; [reflexivity|]. split; [reflexivity|].
  exists tool, b64, (_request_id (self st) + 1). reflexivity.
Qed.

Lemma read_then_call_keeps {A} tool pdf_path (k : pyval -> M state A) st :
  (forall v st1, snd (k v st1) = st1) ->
  keeps_configuration env st
    (snd (bind (on_world (PDFUtils.read_pdf_as_base64 env pdf_path))
            (fun b64 => bind (_call_tool env tool b64) k) st)).
Proof.
  intros Hk.
  destruct (fs_events_of_read pdf_path (log st)) as (evs & Hlog & Hfs).
  unfold bind at 1, on_world.
  destruct (PDFUtils.read_pdf_as_base64 env pdf_path (log st)) as [[b64|e] l];
    cbn [snd] in Hlog; subst l.
  - set (st1 := {| self := self st; log := (log st ++ evs)%list |}).
    assert (Hsnd : snd (bind (_call_tool env tool b64) k st1) =
                   requested st1 tool b64).
    { unfold bind. pose proof (call_tool_state env tool b64 st1) as Hst.
      destruct (_call_tool env tool b64 st1) as [[v|e] st2]; cbn [snd] in *.
      - rewrite Hk. exact Hst.
      - exact Hst. }
    rewrite Hsnd.
    exists (evs ++ [tool_request st1 tool b64])%list,
           (_request_id (self st) + 1).
    split; [cbn [requested log st1]; rewrite app_assoc; reflexivity|].
    split; [|reflexivity].
    apply Forall_app. split; [apply fs_events_configured; exact Hfs|].
    constructor; [|constructor].
    apply (tool_request_configured st1).
  - cbn [snd]. exists evs, (_request_id (self st)).
    split; [reflexivity|].
    split; [apply fs_events_configured; exact Hfs|].
    cbn [self]. symmetry. apply set_request_id_same.
Qed.

Lemma run_method_keeps c st : keeps_configuration env st (run_method env c st).
Proof.
  destruct c as [p|p| |tool b64]; cbn [run_method].
  - apply read_then_call_keeps. intros v st1. reflexivity.
  - apply read_then_call_keeps. intros v st1. reflexivity.
  - rewrite health_check_run. cbn [snd].
    eexists _, (_request_id (self st)).
    split; [reflexivity|]. split.
    + constructor; [|constructor]. cbn [configured_request].
      split; reflexivity.
    + cbn [self]. symmetry. apply set_request_id_same.
  - rewrite call_tool_state.
    exists [tool_request st tool b64], (_request_id (self st) + 1).
    split; [reflexivity|]. split; [|reflexivity].
    constructor; [|constructor]. apply tool_request_configured.
Qed.

Lemma configured_request_counter k c e :
  configured_request env (set_request_id k c) e <-> configured_request env c e.
Proof. destruct e; reflexivity. Qed.

Lemma run_methods_keep calls : forall st c events k,
  self st = set_request_id k c ->
  Forall (configured_request env c) events ->
  exists events' k',
    log (run_methods env calls st) = (log st ++ events')%list /\
    Forall (configured_request env c) (events ++ events') /\
    self (run_methods env calls st) = set_request_id k' c.
Proof.
  induction calls as [|call calls IH]; intros st c events k Hself Hall.
  - exists [], k. rewrite !app_nil_r. repeat split; assumption.
  - cbn [run_methods fold_left].
    destruct (run_method_keeps call st) as (evs & k1 & Hlog & Hevs & Hself1).
    destruct (IH (run_method env call st) c (events ++ evs)%list k1)
      as (evs' & k' & Hlog' & Hall' & Hself').
    + rewrite Hself1, Hself. destruct c. reflexivity.
    + apply Forall_app. split; [exact Hall|].
      eapply Forall_impl; [exact Hevs|].
      intros e He. rewrite Hself in He.
      apply configured_request_counter in He. exact He.
    + exists (evs ++ evs')%list, k'.
      split; [fold (run_methods env calls (run_method env call st));
              rewrite Hlog', Hlog, app_assoc; reflexivity|].
      split; [rewrite app_assoc; exact Hall'|exact Hself'].
Qed.

(** X2: over any sequence of calls, every request of an instance is a POST
    of a tool call to its endpoint or a GET of its health URL, with the
    headers set at construction; the calls change nothing of the instance
    but its counter.  The headers are [Content-Type], [Accept] and, exactly
    when a key that is not empty was given, [Authorization: Bearer key], and
    no other. *)
Theorem requests_follow_configuration base api_key tmo read_tmo log0 calls :
  let c := init env base api_key tmo read_tmo in
  let st := run_methods env calls {| self := c; log := log0 |} in
  (exists events,
     log st = (log0 ++ events)%list /\
     Forall (configured_request env c) events) /\
  self st = set_request_id (_request_id (self st)) c /\
  headers c !! "Content-Type" = Some "application/json" /\
  headers c !! "Accept" = Some "application/json, text/event-stream" /\
  headers c !! "Authorization" =
    match api_key with
    | Some key => if String.eqb key "" then None else Some ("Bearer " ++ key)
    | None => None
    end /\
  dom (headers c) =
    match headers c !! "Authorization" with
    | Some _ => {["Content-Type"; "Accept"; "Authorization"]}
    | None => ({["Content-Type"; "Accept"]} : gset string)
    end.
Proof.
  intros c st.
  destruct (run_methods_keep calls {| self := c; log := log0 |} c [] 0)
    as (events & k & Hlog & Hall & Hself);
    [reflexivity|constructor|].
  fold st in Hlog, Hself. split; [|split].
  - exists events. split; assumption.
  - rewrite Hself. destruct c. reflexivity.
  - unfold c, init. cbn [headers].
    destruct api_key as [key|]; [destruct (String.eqb key "")|];
      (split; [reflexivity|]; split; [reflexivity|]; split; [reflexivity|]);
      simplify_map_eq; rewrite !dom_insert_L, dom_empty_L; set_solver.
Qed.

End ClientConfiguration.

(** ** What is made of a response *)

Section ResponseHandling.

Import MCPHTTPClient.

Variable env : environment.

(** [_call_tool] up to the parsed body of a 2xx response. *)
Ltac to_parsed_body Hnet Hstatus :=
  cbv [_call_tool _next_request_id client_post on_world PDFUtils.emit bind ret
       raise lift get_state modify];
  cbn [self log];
  unfold requested, tool_request in Hnet; cbn [log] in Hnet;
  cbn [_request_id set_request_id mcp_endpoint headers];
  rewrite Hnet;
  cbv [raise_for_status response_json ret raise]; rewrite Hstatus.

(** A 2xx response whose body parses to a mapping: the outcome is decided
    by the [error] and [result] members. *)
Lemma call_tool_parsed tool b64 st r (rpc : gmap string pyval) :
  net env (log (requested st tool b64)) = Responded r ->
  is_success r = true ->
  json_loads env (content r) = Some (PyDict rpc) ->
  _call_tool env tool b64 st =
    (unwrap_members env (rpc !! "error") (rpc !! "result"),
     requested st tool b64).
Proof.
  intros Hnet Hstatus Hjson. to_parsed_body Hnet Hstatus. rewrite Hjson.
  cbn [Py.contains_str Py.getitem_str]. unfold unwrap_members, unwrap_item.
  destruct (rpc !! "error") as [e|] eqn:E.
  - rewrite bool_decide_eq_true_2 by (eexists; reflexivity).
    destruct (Py.get e "code" PyNone); [|reflexivity].
    destruct (Py.get e "message" PyNone); reflexivity.
  - rewrite bool_decide_eq_false_2 by (intros [x Hx]; discriminate).
    cbn [Py.get].
    destruct (rpc !! "result") as [res|];
      (destruct (Py.get _ "content" (PyList [])) as [items|]; [|reflexivity]);
      (destruct (Py.truthy items); cbn [negb]; [|reflexivity]);
      (destruct (Py.getitem_0 items) as [item|]; [|reflexivity]);
      (destruct (Py.get item "type" PyNone) as [ty|]; [|reflexivity]);
      (destruct (Py.eq_str ty "text"); [|reflexivity]);
      (destruct (Py.getitem_str item "text") as [text|]; [|reflexivity]);
      destruct (json_loads_value env text); reflexivity.
Qed.

(** X7: of a parsed response [_call_tool] looks at the members [error] and
    [result] only: two responses that agree on these give the same outcome,
    whatever their other members; the [id] in particular is not compared
    with the id of the request. *)
Theorem call_tool_ignores_other_members
    tool b64 st r rpc tool' b64' st' r' rpc' :
  net env (log (requested st tool b64)) = Responded r ->
  is_success r = true ->
  json_loads env (content r) = Some (PyDict rpc) ->
  net env (log (requested st' tool' b64')) = Responded r' ->
  is_success r' = true ->
  json_loads env (content r') = Some (PyDict rpc') ->
  rpc !! "error" = rpc' !! "error" ->
  rpc !! "result" = rpc' !! "result" ->
  fst (_call_tool env tool b64 st) = fst (_call_tool env tool' b64' st').
Proof.
  intros Hnet Hstatus Hjson Hnet' Hstatus' Hjson' Herr Hres.
  rewrite (call_tool_parsed _ _ _ _ _ Hnet Hstatus Hjson),
          (call_tool_parsed _ _ _ _ _ Hnet' Hstatus' Hjson'), Herr, Hres.
  reflexivity.
Qed.

(** X8: of the content items only the first is looked at: the outcome is
    what is made of that item, and two responses with the same first item
    give the same outcome, whatever follows it. *)
Theorem call_tool_reads_first_item_only tool b64 st r rpc item rest :
  net env (log (requested st tool b64)) = Responded r ->
  is_success r = true ->
  json_loads env (content r) = Some (PyDict rpc) ->
  rpc !! "error" = None ->
  result_content rpc = ContentItems (item :: rest) ->
  fst (_call_tool env tool b64 st) = unwrap_item env item /\
  forall tool' b64' st' r' rpc' rest',
    net env (log (requested st' tool' b64')) = Responded r' ->
    is_success r' = true ->
    json_loads env (content r') = Some (PyDict rpc') ->
    rpc' !! "error" = None ->
    result_content rpc' = ContentItems (item :: rest') ->
    fst (_call_tool env tool' b64' st') = fst (_call_tool env tool b64 st).
Proof.
  assert (Hone : forall tool b64 st r rpc rest,
            net env (log (requested st tool b64)) = Responded r ->
            is_success r = true ->
            json_loads env (content r) = Some (PyDict rpc) ->
            rpc !! "error" = None ->
            result_content rpc = ContentItems (item :: rest) ->
            fst (_call_tool env tool b64 st) = unwrap_item env item).
  { intros t b s0 r0 rpc0 rest0 Hnet Hstatus Hjson Herr Hcontent.
    rewrite (call_tool_parsed _ _ _ _ _ Hnet Hstatus Hjson), Herr.
    destruct (result_content_items _ _ Hcontent) as (res & -> & Hc).
    cbn [fst unwrap_members Py.get]. rewrite Hc. reflexivity. }
  intros Hnet Hstatus Hjson Herr Hcontent.
  split; [eapply Hone; eassumption|].
  intros tool' b64' st' r' rpc' rest' Hnet' Hstatus' Hjson' Herr' Hcontent'.
  rewrite (Hone _ _ _ _ _ _ Hnet Hstatus Hjson Herr Hcontent).
  eapply Hone; eassumption.
Qed.

(** X9: a [content] that counts as false ([null], [false], zero, the empty
    string, the empty list, the empty mapping) is treated like an absent
    one: [_call_tool] returns the empty mapping. *)
Theorem call_tool_falsy_content tool b64 st r rpc result items :
  net env (log (requested st tool b64)) = Responded r ->
  is_success r = true ->
  json_loads env (content r) = Some (PyDict rpc) ->
  rpc !! "error" = None ->
  rpc !! "result" = Some (PyDict result) ->
  result !! "content" = Some items ->
  Py.truthy items = false ->
  fst (_call_tool env tool b64 st) = Ok (PyDict ∅).
Proof.
  intros Hnet Hstatus Hjson Herr Hres Hc Hfalse.
  rewrite (call_tool_parsed _ _ _ _ _ Hnet Hstatus Hjson), Herr, Hres.
  cbn [fst unwrap_members Py.get]. rewrite Hc, Hfalse. reflexivity.
Qed.

(** X6: a 2xx response whose body does not parse, and a text item whose
    text does not parse, make [_call_tool] raise the exception of the
    parser as it is: [JSONDecodeError] for a text that is no JSON,
    [UnicodeDecodeError] for a body that is no text, [RecursionError] for a
    nesting too deep.  None of them is an [httpx.HTTPError], and all but
    the last are a [ValueError], as the error of the protocol is.  The
    request has been sent and counted by then. *)
Theorem call_tool_parse_errors tool b64 st r :
  net env (log (requested st tool b64)) = Responded r ->
  is_success r = true ->
  (json_loads env (content r) = None ->
   _call_tool env tool b64 st =
     (Raise (parse_error (json_failure env (content r))),
      requested st tool b64)) /\
  (forall rpc item rest text,
     json_loads env (content r) = Some (PyDict rpc) ->
     rpc !! "error" = None ->
     result_content rpc = ContentItems (PyDict item :: rest) ->
     item !! "type" = Some (PyStr "text") ->
     item !! "text" = Some (PyStr text) ->
     json_loads env text = None ->
     _call_tool env tool b64 st =
       (Raise (parse_error (json_failure env text)), requested st tool b64)) /\
  (forall f, is_HTTPError (parse_error f) = false) /\
  (forall f, is_ValueError (parse_error f) = false <-> f = TooDeep).
Proof.
  intros Hnet Hstatus.
  split; [|split; [|split]].
  - intros Hjson.
    rewrite (surjective_pairing (_call_tool env tool b64 st)), call_tool_state.
    f_equal. to_parsed_body Hnet Hstatus. rewrite Hjson. reflexivity.
  - intros rpc item rest text Hjson Herr Hcontent Hty Htext Hbad.
    rewrite (surjective_pairing (_call_tool env tool b64 st)), call_tool_state.
    f_equal.
    rewrite (call_tool_parsed _ _ _ _ _ Hnet Hstatus Hjson), Herr.
    destruct (result_content_items _ _ Hcontent) as (res & -> & Hc).
    cbn [fst unwrap_members Py.get]. rewrite Hc.
    cbn [Py.truthy Py.getitem_0]. unfold unwrap_item.
    cbn [Py.get]. rewrite Hty. cbn [Py.eq_str Py.getitem_str].
    rewrite Htext. change (String.eqb "text" "text") with true. cbv iota.
    cbn [json_loads_value]. rewrite Hbad. reflexivity.
  - intros []; reflexivity.
  - intros []; split; (reflexivity || discriminate).
Qed.

(** X10: [extract_metadata] returns what the text of the first item
    decodes to, whatever its JSON type; [extract_text] calls [get] on it,
    and raises [AttributeError] when it is no mapping. *)
Theorem extract_of_decoded_payload
    tool b64 st r rpc item rest text decoded st0 pdf_path :
  net env (log (requested st tool b64)) = Responded r ->
  is_success r = true ->
  json_loads env (content r) = Some (PyDict rpc) ->
  rpc !! "error" = None ->
  result_content rpc = ContentItems (PyDict item :: rest) ->
  item !! "type" = Some (PyStr "text") ->
  item !! "text" = Some (PyStr text) ->
  json_loads env text = Some decoded ->
  reads_into env st0 pdf_path b64 st ->
  (tool = extract_metadata_tool ->
   fst (extract_metadata env pdf_path st0) = Ok decoded) /\
  (tool = extract_text_tool ->
   fst (extract_text env pdf_path st0) = Py.get decoded "text" (PyStr "") /\
   ((forall d, decoded <> PyDict d) ->
    fst (extract_text env pdf_path st0) = Raise (AttributeError decoded "get"))).
Proof.
  intros Hnet Hstatus Hjson Herr Hcontent Hty Htext Hdec Hread.
  assert (Hrun : _call_tool env tool b64 st = (Ok decoded, requested st tool b64)).
  { rewrite (call_tool_parsed _ _ _ _ _ Hnet Hstatus Hjson), Herr.
    destruct (result_content_items _ _ Hcontent) as (res & -> & Hc).
    cbn [unwrap_members Py.get]. rewrite Hc.
    cbn [Py.truthy Py.getitem_0]. unfold unwrap_item.
    cbn [Py.get]. rewrite Hty. cbn [Py.eq_str Py.getitem_str].
    rewrite Htext. change (String.eqb "text" "text") with true. cbv iota.
    cbn [json_loads_value]. rewrite Hdec. reflexivity. }
  split.
  - intros ->. rewrite (extract_metadata_run env _ _ _ _ Hread), Hrun.
    reflexivity.
  - intros ->.
    assert (Hget : fst (extract_text env pdf_path st0) =
                   Py.get decoded "text" (PyStr "")).
    { rewrite (extract_text_run env _ _ _ _ Hread), Hrun. reflexivity. }
    split; [exact Hget|].
    intros Hnot. rewrite Hget.
    destruct decoded; try reflexivity. exfalso. eapply Hnot. reflexivity.
Qed.

(** X4: when reading the file fails, [extract_text] and [extract_metadata]
    raise the exception of the reading; they make no request and leave the
    instance, its counter included, as it was. *)
Theorem extract_stops_at_unreadable_file pdf_path st e :
  fst (PDFUtils.read_pdf_as_base64 env pdf_path (log st)) = Raise e ->
  exists events,
    extract_text env pdf_path st =
      (Raise e, {| self := self st; log := (log st ++ events)%list |}) /\
    extract_metadata env pdf_path st =
      (Raise e, {| self := self st; log := (log st ++ events)%list |}) /\
    existsb is_http events = false.
Proof.
  intros Hfail.
  destruct (fs_events_of_read env pdf_path (log st)) as (events & Hlog & Hfs).
  exists events.
  unfold extract_text, extract_metadata, bind, on_world.
  destruct (PDFUtils.read_pdf_as_base64 env pdf_path (log st)) as [res l].
  cbn [fst snd] in *. subst res l. repeat split. exact Hfs.
Qed.

(** X5: once the file is read, what [_call_tool] raises is raised by
    [extract_text] and [extract_metadata] unchanged; a failure in transit is
    raised as an [httpx.HTTPError]; whether the call succeeds or not, the
    counter has advanced by one. *)
Theorem extract_raises_what_call_tool_raises st0 pdf_path b64 st :
  reads_into env st0 pdf_path b64 st ->
  (forall e,
     fst (_call_tool env extract_text_tool b64 st) = Raise e ->
     fst (extract_text env pdf_path st0) = Raise e) /\
  (forall e,
     fst (_call_tool env extract_metadata_tool b64 st) = Raise e ->
     fst (extract_metadata env pdf_path st0) = Raise e) /\
  (forall tool f,
     net env (log (requested st tool b64)) = Failed f ->
     fst (_call_tool env tool b64 st) = Raise (TransportError f) /\
     is_HTTPError (TransportError f) = true) /\
  _request_id (self (snd (extract_text env pdf_path st0))) =
    _request_id (self st0) + 1 /\
  _request_id (self (snd (extract_metadata env pdf_path st0))) =
    _request_id (self st0) + 1.
Proof.
  intros Hread.
  pose proof (extract_text_run env _ _ _ _ Hread) as Htext.
  pose proof (extract_metadata_run env _ _ _ _ Hread) as Hmeta.
  destruct Hread as [_ Hself].
  split; [|split; [|split; [|split]]].
  - intros e He. rewrite Htext.
    destruct (_call_tool env extract_text_tool b64 st) as [[v|e'] st'];
      cbn [fst] in *; congruence.
  - intros e He. rewrite Hmeta. exact He.
  - intros tool f Hnet.
    rewrite (call_tool_transport_failure env _ _ _ _ Hnet).
    split; reflexivity.
  - rewrite Htext.
    pose proof (call_tool_state env extract_text_tool b64 st) as Hst.
    destruct (_call_tool env extract_text_tool b64 st) as [[v|e'] st'];
      cbn [snd] in *; subst st'; cbn [requested self _request_id set_request_id];
      rewrite Hself; reflexivity.
  - rewrite Hmeta, call_tool_state.
    cbn [requested self _request_id set_request_id]. rewrite Hself.
    reflexivity.
Qed.

(** X3: for a file that passes the validation, [extract_text] opens the
    resolved path and posts one request to the endpoint: a [tools/call]
    request with the next id, the tool name [extract_text] and the one
    argument [fileContent], whose base64 decoding is the content of the
    file. *)
Theorem extract_text_sends_the_file pdf_path st path log1 data :
  PDFUtils.validate_pdf_path env pdf_path (log st) = (Ok path, log1) ->
  fs_stat (fs env) path = Some (File data) ->
  exists b64 body (params arguments : gmap string pyval),
    log (snd (extract_text env pdf_path st)) =
      (log1 ++ [OpenRead path;
                HttpPost (mcp_endpoint (self st)) (headers (self st)) body])%list /\
    is_request body (PyInt (_request_id (self st) + 1)) (PyStr "tools/call")
      (PyDict params) /\
    params !! "name" = Some (PyStr "extract_text") /\
    params !! "arguments" = Some (PyDict arguments) /\
    arguments = <["fileContent" := PyStr b64]> ∅ /\
    Base64.b64decode b64 = Some data.
Proof.
  intros Hval Hstat.
  pose proof (read_pdf_as_base64_run env _ _ _ _ Hval) as Hread.
  rewrite Hstat in Hread.
  set (st1 := {| self := self st; log := (log1 ++ [OpenRead path])%list |}).
  assert (Hinto : reads_into env st pdf_path (Base64.b64encode data) st1).
  { split; [exact Hread|reflexivity]. }
  exists (Base64.b64encode data). eexists. eexists. eexists.
  split; [|split; [|split; [|split; [|split]]]].
  - rewrite (extract_text_run env _ _ _ _ Hinto).
    pose proof (call_tool_state env extract_text_tool (Base64.b64encode data) st1)
      as Hst.
    destruct (_call_tool env extract_text_tool _ st1) as [[v|e'] st'];
      cbn [snd] in *; subst st'; cbn [requested log st1];
      rewrite <- app_assoc; reflexivity.
  - apply create_request_is_request.
  - simplify_map_eq. reflexivity.
  - simplify_map_eq. reflexivity.
  - reflexivity.
  - apply b64decode_b64encode.
Qed.

End ResponseHandling.

(** ** The file utilities and the envelopes *)

Section FileUtilities.

Import PDFUtils.

Variable env : environment.

(** X11: [validate_pdf_path] succeeds exactly when the path exists and its
    name ends in [.pdf], in any letter case, with a character before it;
    what it returns is then the resolved path. *)
Theorem validate_pdf_path_succeeds_iff pdf_path log :
  let path := Pathlib.parse pdf_path in
  (is_Ok (fst (validate_pdf_path env pdf_path log)) = true <->
   fs_stat (fs env) path <> None /\
   name_ends_in_pdf path = true /\
   4 < Pathlib.len (Pathlib.name path)) /\
  (forall resolved,
     fst (validate_pdf_path env pdf_path log) = Ok resolved ->
     resolved = fs_resolve (fs env) path).
Proof.
  intros path. rewrite validate_pdf_path_run. fold path.
  pose proof (has_pdf_suffix_name path) as Hname.
  destruct (fs_stat (fs env) path) as [n|].
  - destruct (has_pdf_suffix path); cbn [fst is_Ok].
    + split.
      * split; [intros _|reflexivity].
        split; [discriminate|]. apply (proj1 Hname). reflexivity.
      * intros resolved H. injection H as <-. reflexivity.
    + split.
      * split; [discriminate|]. intros (_ & H1 & H2).
        exfalso. assert (Hf : false = true) by (apply Hname; split; assumption).
        discriminate.
      * discriminate.
  - cbn [fst is_Ok]. split.
    + split; [discriminate|]. intros (H & _). congruence.
    + discriminate.
Qed.

(** X12: [read_pdf_as_base64] opens nothing while it validates; when the
    validation fails it raises the exception of the validation and has
    opened nothing; when it passes, the one thing opened is the resolved
    path. *)
Theorem read_pdf_as_base64_opens_after_validation pdf_path log :
  exists checks,
    snd (validate_pdf_path env pdf_path log) = (log ++ checks)%list /\
    existsb is_open checks = false /\
    match fst (validate_pdf_path env pdf_path log) with
    | Ok path =>
        snd (read_pdf_as_base64 env pdf_path log) =
          (log ++ checks ++ [OpenRead path])%list
    | Raise e =>
        read_pdf_as_base64 env pdf_path log = (Raise e, (log ++ checks)%list)
    end.
Proof.
  pose proof (validate_pdf_path_run env pdf_path log) as Hval.
  cbv zeta in Hval. set (path := Pathlib.parse pdf_path) in Hval.
  destruct (fs_stat (fs env) path) as [n|].
  - destruct (has_pdf_suffix path).
    + exists [PathExists path; PathResolve path].
      rewrite (read_pdf_as_base64_run env _ _ _ _ Hval), Hval. cbn [fst snd].
      split; [reflexivity|]. split; [reflexivity|].
      destruct (fs_stat (fs env) (fs_resolve (fs env) path)) as [[data|]|];
        cbn [snd]; rewrite <- app_assoc; reflexivity.
    + exists [PathExists path].
      unfold read_pdf_as_base64, bind. rewrite Hval. cbn [fst snd].
      repeat split.
  - exists [PathExists path].
    unfold read_pdf_as_base64, bind. rewrite Hval. cbn [fst snd].
    repeat split.
Qed.

(** X13: two files for which [read_pdf_as_base64] gives the same outcome
    have the same content: different contents are encoded differently. *)
Theorem read_pdf_as_base64_injective
    pdf_path log path data (env' : environment) pdf_path' log' path' data' :
  fst (validate_pdf_path env pdf_path log) = Ok path ->
  fs_stat (fs env) path = Some (File data) ->
  fst (validate_pdf_path env' pdf_path' log') = Ok path' ->
  fs_stat (fs env') path' = Some (File data') ->
  fst (read_pdf_as_base64 env pdf_path log) =
    fst (read_pdf_as_base64 env' pdf_path' log') ->
  data = data'.
Proof.
  intros Hval Hstat Hval' Hstat' Heq.
  destruct (validate_pdf_path_fst _ _ _ _ Hval) as [l Hrun].
  destruct (validate_pdf_path_fst _ _ _ _ Hval') as [l' Hrun'].
  rewrite (read_pdf_as_base64_run _ _ _ _ _ Hrun), Hstat in Heq.
  rewrite (read_pdf_as_base64_run _ _ _ _ _ Hrun'), Hstat' in Heq.
  cbn [fst] in Heq. injection Heq as Heq.
  apply (f_equal Base64.b64decode) in Heq.
  rewrite !b64decode_b64encode in Heq. congruence.
Qed.

Variable directory_size : Pathlib.Path -> Z.

(** X14: [get_pdf_size] validates the path and then asks the file system
    for its status, once, at the resolved path; it opens nothing.  It raises
    what the validation raises, without asking for the status; for a file
    that passes, it returns the number of bytes of the file, and the string
    [read_pdf_as_base64] returns has four characters for every three bytes
    of that size, or part of three. *)
Theorem get_pdf_size_of_validated_file pdf_path log :
  (exists events,
     snd (PDFUtilsStat.get_pdf_size env directory_size pdf_path log) =
       (log ++ events)%list /\
     existsb is_open events = false /\
     match fst (validate_pdf_path env pdf_path log) with
     | Ok path =>
         snd (PDFUtilsStat.get_pdf_size env directory_size pdf_path log) =
           (snd (validate_pdf_path env pdf_path log) ++ [PathStat path])%list
     | Raise e =>
         PDFUtilsStat.get_pdf_size env directory_size pdf_path log =
           (Raise e, snd (validate_pdf_path env pdf_path log)) /\
         forall p, ~ In (PathStat p) events
     end) /\
  (forall e,
     fst (validate_pdf_path env pdf_path log) = Raise e ->
     fst (PDFUtilsStat.get_pdf_size env directory_size pdf_path log) = Raise e) /\
  (forall path data,
     fst (validate_pdf_path env pdf_path log) = Ok path ->
     fs_stat (fs env) path = Some (File data) ->
     fst (PDFUtilsStat.get_pdf_size env directory_size pdf_path log) =
       Ok (Z.of_nat (List.length data)) /\
     exists s,
       fst (read_pdf_as_base64 env pdf_path log) = Ok s /\
       Z.of_nat (String.length s) = 4 * ((Z.of_nat (List.length data) + 2) / 3)).
Proof.
  split.
  { pose proof (validate_pdf_path_run env pdf_path log) as Hval.
    cbv zeta in Hval. set (path := Pathlib.parse pdf_path) in Hval.
    unfold PDFUtilsStat.get_pdf_size, bind. rewrite Hval.
    destruct (fs_stat (fs env) path) as [n|];
      [destruct (has_pdf_suffix path)|]; cbn [fst snd].
    - exists [PathExists path; PathResolve path;
              PathStat (fs_resolve (fs env) path)].
      unfold PDFUtilsStat.stat_size, PDFUtils.emit, bind, modify, ret, raise.
      destruct (fs_stat (fs env) (fs_resolve (fs env) path)) as [[data|]|];
        cbn [fst snd]; rewrite <- app_assoc; repeat split.
    - exists [PathExists path]. repeat split.
      intros p [H|[]]. discriminate.
    - exists [PathExists path]. repeat split.
      intros p [H|[]]. discriminate. }
  unfold PDFUtilsStat.get_pdf_size, bind.
  destruct (validate_pdf_path env pdf_path log) as [[path|e] l] eqn:Hval;
    cbn [fst snd].
  - split; [discriminate|].
    intros path' data H Hstat. injection H as <-.
    unfold PDFUtilsStat.stat_size, PDFUtils.emit, bind, modify, ret.
    rewrite Hstat.
    split; [reflexivity|].
    exists (Base64.b64encode data).
    rewrite (read_pdf_as_base64_run _ _ _ _ _ Hval), Hstat.
    split; [reflexivity|].
    rewrite <- encode_length. unfold Base64.b64encode. f_equal.
    induction (Base64.encode data) as [|c l0 IH];
      cbn [string_of_list_ascii String.length List.length]; congruence.
  - split; [|discriminate].
    intros e' H. injection H as ->. reflexivity.
Qed.

End FileUtilities.

Section Envelopes.

Import MCPProtocol.

Lemma PyDict_inj (d d' : gmap string pyval) : PyDict d = PyDict d' -> d = d'.
Proof. congruence. Qed.

Lemma id_value_inj i j : id_value i = id_value j -> i = j.
Proof. destruct i, j; cbn; congruence. Qed.

(** X15: equal requests were made from equal arguments: a request tells
    its method, params and id, a tool-call request its tool name,
    arguments and id. *)
Theorem create_request_injective method params rid method' params' rid'
    tool arguments tool' arguments' :
  (create_request method params rid = create_request method' params' rid' ->
   method = method' /\ params = params' /\ rid = rid') /\
  (create_tool_call_request tool arguments rid =
     create_tool_call_request tool' arguments' rid' ->
   tool = tool' /\ arguments = arguments' /\ rid = rid').
Proof.
  assert (H1 : forall m p i m' p' i',
            create_request m p i = create_request m' p' i' ->
            m = m' /\ p = p' /\ i = i').
  { intros m p i m' p' i' H. unfold create_request in H.
    apply PyDict_inj in H.
    pose proof (f_equal (fun d : gmap string pyval => d !! "method") H) as Hm.
    pose proof (f_equal (fun d : gmap string pyval => d !! "params") H) as Hp.
    pose proof (f_equal (fun d : gmap string pyval => d !! "id") H) as Hi.
    cbv beta in Hm, Hp, Hi. simplify_map_eq.
    repeat split; try congruence. apply id_value_inj. congruence. }
  split; [apply H1|].
  intros H. unfold create_tool_call_request in H.
  destruct (H1 _ _ _ _ _ _ H) as (_ & Hp & Hi).
  clear H.
  pose proof (f_equal (fun d : gmap string pyval => d !! "name") Hp) as Hn.
  pose proof (f_equal (fun d : gmap string pyval => d !! "arguments") Hp) as Ha.
  cbv beta in Hn, Ha. simplify_map_eq.
  repeat split; congruence.
Qed.
End Envelopes.

(** ** The callers *)

Section Words.

Import PyBuiltins.

Lemma cons_word_length w ws :
  List.length (cons_word w ws) =
    if String.eqb w "" then List.length ws else S (List.length ws).
Proof. unfold cons_word. destruct (String.eqb w ""); reflexivity. Qed.

Lemma words_from_bound s :
  let (w, ws) := words_from s in
  (String.length w + 2 * List.length ws <= String.length s)%nat.
Proof.
  induction s as [|c s IH]; [cbn; lia|].
  cbn [words_from]. destruct (words_from s) as [w ws].
  destruct (is_space c); cbn [String.length].
  - rewrite cons_word_length. destruct w; cbn [String.eqb String.length] in *; lia.
  - lia.
Qed.

(** Words are not empty and are apart: there are at most half as many as
    characters, rounded up. *)
Lemma split_words_bound s :
  (2 * List.length (split_words s) <= String.length s + 1)%nat.
Proof.
  unfold split_words. pose proof (words_from_bound s) as H.
  destruct (words_from s) as [w ws]. rewrite cons_word_length.
  destruct w; cbn [String.eqb String.length] in *; lia.
Qed.

End Words.

Section Analyzer.

Import PDFAnalyzerHTTP.

Variable env : environment.
Variable run_outcome : agent_outcome.

(** X16: [summarize_pdf] does to the client what [extract_text] does.  When
    the extraction raises, it raises the same and the agent is not run;
    without an agent in use it returns the text as extracted; with one, the
    agent is run once, on the summary prompt followed by the text, and its
    output or exception is the outcome. *)
Theorem summarize_pdf_after_extraction st pdf_path r c :
  MCPHTTPClient.extract_text env pdf_path (mcp_client st) = (r, c) ->
  match r with
  | Raise e =>
      summarize_pdf env run_outcome pdf_path st = (Raise e, set_client c st)
  | Ok text =>
      if agent_in_use st then
        summarize_pdf env run_outcome pdf_path st =
          (match run_outcome (prompts st ++ [summary_prompt env text])%list with
           | Ok output => Ok (PyStr output)
           | Raise e => Raise e
           end,
           add_prompt (summary_prompt env text) (set_client c st))
      else
        summarize_pdf env run_outcome pdf_path st = (Ok text, set_client c st)
  end.
Proof.
  intros Hext.
  cbv [summarize_pdf bind extract_text on_client get_state]. rewrite Hext.
  destruct r as [text|e]; [|reflexivity].
  change (agent_in_use (set_client c st)) with (agent_in_use st).
  destruct (agent_in_use st); [|reflexivity].
  cbv [run_agent bind modify get_state lift ret].
  cbn [prompts add_prompt set_client].
  destruct (run_outcome _); reflexivity.
Qed.

Ltac run_extractions Htext Hmeta :=
  cbv [analyze_pdf bind extract_text extract_metadata on_client get_state];
  rewrite Htext; cbn [mcp_client set_client]; try rewrite Hmeta.

(** X17: when both extractions succeed and the text is a string,
    [analyze_pdf] has made the calls [extract_text] and [extract_metadata],
    in this order, and its result has the members [text], [metadata],
    [text_length] (the number of characters) and [word_count] (the number
    of words, at most half the characters, rounded up), and nothing else
    without an agent in use; with one, the agent is run once on the
    insights prompt followed by the text, and its output is added as
    [summary], or its exception raised. *)
Theorem analyze_pdf_result st pdf_path text metadata c1 c2 :
  MCPHTTPClient.extract_text env pdf_path (mcp_client st) =
    (Ok (PyStr text), c1) ->
  MCPHTTPClient.extract_metadata env pdf_path c1 = (Ok metadata, c2) ->
  let chars := Z.of_nat (String.length text) in
  let words := Z.of_nat (List.length (PyBuiltins.split_words text)) in
  let prompt := insights_prompt env (PyStr text) in
  exists result : gmap string pyval,
    dom result = ({["text"; "metadata"; "text_length"; "word_count"]}
                    : gset string) /\
    result !! "text" = Some (PyStr text) /\
    result !! "metadata" = Some metadata /\
    result !! "text_length" = Some (PyInt chars) /\
    result !! "word_count" = Some (PyInt words) /\
    2 * words <= chars + 1 /\
    mcp_client (snd (analyze_pdf env run_outcome pdf_path st)) = c2 /\
    c2 = run_methods env [ExtractText pdf_path; ExtractMetadata pdf_path]
           (mcp_client st) /\
    (agent_in_use st = false ->
     analyze_pdf env run_outcome pdf_path st =
       (Ok (PyDict result), set_client c2 st)) /\
    (agent_in_use st = true ->
     prompts (snd (analyze_pdf env run_outcome pdf_path st)) =
       (prompts st ++ [prompt])%list /\
     fst (analyze_pdf env run_outcome pdf_path st) =
       match run_outcome (prompts st ++ [prompt])%list with
       | Ok output => Ok (PyDict (<["summary" := PyStr output]> result))
       | Raise e => Raise e
       end).
Proof.
  intros Htext Hmeta chars words prompt.
  eexists.
  split; [|split; [|split; [|split; [|split; [|split; [|split; [|split;
    [|split]]]]]]]].
  10: { intros Hagent. run_extractions Htext Hmeta.
        cbv [lift PyBuiltins.len PyBuiltins.split].
        change (agent_in_use (set_client c2 (set_client c1 st)))
          with (agent_in_use st).
        rewrite Hagent.
        cbv [run_agent bind modify get_state lift ret].
        cbn [prompts add_prompt set_client].
        fold prompt.
        destruct (run_outcome _); split; reflexivity. }
  9: { intros Hagent. run_extractions Htext Hmeta.
       cbv [lift PyBuiltins.len PyBuiltins.split].
       change (agent_in_use (set_client c2 (set_client c1 st)))
         with (agent_in_use st).
       rewrite Hagent. reflexivity. }
  - rewrite !dom_insert_L, dom_empty_L. set_solver.
  - simplify_map_eq. reflexivity.
  - simplify_map_eq. reflexivity.
  - simplify_map_eq. reflexivity.
  - simplify_map_eq. reflexivity.
  - unfold words, chars. pose proof (split_words_bound text). lia.
  - run_extractions Htext Hmeta.
    cbv [lift PyBuiltins.len PyBuiltins.split].
    change (agent_in_use (set_client c2 (set_client c1 st)))
      with (agent_in_use st).
    destruct (agent_in_use st); [|reflexivity].
    cbv [run_agent bind modify get_state lift ret].
    destruct (run_outcome _); reflexivity.
  - cbn [run_methods fold_left run_method]. rewrite Htext. cbn [snd].
    rewrite Hmeta. reflexivity.
Qed.

(** X18: [analyze_pdf] stops at the first failure: when the extraction of
    the text raises, that is raised and the metadata are not asked for;
    when the extraction of the metadata raises, that is raised; when the
    text extracted is no string, measuring it raises [TypeError] or
    [AttributeError]; in none of these cases is the agent run. *)
Theorem analyze_pdf_stops_at_failure st pdf_path :
  (forall e c1,
     MCPHTTPClient.extract_text env pdf_path (mcp_client st) = (Raise e, c1) ->
     analyze_pdf env run_outcome pdf_path st = (Raise e, set_client c1 st)) /\
  (forall text c1 e c2,
     MCPHTTPClient.extract_text env pdf_path (mcp_client st) = (Ok text, c1) ->
     MCPHTTPClient.extract_metadata env pdf_path c1 = (Raise e, c2) ->
     analyze_pdf env run_outcome pdf_path st = (Raise e, set_client c2 st)) /\
  (forall text c1 metadata c2,
     MCPHTTPClient.extract_text env pdf_path (mcp_client st) = (Ok text, c1) ->
     MCPHTTPClient.extract_metadata env pdf_path c1 = (Ok metadata, c2) ->
     (forall s, text <> PyStr s) ->
     exists e,
       analyze_pdf env run_outcome pdf_path st = (Raise e, set_client c2 st) /\
       (e = TypeError text \/ e = AttributeError text "split")).
Proof.
  split; [|split].
  - intros e c1 Htext.
    cbv [analyze_pdf bind extract_text on_client]. rewrite Htext. reflexivity.
  - intros text c1 e c2 Htext Hmeta. run_extractions Htext Hmeta. reflexivity.
  - intros text c1 metadata c2 Htext Hmeta Hnot.
    destruct text as [| | | |s| |];
      try (eexists; split;
           [run_extractions Htext Hmeta; reflexivity|auto]).
    exfalso. apply (Hnot s). reflexivity.
Qed.

End Analyzer.

Section StdioSummarizer.

Import PDFSummarizerStdio.

Variable env : environment.
Variable run_outcome : agent_outcome.

(** X19: the three methods of the stdio summarizer validate the path and
    open nothing and send nothing themselves.  When the validation raises,
    they raise the same and the agent is not run; when it passes, the agent
    is run once, on the prompt of the method followed by the resolved path,
    and its outcome is the outcome of the method. *)
Theorem stdio_methods_validate_then_prompt st pdf_path :
  let outcome := PDFUtils.validate_pdf_path env pdf_path (log st) in
  let run prompt :=
    (run_outcome (prompts st ++ [prompt])%list,
     {| log := snd outcome; prompts := (prompts st ++ [prompt])%list |}) in
  (exists checks,
     snd outcome = (log st ++ checks)%list /\
     existsb is_open checks = false /\ existsb is_http checks = false) /\
  match fst outcome with
  | Raise e =>
      let stop : result string * state :=
        (Raise e, {| log := snd outcome; prompts := prompts st |}) in
      summarize_pdf env run_outcome pdf_path st = stop /\
      extract_text env run_outcome pdf_path st = stop /\
      get_metadata env run_outcome pdf_path st = stop
  | Ok path =>
      path = fs_resolve (fs env) (Pathlib.parse pdf_path) /\
      summarize_pdf env run_outcome pdf_path st =
        run ("Please summarize the PDF file at: " ++ Pathlib.to_string path) /\
      extract_text env run_outcome pdf_path st =
        run ("Extract all text from the PDF file at: " ++
             Pathlib.to_string path) /\
      get_metadata env run_outcome pdf_path st =
        run ("Get the metadata from the PDF file at: " ++
             Pathlib.to_string path)
  end.
Proof.
  intros outcome run.
  pose proof (validate_pdf_path_run env pdf_path (log st)) as Hval.
  cbv zeta in Hval. fold outcome in Hval.
  assert (Hmethods : forall prefix,
    bind (_validate_and_resolve_path env pdf_path)
      (fun abs_path => _run_agent_with_prompt run_outcome (prefix ++ abs_path))
      st =
    match fst outcome with
    | Ok path => run (prefix ++ Pathlib.to_string path)
    | Raise e => (Raise e, {| log := snd outcome; prompts := prompts st |})
    end).
  { intros prefix.
    cbv [bind _validate_and_resolve_path on_files ret _run_agent_with_prompt
         modify get_state lift].
    fold outcome. destruct outcome as [[path|e] l]; reflexivity. }
  split.
  - rewrite Hval.
    destruct (fs_stat (fs env) (Pathlib.parse pdf_path)) as [n|];
      [destruct (has_pdf_suffix (Pathlib.parse pdf_path))|];
      eexists; (split; [reflexivity|split; reflexivity]).
  - unfold summarize_pdf, extract_text, get_metadata. rewrite !Hmethods.
    destruct (fst outcome) as [path|e] eqn:E; [|repeat split].
    split; [|repeat split].
    rewrite Hval in E.
    destruct (fs_stat (fs env) (Pathlib.parse pdf_path)) as [n|];
      [destruct (has_pdf_suffix (Pathlib.parse pdf_path))|];
      cbn [fst] in E; congruence.
Qed.

End StdioSummarizer.

(** *** The further properties on the examples *)

Ltac by_computation := vm_compute; reflexivity.

Lemma init_normalises_base_url_witness :
  MCPHTTPClient.base_url
    (MCPHTTPClient.init sample_env "http://localhost:3000" None 30 60) =
    "http://localhost:3000"
  /\ MCPHTTPClient.init sample_env "http://localhost:3000/" None 30 60 =
     MCPHTTPClient.init sample_env "http://localhost:3000" None 30 60.
Proof.
  destruct (init_normalises_base_url sample_env "http://localhost:3000"
              None 30 60) as (Hslash & _ & Hsame & _).
  split; [|exact Hslash].
  apply Hsame. intros t H.
  change "http://localhost:3000" with ("http://localhost:300" ++ "0") in H.
  apply append_last_eq in H. discriminate.
Defined.

Lemma extract_text_sends_the_file_witness :
  exists b64 body (params arguments : gmap string pyval),
    MCPHTTPClient.log
      (snd (MCPHTTPClient.extract_text sample_env "report.PDF"
              (fresh_client sample_env))) =
      [PathExists (Pathlib.parse "report.PDF");
       PathResolve (Pathlib.parse "report.PDF");
       OpenRead (Pathlib.parse "/srv/docs/report.PDF");
       HttpPost "http://localhost:3000/mcp"
         (MCPHTTPClient.headers (MCPHTTPClient.self (fresh_client sample_env)))
         body] /\
    is_request body (PyInt 1) (PyStr "tools/call") (PyDict params) /\
    params !! "name" = Some (PyStr "extract_text") /\
    params !! "arguments" = Some (PyDict arguments) /\
    arguments = <["fileContent" := PyStr b64]> ∅ /\
    Base64.b64decode b64 = Some fake_pdf.
Proof.
  apply (extract_text_sends_the_file sample_env "report.PDF"
           (fresh_client sample_env) (Pathlib.parse "/srv/docs/report.PDF")
           [PathExists (Pathlib.parse "report.PDF");
            PathResolve (Pathlib.parse "report.PDF")] fake_pdf);
    by_computation.
Defined.

Lemma extract_stops_at_unreadable_file_witness :
  exists events,
    MCPHTTPClient.extract_text sample_env "missing.pdf"
      (fresh_client sample_env) =
      (Raise (FileNotFoundError "PDF file not found: missing.pdf"),
       {| MCPHTTPClient.self := MCPHTTPClient.self (fresh_client sample_env);
          MCPHTTPClient.log := events |}) /\
    MCPHTTPClient.extract_metadata sample_env "missing.pdf"
      (fresh_client sample_env) =
      (Raise (FileNotFoundError "PDF file not found: missing.pdf"),
       {| MCPHTTPClient.self := MCPHTTPClient.self (fresh_client sample_env);
          MCPHTTPClient.log := events |}) /\
    existsb is_http events = false.
Proof.
  apply (extract_stops_at_unreadable_file sample_env "missing.pdf"
           (fresh_client sample_env)
           (FileNotFoundError "PDF file not found: missing.pdf")).
  by_computation.
Defined.

Lemma extract_raises_what_call_tool_raises_witness :
  fst (MCPHTTPClient.extract_text unreachable_env "report.PDF"
         (fresh_client unreachable_env)) =
    Raise (TransportError ConnectionRefused)
  /\ MCPHTTPClient._request_id
       (MCPHTTPClient.self
          (snd (MCPHTTPClient.extract_text unreachable_env "report.PDF"
                  (fresh_client unreachable_env)))) = 1.
Proof.
  destruct (extract_raises_what_call_tool_raises unreachable_env
              (fresh_client unreachable_env) "report.PDF" "ZmFrZQ=="
              (after_reading unreachable_env "report.PDF"
                 (fresh_client unreachable_env))
              ltac:(split; by_computation))
    as (Htext & _ & Htransit & Hcounter & _).
  split; [|exact Hcounter].
  apply Htext.
  apply (Htransit MCPHTTPClient.extract_text_tool ConnectionRefused).
  by_computation.
Defined.

Lemma call_tool_parse_errors_witness :
  fst (MCPHTTPClient._call_tool (turns_env [undecodable_body])
         MCPHTTPClient.extract_text_tool "ZmFrZQ=="
         (fresh_client (turns_env [undecodable_body]))) =
    Raise UnicodeDecodeError
  /\ fst (MCPHTTPClient._call_tool (turns_env [broken_text_body])
            MCPHTTPClient.extract_text_tool "ZmFrZQ=="
            (fresh_client (turns_env [broken_text_body]))) =
       Raise JSONDecodeError.
Proof.
  split.
  - rewrite (proj1 (call_tool_parse_errors (turns_env [undecodable_body])
                      MCPHTTPClient.extract_text_tool "ZmFrZQ=="
                      (fresh_client (turns_env [undecodable_body]))
                      {| status_code := 200; content := undecodable_body |}
                      ltac:(by_computation) ltac:(by_computation))
               ltac:(by_computation)).
    reflexivity.
  - rewrite (proj1 (proj2 (call_tool_parse_errors (turns_env [broken_text_body])
                      MCPHTTPClient.extract_text_tool "ZmFrZQ=="
                      (fresh_client (turns_env [broken_text_body]))
                      {| status_code := 200; content := broken_text_body |}
                      ltac:(by_computation) ltac:(by_computation)))
               broken_text_value broken_item [] "{oops"
               ltac:(by_computation) ltac:(by_computation)
               ltac:(by_computation) ltac:(by_computation)
               ltac:(by_computation) ltac:(by_computation)).
    reflexivity.
Defined.

Lemma call_tool_ignores_other_members_witness :
  fst (MCPHTTPClient._call_tool (turns_env [sample_body; sample_body_other_id])
         MCPHTTPClient.extract_text_tool "ZmFrZQ=="
         (fresh_client (turns_env [sample_body; sample_body_other_id]))) =
  fst (MCPHTTPClient._call_tool (turns_env [sample_body; sample_body_other_id])
         MCPHTTPClient.extract_metadata_tool "ZmFrZQ=="
         (second_call (turns_env [sample_body; sample_body_other_id]))).
Proof.
  apply (call_tool_ignores_other_members
           (turns_env [sample_body; sample_body_other_id])
           MCPHTTPClient.extract_text_tool "ZmFrZQ=="
           (fresh_client (turns_env [sample_body; sample_body_other_id]))
           {| status_code := 200; content := sample_body |} sample_value
           MCPHTTPClient.extract_metadata_tool "ZmFrZQ=="
           (second_call (turns_env [sample_body; sample_body_other_id]))
           {| status_code := 200; content := sample_body_other_id |}
           sample_value_other_id); by_computation.
Defined.

Lemma call_tool_reads_first_item_only_witness :
  fst (MCPHTTPClient._call_tool (turns_env [sample_body; two_items_body])
         MCPHTTPClient.extract_text_tool "ZmFrZQ=="
         (second_call (turns_env [sample_body; two_items_body]))) =
  fst (MCPHTTPClient._call_tool (turns_env [sample_body; two_items_body])
         MCPHTTPClient.extract_text_tool "ZmFrZQ=="
         (fresh_client (turns_env [sample_body; two_items_body]))).
Proof.
  destruct (call_tool_reads_first_item_only
              (turns_env [sample_body; two_items_body])
              MCPHTTPClient.extract_text_tool "ZmFrZQ=="
              (fresh_client (turns_env [sample_body; two_items_body]))
              {| status_code := 200; content := sample_body |} sample_value
              (PyDict sample_item) []
              ltac:(by_computation) ltac:(by_computation)
              ltac:(by_computation) ltac:(by_computation)
              ltac:(by_computation)) as [_ Hsame].
  apply (Hsame MCPHTTPClient.extract_text_tool "ZmFrZQ=="
           (second_call (turns_env [sample_body; two_items_body]))
           {| status_code := 200; content := two_items_body |}
           two_items_value [PyDict image_item]); by_computation.
Defined.

Lemma call_tool_falsy_content_witness :
  fst (MCPHTTPClient._call_tool (turns_env [null_content_body])
         MCPHTTPClient.extract_text_tool "ZmFrZQ=="
         (fresh_client (turns_env [null_content_body]))) = Ok (PyDict ∅).
Proof.
  apply (call_tool_falsy_content (turns_env [null_content_body])
           MCPHTTPClient.extract_text_tool "ZmFrZQ=="
           (fresh_client (turns_env [null_content_body]))
           {| status_code := 200; content := null_content_body |}
           null_content_value (<["content" := PyNone]> ∅) PyNone);
    by_computation.
Defined.

Lemma extract_of_decoded_payload_witness :
  fst (MCPHTTPClient.extract_metadata (turns_env [list_text_body]) "report.PDF"
         (fresh_client (turns_env [list_text_body]))) =
    Ok (PyList [PyInt 1; PyInt 2])
  /\ fst (MCPHTTPClient.extract_text (turns_env [list_text_body]) "report.PDF"
            (fresh_client (turns_env [list_text_body]))) =
       Raise (AttributeError (PyList [PyInt 1; PyInt 2]) "get").
Proof.
  split.
  - apply (proj1 (extract_of_decoded_payload (turns_env [list_text_body])
                    MCPHTTPClient.extract_metadata_tool "ZmFrZQ=="
                    (after_reading (turns_env [list_text_body]) "report.PDF"
                       (fresh_client (turns_env [list_text_body])))
                    {| status_code := 200; content := list_text_body |}
                    list_text_value list_item [] "[1, 2]"
                    (PyList [PyInt 1; PyInt 2])
                    (fresh_client (turns_env [list_text_body])) "report.PDF"
                    ltac:(by_computation) ltac:(by_computation)
                    ltac:(by_computation) ltac:(by_computation)
                    ltac:(by_computation) ltac:(by_computation)
                    ltac:(by_computation) ltac:(by_computation)
                    ltac:(split; by_computation))).
    reflexivity.
  - apply (proj2 (extract_of_decoded_payload (turns_env [list_text_body])
                    MCPHTTPClient.extract_text_tool "ZmFrZQ=="
                    (after_reading (turns_env [list_text_body]) "report.PDF"
                       (fresh_client (turns_env [list_text_body])))
                    {| status_code := 200; content := list_text_body |}
                    list_text_value list_item [] "[1, 2]"
                    (PyList [PyInt 1; PyInt 2])
                    (fresh_client (turns_env [list_text_body])) "report.PDF"
                    ltac:(by_computation) ltac:(by_computation)
                    ltac:(by_computation) ltac:(by_computation)
                    ltac:(by_computation) ltac:(by_computation)
                    ltac:(by_computation) ltac:(by_computation)
                    ltac:(split; by_computation))).
    + reflexivity.
    + intros d. discriminate.
Defined.

Lemma read_pdf_as_base64_injective_witness : fake_pdf = fake_pdf.
Proof.
  apply (read_pdf_as_base64_injective (offline_env demo_fs) "report.PDF" []
           (Pathlib.parse "/srv/docs/report.PDF") fake_pdf
           sample_env "/srv/docs/report.PDF" []
           (Pathlib.parse "/srv/docs/report.PDF") fake_pdf); by_computation.
Defined.

Lemma summarize_pdf_after_extraction_witness :
  PDFAnalyzerHTTP.summarize_pdf sample_env canned_agent "report.PDF"
    (PDFAnalyzerHTTP.init sample_env "http://localhost:3000" None true []) =
    (Ok (PyStr "A summary."),
     PDFAnalyzerHTTP.add_prompt
       (PDFAnalyzerHTTP.summary_prompt sample_env (PyStr "Sample PDF text"))
       (PDFAnalyzerHTTP.set_client
          (snd (MCPHTTPClient.extract_text sample_env "report.PDF"
                  (fresh_client sample_env)))
          (PDFAnalyzerHTTP.init sample_env "http://localhost:3000" None true [])))
  /\ PDFAnalyzerHTTP.summarize_pdf sample_env canned_agent "report.PDF"
       (PDFAnalyzerHTTP.init sample_env "http://localhost:3000" None false []) =
     (Ok (PyStr "Sample PDF text"),
      PDFAnalyzerHTTP.set_client
        (snd (MCPHTTPClient.extract_text sample_env "report.PDF"
                (fresh_client sample_env)))
        (PDFAnalyzerHTTP.init sample_env "http://localhost:3000" None false [])).
Proof.
  split.
  - apply (summarize_pdf_after_extraction sample_env canned_agent
             (PDFAnalyzerHTTP.init sample_env "http://localhost:3000" None true [])
             "report.PDF" (Ok (PyStr "Sample PDF text"))
             (snd (MCPHTTPClient.extract_text sample_env "report.PDF"
                     (fresh_client sample_env)))).
    by_computation.
  - apply (summarize_pdf_after_extraction sample_env canned_agent
             (PDFAnalyzerHTTP.init sample_env "http://localhost:3000" None false [])
             "report.PDF" (Ok (PyStr "Sample PDF text"))
             (snd (MCPHTTPClient.extract_text sample_env "report.PDF"
                     (fresh_client sample_env)))).
    by_computation.
Defined.

Lemma analyze_pdf_result_witness :
  exists result : gmap string pyval,
    result !! "text_length" = Some (PyInt 15) /\
    result !! "word_count" = Some (PyInt 3) /\
    fst (PDFAnalyzerHTTP.analyze_pdf sample_env canned_agent "report.PDF"
           (PDFAnalyzerHTTP.init sample_env "http://localhost:3000" None
              true [])) =
      Ok (PyDict (<["summary" := PyStr "A summary."]> result)).
Proof.
  destruct (analyze_pdf_result sample_env canned_agent
              (PDFAnalyzerHTTP.init sample_env "http://localhost:3000" None
                 true [])
              "report.PDF" "Sample PDF text" (PyDict sample_text_value)
              (snd (MCPHTTPClient.extract_text sample_env "report.PDF"
                      (fresh_client sample_env)))
              (snd (MCPHTTPClient.extract_metadata sample_env "report.PDF"
                      (snd (MCPHTTPClient.extract_text sample_env "report.PDF"
                              (fresh_client sample_env)))))
              ltac:(by_computation) ltac:(by_computation))
    as (result & _ & _ & _ & Hlength & Hwords & _ & _ & _ & _ & Hagent).
  exists result.
  split; [exact Hlength|]. split; [exact Hwords|].
  exact (proj2 (Hagent eq_refl)).
Defined.

Lemma requests_follow_configuration_witness :
  MCPHTTPClient.self
    (run_methods sample_env [ExtractText "report.PDF"; HealthCheck]
       (fresh_client sample_env)) =
    MCPHTTPClient.set_request_id 1
      (MCPHTTPClient.init sample_env "http://localhost:3000/" None 30 60)
  /\ MCPHTTPClient.headers
       (MCPHTTPClient.init sample_env "http://localhost:3000/" (Some "secret")
          30 60) !! "Authorization" = Some "Bearer secret".
Proof.
  split.
  - exact (proj1 (proj2 (requests_follow_configuration sample_env
             "http://localhost:3000/" None 30 60 []
             [ExtractText "report.PDF"; HealthCheck]))).
  - exact (proj1 (proj2 (proj2 (proj2 (proj2
             (requests_follow_configuration sample_env
                "http://localhost:3000/" (Some "secret") 30 60 [] [])))))).
Defined.

Lemma validate_pdf_path_succeeds_iff_witness :
  is_Ok (fst (PDFUtils.validate_pdf_path (offline_env demo_fs) "report.PDF" []))
    = true
  /\ fst (PDFUtils.validate_pdf_path (offline_env demo_fs) "report.PDF" []) =
       Ok (Pathlib.parse "/srv/docs/report.PDF").
Proof.
  destruct (validate_pdf_path_succeeds_iff (offline_env demo_fs) "report.PDF" [])
    as [Hiff Hresolved].
  assert (H : is_Ok (fst (PDFUtils.validate_pdf_path (offline_env demo_fs)
                            "report.PDF" [])) = true).
  { apply (proj2 Hiff). split; [vm_compute; discriminate|].
    split; by_computation. }
  split; [exact H|].
  destruct (fst (PDFUtils.validate_pdf_path (offline_env demo_fs)
                   "report.PDF" [])) as [resolved|e] eqn:E;
    [|discriminate H].
  rewrite (Hresolved resolved eq_refl). by_computation.
Defined.

Lemma read_pdf_as_base64_opens_after_validation_witness :
  exists checks,
    existsb is_open checks = false /\
    snd (PDFUtils.read_pdf_as_base64 (offline_env demo_fs) "report.PDF" []) =
      (checks ++ [OpenRead (Pathlib.parse "/srv/docs/report.PDF")])%list.
Proof.
  destruct (read_pdf_as_base64_opens_after_validation (offline_env demo_fs)
              "report.PDF" []) as (checks & _ & Hnone & Hopen).
  exists checks. split; [exact Hnone|exact Hopen].
Defined.

Lemma get_pdf_size_of_validated_file_witness :
  fst (PDFUtilsStat.get_pdf_size (offline_env demo_fs) (fun _ => 4096)
         "report.PDF" []) = Ok (Z.of_nat (List.length fake_pdf))
  /\ fst (PDFUtilsStat.get_pdf_size (offline_env demo_fs) (fun _ => 4096)
            "missing.pdf" []) =
       Raise (FileNotFoundError "PDF file not found: missing.pdf").
Proof.
  split.
  - apply (proj2 (proj2 (get_pdf_size_of_validated_file (offline_env demo_fs)
                           (fun _ => 4096) "report.PDF" []))
             (Pathlib.parse "/srv/docs/report.PDF") fake_pdf); by_computation.
  - apply (proj1 (proj2 (get_pdf_size_of_validated_file (offline_env demo_fs)
                           (fun _ => 4096) "missing.pdf" []))).
    by_computation.
Defined.

Lemma create_request_injective_witness :
  "tools/call" = "tools/call"
  /\ (∅ : gmap string pyval) = ∅
  /\ MCPProtocol.IntId 7 = MCPProtocol.IntId 7.
Proof.
  apply (proj1 (create_request_injective "tools/call" ∅ (MCPProtocol.IntId 7)
                  "tools/call" ∅ (MCPProtocol.IntId 7) "" ∅ "" ∅)).
  reflexivity.
Defined.

Lemma analyze_pdf_stops_at_failure_witness :
  fst (PDFAnalyzerHTTP.analyze_pdf unreachable_env canned_agent "report.PDF"
         (PDFAnalyzerHTTP.init unreachable_env "http://localhost:3000" None
            true [])) = Raise (TransportError ConnectionRefused)
  /\ PDFAnalyzerHTTP.analyze_pdf (turns_env [sample_body; "<html>"])
       canned_agent "report.PDF"
       (PDFAnalyzerHTTP.init (turns_env [sample_body; "<html>"])
          "http://localhost:3000" None true []) =
     (Raise JSONDecodeError,
      PDFAnalyzerHTTP.set_client
        (run_methods (turns_env [sample_body; "<html>"])
           [ExtractText "report.PDF"; ExtractMetadata "report.PDF"]
           (fresh_client (turns_env [sample_body; "<html>"])))
        (PDFAnalyzerHTTP.init (turns_env [sample_body; "<html>"])
           "http://localhost:3000" None true [])).
Proof.
  split.
  - rewrite (proj1 (analyze_pdf_stops_at_failure unreachable_env canned_agent
                      (PDFAnalyzerHTTP.init unreachable_env
                         "http://localhost:3000" None true [])
                      "report.PDF")
               (TransportError ConnectionRefused)
               (snd (MCPHTTPClient.extract_text unreachable_env "report.PDF"
                       (fresh_client unreachable_env)))
               ltac:(by_computation)).
    reflexivity.
  - apply (proj1 (proj2 (analyze_pdf_stops_at_failure
                     (turns_env [sample_body; "<html>"]) canned_agent
                     (PDFAnalyzerHTTP.init (turns_env [sample_body; "<html>"])
                        "http://localhost:3000" None true [])
                     "report.PDF"))
             (PyStr "Sample PDF text")
             (run_methods (turns_env [sample_body; "<html>"])
                [ExtractText "report.PDF"]
                (fresh_client (turns_env [sample_body; "<html>"])))
             JSONDecodeError); by_computation.
Defined.

Lemma stdio_methods_validate_then_prompt_witness :
  PDFSummarizerStdio.summarize_pdf (offline_env demo_fs) canned_agent
    "report.PDF"
    {| PDFSummarizerStdio.log := []; PDFSummarizerStdio.prompts := [] |} =
    (Ok "A summary.",
     {| PDFSummarizerStdio.log :=
          [PathExists (Pathlib.parse "report.PDF");
           PathResolve (Pathlib.parse "report.PDF")];
        PDFSummarizerStdio.prompts :=
          ["Please summarize the PDF file at: /srv/docs/report.PDF"] |})
  /\ fst (PDFSummarizerStdio.get_metadata (offline_env demo_fs) canned_agent
            "notes.txt"
            {| PDFSummarizerStdio.log := [];
               PDFSummarizerStdio.prompts := [] |}) =
       Raise (ValueError "File is not a PDF: notes.txt").
Proof.
  split.
  - exact (proj1 (proj2 (proj2 (stdio_methods_validate_then_prompt
             (offline_env demo_fs) canned_agent
             {| PDFSummarizerStdio.log := []; PDFSummarizerStdio.prompts := [] |}
             "report.PDF")))).
  - exact (f_equal fst (proj2 (proj2 (proj2 (stdio_methods_validate_then_prompt
             (offline_env demo_fs) canned_agent
             {| PDFSummarizerStdio.log := []; PDFSummarizerStdio.prompts := [] |}
             "notes.txt"))))).
Defined.
